(** * AgriHub API server

    A model of the request handlers of [index.js] (the PostgreSQL flavoured
    server) and [index-sqlite.js] (the SQLite server): OTP based
    authentication, session tokens, role gating, the equipment and produce
    listings and the transactional creation of orders.

    Conventions of the model.
    - A handler is a function from the state of the server (tables, the
      in-memory [otpStore], the environment) and a request to a response and
      a new state.  [Date.now()] and [Math.random()] are inputs of the
      handlers that call them.
    - JSON fields that may be missing are [option] values; the fields are
      strings, integers or identifiers as the handlers expect them.  The
      fields that a handler binds as they come are wider: the stock is any
      JSON number or string, the specifications any JSON value.
    - Money columns ([DECIMAL(10,2)], [REAL]) are integers counting
      hundredths.  JavaScript computes the product and the sum of such
      amounts in binary64; the model computes them exactly, which is what
      a [DECIMAL(10,2)] column stores of them, since it rounds them to the
      hundredth.  The [totalAmount] of a response is the double itself,
      3.3000000000000003 for 1.10 times 3: the model names it by the
      amount it stands for, 330 hundredths, and tells nothing of its
      digits.
    - The query parameters [page] and [limit] are decimal integers, of any
      size; what JavaScript computes from them is computed in binary64.
    - Generated UUIDs ([gen_random_uuid()], [uuidv4()]) are drawn from a
      counter, [uuid_supply]: two draws never collide. *)

From Stdlib Require Import ZArith Lia Ascii.
From stdpp Require Import base strings gmap list sorting pretty numbers.

Local Open Scope Z_scope.

(** ** JavaScript values *)

(** [!v] for a string field [v] that may be missing. *)
Definition falsy (v : option string) : bool :=
  match v with
  | None => true
  | Some s => bool_decide (s = "")
  end.

(** The string a field holds once [falsy] has excluded the missing one. *)
Definition str (v : option string) : string := default "" v.

(** ** Numbers (IEEE 754 binary64) *)

(** The binary64 nearest an integer, ties to even: an integer of 53
    significant bits. *)
Definition round53 (z : Z) : Z :=
  let a := Z.abs z in
  let sh := Z.log2 a - 52 in
  if bool_decide (sh ≤ 0) then z
  else
    let q := a `div` 2 ^ sh in
    let r := a `mod` 2 ^ sh in
    let half := 2 ^ (sh - 1) in
    let q' :=
      if bool_decide (half < r) || bool_decide (r = half) && Z.odd q
      then q + 1 else q in
    Z.sgn z * (q' * 2 ^ sh).

(** The numbers that the listings compute: integers that are binary64
    values, the infinities and [NaN].  [-0] is [Num 0]: it prints and binds
    as [0]. *)
Inductive Number :=
  | Num (z : Z)
  | Inf (negative : bool)
  | NaN.

#[global] Instance Number_eq_dec : EqDecision Number.
Proof. solve_decision. Defined.

(** The Number value of an integer: [Number(s)] and [parseInt(s)] of its
    decimal digits [s], and the product of two numbers before it is
    rounded. *)
Definition to_number (z : Z) : Number :=
  let r := round53 z in
  if bool_decide (2 ^ 1024 ≤ Z.abs r) then Inf (bool_decide (z < 0))
  else Num r.

(** [a - 1] *)
Definition Number_pred (a : Number) : Number :=
  match a with
  | Num z => to_number (z - 1)
  | Inf _ | NaN => a
  end.

(** [a * b] *)
Definition Number_mul (a b : Number) : Number :=
  match a, b with
  | NaN, _ | _, NaN => NaN
  | Num x, Num y => to_number (x * y)
  | Inf n, Num y | Num y, Inf n =>
      if bool_decide (y = 0) then NaN else Inf (xorb n (bool_decide (y < 0)))
  | Inf n, Inf m => Inf (xorb n m)
  end.

(** The number of decimal digits of a natural number. *)
Definition digits (x : Z) : Z := Z.of_nat (String.length (pretty x)).

(** Of the two multiples of [unit] around [x], from [lo] to [lo + unit],
    those that read back as [x], and of them the nearer to [x], the even
    one at a tie. *)
Definition nearest (x unit lo : Z) : option Z :=
  let hi := lo + unit in
  let reads c := bool_decide (to_number c = Num x) in
  match reads lo, reads hi with
  | true, true =>
      if bool_decide (x - lo < hi - x) then Some lo
      else if bool_decide (hi - x < x - lo) then Some hi
      else if Z.even (lo `div` unit) then Some lo else Some hi
  | true, false => Some lo
  | false, true => Some hi
  | false, false => None
  end.

Fixpoint shortest_from (fuel : nat) (x unit : Z) : Z :=
  match fuel with
  | O => x
  | S fuel =>
      match nearest x unit (x `div` unit * unit) with
      | Some c => c
      | None => shortest_from fuel x (unit `div` 10)
      end
  end.

(** The decimal that [Number::toString] prints for a natural number [x]
    that is a binary64 value: the fewest significant digits, then zeros,
    that read back as [x]. *)
Definition shortest (x : Z) : Z :=
  let d := digits x in shortest_from (Z.to_nat d) x (10 ^ (d - 1)).

(** A number as a string, by what its readers see: the digits of an
    integer, the exponent form that starts with the digit [lead]
    ([1e+22]), or a word ([Infinity], [NaN]). *)
Inductive Shown :=
  | Decimal (value : Z)
  | Scientific (lead : Z)
  | Word.

(** [String(n)]; the exponent form is for 10^21 and above. *)
Definition Number_toString (n : Number) : Shown :=
  match n with
  | Num z =>
      let c := shortest (Z.abs z) in
      if bool_decide (10 ^ 21 ≤ c)
      then Scientific (Z.sgn z * (c `div` 10 ^ (digits c - 1)))
      else Decimal (Z.sgn z * c)
  | Inf _ | NaN => Word
  end.

(** [parseInt(n)] of a number, which reads the leading integer of
    [String(n)]. *)
Definition parseInt (n : Number) : Number :=
  match Number_toString n with
  | Decimal v => to_number v
  | Scientific lead => Num lead
  | Word => NaN
  end.

(** A query parameter as the code uses it in arithmetic and gives it to
    [parseInt]: the string of the request, or the default, a number. *)
Definition param (default_value : Z) (p : option Z) : Number :=
  to_number (default default_value p).

(** [(page - 1) * limit] *)
Definition offset_of (page limit : option Z) : Number :=
  Number_mul (Number_pred (param 1 page)) (param 10 limit).

(** ** JSON values *)

(** The values of a body that a handler passes on without reading them.
    An object has its members in the order in which JavaScript enumerates
    them; a finite number is given by the text that JavaScript prints for
    it. *)
#[local] Unset Elimination Schemes.
Inductive Json :=
  | JsonNull
  | JsonBool (b : bool)
  | JsonNumber (shown : string)
  | JsonString (s : string)
  | JsonArray (items : list Json)
  | JsonObject (members : list (string * Json)).
#[local] Set Elimination Schemes.

Definition hex (n : N) : string :=
  if bool_decide (n < 10)%N then pretty n
  else String (Ascii.ascii_of_N (n + 87)) "".

(** A character inside the quotes of [JSON.stringify]. *)
Definition escape (c : Ascii.ascii) : string :=
  let n := Ascii.N_of_ascii c in
  if bool_decide (n = 34)%N || bool_decide (n = 92)%N
  then String "\"%char (String c "")
  else if bool_decide (n = 8)%N then "\b"
  else if bool_decide (n = 9)%N then "\t"
  else if bool_decide (n = 10)%N then "\n"
  else if bool_decide (n = 12)%N then "\f"
  else if bool_decide (n = 13)%N then "\r"
  else if bool_decide (n < 32)%N
  then "\u00" +:+ hex (n `div` 16)%N +:+ hex (n `mod` 16)%N
  else String c "".

Fixpoint escaped (s : string) : string :=
  match s with
  | EmptyString => ""
  | String c rest => escape c +:+ escaped rest
  end.

Definition quote : string := String (Ascii.ascii_of_nat 34) "".

(** [JSON.stringify] of a string *)
Definition quoted (s : string) : string := quote +:+ escaped s +:+ quote.

Definition joined (parts : list string) : string :=
  match parts with
  | [] => ""
  | first :: rest => foldl (λ acc part, acc +:+ "," +:+ part) first rest
  end.

(** [JSON.stringify(v)] *)
Fixpoint JSON_stringify (v : Json) : string :=
  match v with
  | JsonNull => "null"
  | JsonBool true => "true"
  | JsonBool false => "false"
  | JsonNumber shown => shown
  | JsonString s => quoted s
  | JsonArray items => "[" +:+ joined (map JSON_stringify items) +:+ "]"
  | JsonObject members =>
      "{"
      +:+ joined
            (map (λ m, quoted (fst m) +:+ ":" +:+ JSON_stringify (snd m))
               members)
      +:+ "}"
  end.

(** ** Values of the [stock_kg] columns *)

(** A binary64 that is stored as a REAL. *)
Inductive Real :=
  | Dyadic (m e : Z)
  | Infinite (negative : bool).

#[global] Instance Real_eq_dec : EqDecision Real.
Proof. solve_decision. Defined.

(** What a [stock_kg] column holds when it is not NULL.  PostgreSQL types
    the column: an INTEGER.  SQLite types the value: the INTEGER affinity
    of the column turns what it can into an INTEGER and keeps a REAL that
    is no 64-bit integer, and a text that is no number, as they are. *)
Inductive Stock :=
  | StockInt (kg : Z)
  | StockReal (r : Real)
  | StockText (s : string).

#[global] Instance Stock_eq_dec : EqDecision Stock.
Proof. solve_decision. Defined.

(** *** Numeric literals in text *)

Definition is_space (c : Ascii.ascii) : bool :=
  let n := Ascii.N_of_ascii c in
  bool_decide (n = 32)%N || bool_decide (9 ≤ n ≤ 13)%N.

Definition digit_of (c : Ascii.ascii) : option Z :=
  let n := Z.of_N (Ascii.N_of_ascii c) in
  if bool_decide (48 ≤ n ≤ 57) then Some (n - 48) else None.

Fixpoint skip_spaces (s : string) : string :=
  match s with
  | String c rest => if is_space c then skip_spaces rest else s
  | EmptyString => s
  end.

(** The digits that [s] starts with, after the digits read so far: their
    value, their number, and what follows them. *)
Fixpoint read_digits (value count : Z) (s : string) : Z * Z * string :=
  match s with
  | String c rest =>
      match digit_of c with
      | Some d => read_digits (value * 10 + d) (count + 1) rest
      | None => (value, count, s)
      end
  | EmptyString => (value, count, s)
  end.

Definition read_sign (s : string) : bool * string :=
  match s with
  | String "-"%char rest => (true, rest)
  | String "+"%char rest => (false, rest)
  | _ => (false, s)
  end.

(** A numeric literal: [significand · 10^exponent], negated or not;
    [whole] when it has neither a point nor an exponent. *)
Record Literal := mkLiteral {
  negative : bool;
  significand : Z;
  exponent : Z;
  whole : bool;
}.

(** The literal that a text is, with spaces around it: a sign, digits with
    a point among them, an exponent. *)
Definition parse_literal (s : string) : option Literal :=
  let '(neg, s) := read_sign (skip_spaces s) in
  let '(v1, n1, s) := read_digits 0 0 s in
  let '(v, n2, s, point) :=
    match s with
    | String "."%char rest =>
        let '(v2, n2, rest) := read_digits v1 0 rest in (v2, n2, rest, true)
    | _ => (v1, 0, s, false)
    end in
  if bool_decide (n1 + n2 = 0) then None
  else
    let exp : option (Z * string * bool) :=
      match s with
      | String c rest =>
          if bool_decide (c = "e"%char) || bool_decide (c = "E"%char) then
            let '(eneg, rest) := read_sign rest in
            let '(e, ne, rest) := read_digits 0 0 rest in
            if bool_decide (ne = 0) then None
            else Some (if eneg then - e else e, rest, true)
          else Some (0, s, false)
      | EmptyString => Some (0, s, false)
      end in
    match exp with
    | Some (e, s, has_exp) =>
        match skip_spaces s with
        | EmptyString =>
            Some (mkLiteral neg v (e - n2) (negb point && negb has_exp))
        | _ => None
        end
    | None => None
    end.

(** The binary64 nearest [p / q], for [0 ≤ p] and [0 < q], ties to even,
    with the sign given. *)
Definition round64 (neg : bool) (p q : Z) : Real :=
  if bool_decide (p = 0) then Dyadic 0 0
  else
    let scaled e :=
      if bool_decide (0 ≤ e) then p `div` (q * 2 ^ e)
      else (p * 2 ^ (- e)) `div` q in
    let e0 := Z.log2 p - Z.log2 q - 52 in
    let e1 := if bool_decide (scaled e0 < 2 ^ 52) then e0 - 1 else e0 in
    let e := Z.max e1 (-1074) in
    let num := if bool_decide (0 ≤ e) then p else p * 2 ^ (- e) in
    let den := if bool_decide (0 ≤ e) then q * 2 ^ e else q in
    let m0 := num `div` den in
    let r := num `mod` den in
    let m :=
      if bool_decide (den < 2 * r) || bool_decide (2 * r = den) && Z.odd m0
      then m0 + 1 else m0 in
    if bool_decide (0 ≤ e) && bool_decide (2 ^ 1024 ≤ m * 2 ^ e)
    then Infinite neg
    else Dyadic (if neg then - m else m) e.

(** The integer that a REAL is, when it is one. *)
Definition Real_integer (r : Real) : option Z :=
  match r with
  | Dyadic m e =>
      if bool_decide (0 ≤ e) then Some (m * 2 ^ e)
      else if bool_decide (m `mod` 2 ^ (- e) = 0) then Some (m `div` 2 ^ (- e))
      else None
  | Infinite _ => None
  end.

(** The INTEGER affinity on a REAL: an INTEGER when the REAL is an integer
    strictly between the least and the greatest 64-bit integer. *)
Definition integer_affinity (r : Real) : Stock :=
  match Real_integer r with
  | Some z =>
      if bool_decide (- 2 ^ 63 < z < 2 ^ 63 - 1) then StockInt z
      else StockReal r
  | None => StockReal r
  end.

(** The REAL of a literal. *)
Definition Literal_real (l : Literal) : Real :=
  if bool_decide (0 ≤ exponent l)
  then round64 (negative l) (significand l * 10 ^ exponent l) 1
  else round64 (negative l) (significand l) (10 ^ (- exponent l)).

(** The [stockKg] of a body, when it is given and not [null]: a JSON
    number, by its literal, or a JSON string. *)
Inductive StockKg :=
  | KgNumber (l : Literal)
  | KgString (s : string).

(** The JSON number that is the integer [z]. *)
Definition kg (z : Z) : StockKg :=
  KgNumber (mkLiteral (bool_decide (z < 0)) (Z.abs z) 0 true).

(** ** Rows of the tables created by [initDB] *)

Definition uuid := nat.
Bind Scope nat_scope with uuid.

Record User := mkUser {
  user_id : uuid;
  user_name : string;
  user_email : option string;
  user_phone : string;
  user_role : string;
  user_location : option string;
  user_is_verified : bool;
}.

Record Equipment := mkEquipment {
  equipment_id : uuid;
  equipment_owner_id : option uuid;
  equipment_name : string;
  equipment_type : string;
  equipment_description : option string;
  equipment_specifications : option string;
  equipment_base_rate_per_day : Z;
  equipment_location : option string;
  equipment_availability_status : option string;
  equipment_images : option (list string);
  equipment_created_at : Z;
}.

Record Produce := mkProduce {
  produce_id : uuid;
  produce_farmer_id : option uuid;
  produce_name : string;
  produce_category : string;
  produce_description : option string;
  produce_price_per_kg : Z;
  produce_stock_kg : option Stock;
  produce_organic : option bool;
  produce_created_at : Z;
}.

Record Product := mkProduct {
  product_id : uuid;
  product_supplier_id : option uuid;
  product_name : string;
  product_category : string;
  product_price_per_unit : Z;
  product_unit : string;
  product_stock_quantity : option Z;
}.

Record Order := mkOrder {
  order_id : uuid;
  order_buyer_id : option uuid;
  order_seller_id : option uuid;
  order_total_amount : Z;
  order_status : string;
  order_payment_status : string;
  order_delivery_address : option string;
}.

Record OrderItem := mkOrderItem {
  oi_id : uuid;
  oi_order_id : option uuid;
  oi_product_id : option uuid;
  oi_produce_id : option uuid;
  oi_quantity : Z;
  oi_unit_price : Z;
  oi_total_price : Z;
}.

Record Db := mkDb {
  users : list User;
  equipment : list Equipment;
  produce : list Produce;
  products : list Product;
  orders : list Order;
  order_items : list OrderItem;
}.

#[global] Instance User_eq_dec : EqDecision User.
Proof. solve_decision. Defined.
#[global] Instance Order_eq_dec : EqDecision Order.
Proof. solve_decision. Defined.
#[global] Instance OrderItem_eq_dec : EqDecision OrderItem.
Proof. solve_decision. Defined.

(** ** Column constraints of the schema *)

(** [role VARCHAR(50) NOT NULL CHECK (role IN (...))] *)
Definition ROLES : list string :=
  ["farmer"; "equipment_provider"; "input_supplier"; "transport_provider";
   "consumer"; "admin"].

Definition check_role (role : string) : bool := bool_decide (role ∈ ROLES).

(** [VARCHAR(n)]: PostgreSQL refuses a longer value. *)
Definition varchar (n : nat) (s : string) : bool :=
  bool_decide (String.length s ≤ n)%nat.

Definition varchar_null (n : nat) (v : option string) : bool :=
  match v with
  | None => true
  | Some s => varchar n s
  end.

(** [DECIMAL(10,2)], in hundredths: at most eight digits before the point. *)
Definition decimal_10_2 (v : Z) : bool := bool_decide (Z.abs v < 10 ^ 10).

(** [INTEGER]: a signed 32-bit value. *)
Definition integer (v : Z) : bool := bool_decide (- 2 ^ 31 ≤ v < 2 ^ 31).

(** [REFERENCES t(id)]: NULL, or the id of a row of [t]. *)
Definition references (ids : list uuid) (v : option uuid) : bool :=
  match v with
  | None => true
  | Some i => bool_decide (i ∈ ids)
  end.

(** [phone ... UNIQUE] and [email ... UNIQUE]; NULL never conflicts. *)
Definition unique_phone (us : list User) (phone : string) : bool :=
  bool_decide (Forall (λ u, user_phone u ≠ phone) us).

Definition unique_email (us : list User) (email : option string) : bool :=
  match email with
  | None => true
  | Some e => bool_decide (Forall (λ u, user_email u ≠ Some e) us)
  end.

(** ** Session tokens ([jsonwebtoken]) *)

Record JwtPayload := mkPayload {
  userId : uuid;
  phone : string;
  role : string;
}.

(** A token is either a payload signed under a key with an expiry (in
    seconds), or any other string. *)
Inductive Token :=
  | Jwt (payload : JwtPayload) (key : string) (exp : Z)
  | Opaque (s : string).

(** [process.env.JWT_SECRET || 'fallback_secret'] *)
Definition secret (JWT_SECRET : option string) : string :=
  if falsy JWT_SECRET then "fallback_secret" else str JWT_SECRET.

(** [jwt.sign(payload, key, { expiresIn: '7d' })] at time [now] (ms). *)
Definition jwt_sign (payload : JwtPayload) (key : string) (now : Z) : Token :=
  Jwt payload key (now `div` 1000 + 7 * 24 * 3600).

(** [jwt.verify(token, key, callback)]: the payload, or [None] for [err]. *)
Definition jwt_verify (token : Token) (key : string) (now : Z)
  : option JwtPayload :=
  match token with
  | Jwt payload k exp =>
      if bool_decide (k = key) && bool_decide (now `div` 1000 < exp)
      then Some payload else None
  | Opaque _ => None
  end.

(** ** One-time passwords *)

(** [Math.floor(100000 + Math.random() * 900000)], less 100000, for the
    value [m · 2^-53] of [Math.random()].  The product and the sum are
    rounded to binary64; here they are scaled by 2^53, so that they are
    integers. *)
Definition random_draw (m : Z) : Z :=
  round53 (round53 (m * 900000) + 100000 * 2 ^ 53) `div` 2 ^ 53 - 100000.

(** [Math.floor(100000 + Math.random() * 900000).toString()], where [u] is
    the integer that [Math.floor] gives, less 100000: [random_draw m] for
    the value of [Math.random()]. *)
Definition generateOTP (u : Z) : string := pretty (100000 + u).

Record UserData := mkUserData {
  ud_name : string;
  ud_email : option string;
  ud_phone : string;
  ud_role : string;
  ud_location : option string;
}.

Record OtpEntry := mkOtp {
  otp : string;
  userData : option UserData;
  expiresAt : Z;
}.

(** ** Server state *)

Record Server := mkServer {
  db : Db;
  otpStore : gmap string OtpEntry;
  uuid_supply : nat;
  JWT_SECRET : option string;
}.

Definition set_db (s : Server) (d : Db) : Server :=
  mkServer d (otpStore s) (uuid_supply s) (JWT_SECRET s).

Definition set_otpStore (s : Server) (m : gmap string OtpEntry) : Server :=
  mkServer (db s) m (uuid_supply s) (JWT_SECRET s).

(** Draw a UUID. *)
Definition draw_uuid (s : Server) : uuid * Server :=
  (uuid_supply s, mkServer (db s) (otpStore s) (S (uuid_supply s)) (JWT_SECRET s)).

(** ** Responses *)

(** The columns [id, name, email, phone, role, location] of a user. *)
Record UserView := mkUserView {
  view_id : uuid;
  view_name : string;
  view_email : option string;
  view_phone : string;
  view_role : string;
  view_location : option string;
}.

Definition view (u : User) : UserView :=
  mkUserView (user_id u) (user_name u) (user_email u) (user_phone u)
    (user_role u) (user_location u).

(** [{ page: parseInt(page), limit: parseInt(limit), total }] *)
Record Pagination := mkPagination {
  page : Number;
  limit : Number;
  total : nat;
}.

(** The JSON of a response.  The [totalAmount] of an order is the amount
    that the double of the code stands for, in hundredths. *)
Inductive Body :=
  | JError (error : string)
  | JMessage (message : string) (phone : string)
  | JSession (token : Token) (user : UserView)
  | JEquipmentList (equipment : list (Equipment * User)) (pagination : Pagination)
  | JProduceList (produce : list (Produce * User)) (pagination : Pagination)
  | JEquipment (row : option Equipment)
  | JOrder (orderId : uuid) (totalAmount : Z).

Record Response := mkResponse {
  status : Z;
  body : Body;
}.

Definition json (b : Body) : Response := mkResponse 200 b.
Definition error (code : Z) (msg : string) : Response := mkResponse code (JError msg).

(** ** Middleware *)

Record Headers := mkHeaders {
  (** the [Authorization] header, split at its spaces *)
  authorization : option (list Token);
}.

(** [authenticateToken]: [next] receives [req.user]. *)
Definition authenticateToken {A} (now : Z) (s : Server) (h : Headers)
    (fail : Response → A) (next : JwtPayload → A) : A :=
  let token := h.(authorization) ≫= (λ pieces, pieces !! 1%nat) in
  match token with
  | None | Some (Opaque "") => fail (error 401 "Access token required")
  | Some t =>
      match jwt_verify t (secret (JWT_SECRET s)) now with
      | None => fail (error 403 "Invalid or expired token")
      | Some user => next user
      end
  end.

(** [authorizeRole(roles)] *)
Definition authorizeRole {A} (roles : list string) (user : JwtPayload)
    (fail : Response → A) (next : A) : A :=
  if negb (bool_decide (role user ∈ roles))
  then fail (error 403 "Insufficient permissions")
  else next.

(** ** Request bodies *)

Record RegisterBody := mkRegisterBody {
  reg_name : option string;
  reg_email : option string;
  reg_phone : option string;
  reg_role : option string;
  reg_location : option string;
}.

Record OtpBody := mkOtpBody {
  body_phone : option string;
  body_otp : option string;
}.

(** ** Control flow inside a handler: go on with a value, [return res...]
    early, or throw into the handler's [catch]. *)
Inductive Step (A : Type) :=
  | Next (a : A) (s : Server)
  | Return (r : Response) (s : Server)
  | Throw (s : Server).
Arguments Next {A} a s.
Arguments Return {A} r s.
Arguments Throw {A} s.

(** ** Table updates *)

Definition with_users (d : Db) (us : list User) : Db :=
  mkDb us (equipment d) (produce d) (products d) (orders d) (order_items d).

Definition with_equipment (d : Db) (es : list Equipment) : Db :=
  mkDb (users d) es (produce d) (products d) (orders d) (order_items d).

Definition with_orders (d : Db) (os : list Order) : Db :=
  mkDb (users d) (equipment d) (produce d) (products d) os (order_items d).

Definition with_order_items (d : Db) (its : list OrderItem) : Db :=
  mkDb (users d) (equipment d) (produce d) (products d) (orders d) its.

(** [id ... PRIMARY KEY] *)
Definition primary_key (ids : list uuid) (id : uuid) : bool :=
  bool_decide (id ∉ ids).

(** [SELECT ... FROM users WHERE phone = $1 OR email = $2] *)
Definition users_by_phone_or_email (d : Db) (phone : string)
    (email : option string) : list User :=
  filter (λ u, user_phone u = phone ∨ (is_Some email ∧ user_email u = email))
    (users d).

(** [SELECT ... FROM users WHERE phone = $1] *)
Definition users_by_phone (d : Db) (phone : string) : list User :=
  filter (λ u, user_phone u = phone) (users d).

(** [SELECT ... FROM users WHERE id = $1] *)
Definition users_by_id (d : Db) (id : uuid) : list User :=
  filter (λ u, user_id u = id) (users d).

(** The session a verified user gets: the tail of both [verify-otp]
    handlers, from [jwt.sign] on. *)
Definition session (now : Z) (phone : string) (user : User) (s : Server)
  : Response * Server :=
  let token :=
    jwt_sign (mkPayload (user_id user) (user_phone user) (user_role user))
      (secret (JWT_SECRET s)) now in
  (json (JSession token (view user)),
   set_otpStore s (delete phone (otpStore s))).

(** ** Handler code as a state and exception monad

    A computation runs on the server state and goes on with a value,
    returns a response early, or throws. *)
Definition Handler (A : Type) : Type := Server → Step A.

#[global] Instance Handler_ret : MRet Handler := λ A a s, Next a s.

#[global] Instance Handler_bind : MBind Handler := λ A B f m s,
  match m s with
  | Next a s' => f a s'
  | Return r s' => Return r s'
  | Throw s' => Throw s'
  end.

Definition throw {A} : Handler A := λ s, Throw s.

(** A statement run on the database: its result, or the error it raises. *)
Definition query {A} (q : Db → option (Db * A)) : Handler A := λ s,
  match q (db s) with
  | Some (d, a) => Next a (set_db s d)
  | None => Throw s
  end.

Definition gen_uuid : Handler uuid := λ s,
  let '(id, s') := draw_uuid s in Next id s'.

(** ** Listings *)

Record EquipmentQuery := mkEquipmentQuery {
  eq_page : option Z;
  eq_limit : option Z;
  eq_type : option string;
  eq_location : option string;
}.

Record ProduceQuery := mkProduceQuery {
  pq_page : option Z;
  pq_limit : option Z;
  pq_category : option string;
  pq_organic : option string;
}.

(** [FROM t JOIN users u ON t.fk = u.id] *)
Definition join_users {A} (fk : A → option uuid) (rows : list A)
    (us : list User) : list (A * User) :=
  rows ≫= λ r, (λ u, (r, u)) <$> filter (λ u, fk r = Some (user_id u)) us.

(** [ORDER BY created_at DESC] *)
Definition newer {A} (created_at : A → Z) (a b : A * User) : Prop :=
  created_at b.1 ≤ created_at a.1.

#[global] Instance newer_dec {A} (created_at : A → Z) (a b : A * User)
  : Decision (newer created_at a b).
Proof. unfold newer. apply _. Defined.

(** [e.availability_status = 'available'] *)
Definition available (e : Equipment) : Prop :=
  equipment_availability_status e = Some "available".

(** [p.stock_kg > 0] on the INTEGER column of PostgreSQL *)
Definition in_stock (p : Produce) : Prop :=
  ∃ kg, produce_stock_kg p = Some (StockInt kg) ∧ 0 < kg.

#[global] Instance in_stock_dec (p : Produce) : Decision (in_stock p).
Proof.
  unfold in_stock. destruct (produce_stock_kg p) as [[kg|r|t]|].
  - destruct (decide (0 < kg));
      [left; eauto | right; intros (? & [= <-] & ?); lia].
  - right. intros (? & [=] & ?).
  - right. intros (? & [=] & ?).
  - right. intros (? & [=] & ?).
Defined.

(** [p.stock_kg > 0] in SQLite, which compares the values by their types:
    a number with 0, and any text is greater than any number. *)
Definition stocked (st : option Stock) : bool :=
  match st with
  | Some (StockInt kg) => bool_decide (0 < kg)
  | Some (StockReal (Dyadic m _)) => bool_decide (0 < m)
  | Some (StockReal (Infinite neg)) => negb neg
  | Some (StockText _) => true
  | None => false
  end.

(** A nullable text column against a pattern. *)
Definition matches (like : string → string → bool) (pattern : string)
    (column : option string) : Prop :=
  ∃ v, column = Some v ∧ like pattern v = true.

#[global] Instance matches_dec like pattern column
  : Decision (matches like pattern column).
Proof.
  unfold matches. destruct column as [v|].
  - destruct (like pattern v) eqn:E; [left; eauto | right; intros (? & [= <-] & ?); congruence].
  - right. intros (? & [=] & ?).
Defined.

(** ** Orders *)

Record Item := mkItem {
  li_type : string;
  li_itemId : uuid;
  li_quantity : Z;
  li_sellerId : option uuid;
}.

Record OrderBody := mkOrderBody {
  items : option (list Item);
  deliveryAddress : option string;
}.

Record EquipmentBody := mkEquipmentBody {
  eb_name : option string;
  eb_type : option string;
  eb_description : option string;
  eb_specifications : option Json;
  eb_baseRatePerDay : option Z;
  eb_location : option string;
  eb_images : option (list string);
}.

(** * [index.js] *)
Module Pg.

(** Modelled from the spec: [pool], which [index.js] queries and never
    declares (the file opens the SQLite file as [db] and does not use it).
    Following the persistence layer of the spec it is the relational store
    that holds the tables of [initDB] and runs the parameterized statements
    of the handlers; the statements and the schema are PostgreSQL's, and so
    are the rules taken here for the constraints that the schema declares. *)
Definition pool : Type := Db.

(** [INSERT INTO users (name, email, phone, role, location, is_verified)
    VALUES (...) RETURNING ...] *)
Definition insert_user (d : pool) (id : uuid) (name : string)
    (email : option string) (phone role : string) (location : option string)
    (is_verified : bool) : option (Db * User) :=
  if primary_key (user_id <$> users d) id
     && varchar 255 name && varchar_null 255 email && varchar 20 phone
     && varchar 50 role && check_role role && varchar_null 255 location
     && unique_phone (users d) phone && unique_email (users d) email
  then
    let u := mkUser id name email phone role location is_verified in
    Some (with_users d (users d ++ [u]), u)
  else None.

(** [POST /api/v1/auth/register]; [u] is the random draw of [generateOTP]. *)
Definition register (now u : Z) (b : RegisterBody) (s : Server)
  : Response * Server :=
  if falsy (reg_name b) || falsy (reg_phone b) || falsy (reg_role b)
  then (error 400 "Name, phone, and role are required", s)
  else
    let phone := str (reg_phone b) in
    let existingUser := users_by_phone_or_email (db s) phone (reg_email b) in
    if bool_decide (0 < length existingUser)%nat
    then (error 400 "User already exists with this phone or email", s)
    else
      let otp := generateOTP u in
      let userData :=
        mkUserData (str (reg_name b)) (reg_email b) phone (str (reg_role b))
          (reg_location b) in
      (json (JMessage "OTP sent successfully" phone),
       set_otpStore s
         (<[phone := mkOtp otp (Some userData) (now + 300000)]> (otpStore s))).

(** [POST /api/v1/auth/request-otp] *)
Definition request_otp (now u : Z) (b : OtpBody) (s : Server)
  : Response * Server :=
  if falsy (body_phone b)
  then (error 400 "Phone number is required", s)
  else
    let phone := str (body_phone b) in
    let user := users_by_phone (db s) phone in
    let otp := generateOTP u in
    (json (JMessage "OTP sent successfully" phone),
     set_otpStore s (<[phone := mkOtp otp None (now + 300000)]> (otpStore s))).

(** The user of a verified code: created from the pending registration, or
    looked up by phone. *)
Definition verified_user (phone : string) (storedData : OtpEntry) (s : Server)
  : Step User :=
  match userData storedData with
  | Some ud =>
      let '(id, s1) := draw_uuid s in
      match insert_user (db s1) id (ud_name ud) (ud_email ud) phone
              (ud_role ud) (ud_location ud) true with
      | Some (d, user) => Next user (set_db s1 d)
      | None => Throw s1
      end
  | None =>
      match users_by_phone (db s) phone with
      | [] => Return (error 400 "User not found") s
      | user :: _ => Next user s
      end
  end.

(** [POST /api/v1/auth/verify-otp] *)
Definition verify_otp (now : Z) (b : OtpBody) (s : Server)
  : Response * Server :=
  if falsy (body_phone b) || falsy (body_otp b)
  then (error 400 "Phone and OTP are required", s)
  else
    let phone := str (body_phone b) in
    match otpStore s !! phone with
    | None => (error 400 "OTP expired or invalid", s)
    | Some storedData =>
        if bool_decide (expiresAt storedData < now)
        then (error 400 "OTP expired or invalid", s)
        else if negb (bool_decide (otp storedData = str (body_otp b)))
        then (error 400 "Invalid OTP", s)
        else
          match verified_user phone storedData s with
          | Next user s' => session now phone user s'
          | Return r s' => (r, s')
          | Throw s' => (error 500 "Internal server error", s')
          end
    end.

(** A parameter of type [bigint], from the digits that are sent for it. *)
Definition int8 (v : Z) : option Z :=
  if bool_decide (- 2 ^ 63 ≤ v < 2 ^ 63) then Some v else None.

(** A number as a parameter of type [bigint]: it is sent as [String(n)],
    which is the text of a [bigint] when it is digits, in its range. *)
Definition int8_of_number (n : Number) : option Z :=
  match Number_toString n with
  | Decimal v => int8 v
  | Scientific _ | Word => None
  end.

(** [LIMIT $n OFFSET $m]: PostgreSQL refuses a negative count. *)
Definition limit_offset {A} (limit offset : Z) (rows : list A)
  : option (list A) :=
  if bool_decide (limit < 0) || bool_decide (offset < 0) then None
  else Some (take (Z.to_nat limit) (drop (Z.to_nat offset) rows)).

(** The page of [rows] for the parameters [limit], as the request has it,
    and [offset], a number; [None] when the statement fails. *)
Definition paged {A} (limit : option Z) (offset : Number) (rows : list A)
  : option (list A) :=
  limit ← int8 (default 10 limit);
  offset ← int8_of_number offset;
  limit_offset limit offset rows.

Section Listings.

(** [ILIKE], the case-insensitive pattern match of the store: pattern, then
    value. *)
Variable ilike : string → string → bool.

(** The [SELECT] of [GET /api/v1/equipment], before [LIMIT]. *)
Definition select_equipment (d : pool) (q : EquipmentQuery)
  : list (Equipment * User) :=
  let rows :=
    filter (λ r, available r.1)
      (join_users equipment_owner_id (equipment d) (users d)) in
  let rows :=
    if falsy (eq_type q) then rows
    else filter (λ r, equipment_type r.1 = str (eq_type q)) rows in
  let rows :=
    if falsy (eq_location q) then rows
    else
      filter
        (λ r, matches ilike ("%" +:+ str (eq_location q) +:+ "%")
                (equipment_location r.1))
        rows in
  merge_sort (newer equipment_created_at) rows.

(** [GET /api/v1/equipment] *)
Definition get_equipment (q : EquipmentQuery) (s : Server) : Response :=
  let page := eq_page q in
  let limit := eq_limit q in
  let offset := offset_of page limit in
  match paged limit offset (select_equipment (db s) q) with
  | Some rows =>
      json (JEquipmentList rows
              (mkPagination (param 1 page) (param 10 limit) (length rows)))
  | None => error 500 "Internal server error"
  end.

(** The [SELECT] of [GET /api/v1/produce], before [LIMIT]. *)
Definition select_produce (d : pool) (q : ProduceQuery)
  : list (Produce * User) :=
  let rows :=
    filter (λ r, in_stock r.1)
      (join_users produce_farmer_id (produce d) (users d)) in
  let rows :=
    if falsy (pq_category q) then rows
    else filter (λ r, produce_category r.1 = str (pq_category q)) rows in
  let rows :=
    match pq_organic q with
    | None => rows
    | Some organic =>
        filter
          (λ r, produce_organic r.1 = Some (bool_decide (organic = "true")))
          rows
    end in
  merge_sort (newer produce_created_at) rows.

(** [GET /api/v1/produce] *)
Definition get_produce (q : ProduceQuery) (s : Server) : Response :=
  let page := pq_page q in
  let limit := pq_limit q in
  let offset := offset_of page limit in
  match paged limit offset (select_produce (db s) q) with
  | Some rows =>
      json (JProduceList rows
              (mkPagination (param 1 page) (param 10 limit) (length rows)))
  | None => error 500 "Internal server error"
  end.

End Listings.

(** [INSERT INTO equipment (owner_id, name, type, description,
    specifications, base_rate_per_day, location, images) VALUES (...)
    RETURNING *] at time [now], with [JSON.stringify(specifications)]: the
    JSONB column holds the value of that text, and the row of the model the
    text. *)
Definition insert_equipment (now : Z) (id : uuid) (owner_id : option uuid)
    (b : EquipmentBody) (d : pool) : option (Db * Equipment) :=
  match eb_name b, eb_type b, eb_baseRatePerDay b with
  | Some name, Some type, Some rate =>
      if primary_key (equipment_id <$> equipment d) id
         && references (user_id <$> users d) owner_id
         && varchar 255 name && varchar 100 type && decimal_10_2 rate
         && varchar_null 255 (eb_location b)
      then
        let e :=
          mkEquipment id owner_id name type (eb_description b)
            (JSON_stringify <$> eb_specifications b) rate (eb_location b)
            (Some "available") (eb_images b) now in
        Some (with_equipment d (equipment d ++ [e]), e)
      else None
  | _, _, _ => None
  end.

(** The handler of [POST /api/v1/equipment], behind its middleware. *)
Definition create_equipment (now : Z) (user : JwtPayload) (b : EquipmentBody)
    (s : Server) : Response * Server :=
  let ownerId := userId user in
  let run : Handler Equipment :=
    id ← gen_uuid;
    query (insert_equipment now id (Some ownerId) b) in
  match run s with
  | Next row s' => (mkResponse 201 (JEquipment (Some row)), s')
  | Return r s' => (r, s')
  | Throw s' => (error 500 "Internal server error", s')
  end.

(** [POST /api/v1/equipment] *)
Definition post_equipment (now : Z) (h : Headers) (b : EquipmentBody)
    (s : Server) : Response * Server :=
  authenticateToken now s h (λ r, (r, s)) (λ user,
    authorizeRole ["equipment_provider"] user (λ r, (r, s))
      (create_equipment now user b s)).

(** [SELECT price_per_kg FROM produce WHERE id = $1] *)
Definition produce_by_id (d : pool) (id : uuid) : list Produce :=
  filter (λ p, produce_id p = id) (produce d).

(** [SELECT price_per_unit FROM products WHERE id = $1] *)
Definition products_by_id (d : pool) (id : uuid) : list Product :=
  filter (λ p, product_id p = id) (products d).

(** [INSERT INTO orders (buyer_id, seller_id, total_amount,
    delivery_address) VALUES (...) RETURNING *] *)
Definition insert_order (id : uuid) (buyer_id seller_id : option uuid)
    (total_amount : Z) (delivery_address : option string) (d : pool)
  : option (Db * Order) :=
  if primary_key (order_id <$> orders d) id
     && references (user_id <$> users d) buyer_id
     && references (user_id <$> users d) seller_id
     && decimal_10_2 total_amount
  then
    let o :=
      mkOrder id buyer_id seller_id total_amount "pending" "pending"
        delivery_address in
    Some (with_orders d (orders d ++ [o]), o)
  else None.

(** [INSERT INTO order_items (order_id, produce_id, product_id, quantity,
    unit_price, total_price) VALUES (...)] *)
Definition insert_order_item (id : uuid)
    (order_ref produce_ref product_ref : option uuid)
    (quantity unit_price total_price : Z) (d : pool) : option (Db * unit) :=
  if primary_key (oi_id <$> order_items d) id
     && references (order_id <$> orders d) order_ref
     && references (produce_id <$> produce d) produce_ref
     && references (product_id <$> products d) product_ref
     && integer quantity && decimal_10_2 unit_price
     && decimal_10_2 total_price
  then
    let it :=
      mkOrderItem id order_ref product_ref produce_ref quantity unit_price
        total_price in
    Some (with_order_items d (order_items d ++ [it]), ())
  else None.

(** [UPDATE orders SET total_amount = $1 WHERE id = $2] *)
Definition update_total_amount (total_amount : Z) (id : uuid) (d : pool)
  : option (Db * unit) :=
  if bool_decide (id ∈ order_id <$> orders d) && negb (decimal_10_2 total_amount)
  then None
  else
    Some
      (with_orders d
         ((λ o,
            if bool_decide (order_id o = id)
            then mkOrder (order_id o) (order_buyer_id o) (order_seller_id o)
                   total_amount (order_status o) (order_payment_status o)
                   (order_delivery_address o)
            else o) <$> orders d), ()).

(** [unitPrice] of a line item: the price of the first row the lookup
    yields; reading a field of no row throws; [None] is [undefined], for a
    type that is neither ['produce'] nor ['product']. *)
Definition unitPrice (item : Item) : Handler (option Z) := λ s,
  if bool_decide (li_type item = "produce") then
    match produce_by_id (db s) (li_itemId item) with
    | p :: _ => Next (Some (produce_price_per_kg p)) s
    | [] => Throw s
    end
  else if bool_decide (li_type item = "product") then
    match products_by_id (db s) (li_itemId item) with
    | p :: _ => Next (Some (product_price_per_unit p)) s
    | [] => Throw s
    end
  else Next None s.

(** The body of the loop over the items; with [unitPrice] undefined the
    insert violates [unit_price ... NOT NULL].  [itemTotal] and
    [totalAmount] are the amounts that the doubles of the code stand for,
    as the columns store them. *)
Definition create_item (orderId : uuid) (totalAmount : Z) (item : Item)
  : Handler Z :=
  price ← unitPrice item;
  match price with
  | None => throw
  | Some unitPrice =>
      let itemTotal := unitPrice * li_quantity item in
      let totalAmount := totalAmount + itemTotal in
      id ← gen_uuid;
      _ ← query
            (insert_order_item id (Some orderId)
               (if bool_decide (li_type item = "produce")
                then Some (li_itemId item) else None)
               (if bool_decide (li_type item = "product")
                then Some (li_itemId item) else None)
               (li_quantity item) unitPrice itemTotal);
      mret totalAmount
  end.

(** [for (const item of items) { ... }] *)
Fixpoint create_items (orderId : uuid) (totalAmount : Z) (items : list Item)
  : Handler Z :=
  match items with
  | [] => mret totalAmount
  | item :: rest =>
      totalAmount ← create_item orderId totalAmount item;
      create_items orderId totalAmount rest
  end.

(** The statements between [BEGIN] and [COMMIT]. *)
Definition order_transaction (buyerId : uuid) (b : OrderBody)
  : Handler (uuid * Z) :=
  match items b with
  | None | Some [] => throw
  | Some ((first :: _) as items) =>
      let sellerId := li_sellerId first in
      id ← gen_uuid;
      order ← query
                (insert_order id (Some buyerId) sellerId 0 (deliveryAddress b));
      let orderId := order_id order in
      totalAmount ← create_items orderId 0 items;
      _ ← query (update_total_amount totalAmount orderId);
      mret (orderId, totalAmount)
  end.

(** The handler of [POST /api/v1/orders]: [BEGIN], the transaction, then
    [COMMIT], or [ROLLBACK] and the rethrown error answered by the outer
    [catch]. *)
Definition create_order (user : JwtPayload) (b : OrderBody) (s : Server)
  : Response * Server :=
  let buyerId := userId user in
  let begin := db s in
  match order_transaction buyerId b s with
  | Next (orderId, totalAmount) s' =>
      (mkResponse 201 (JOrder orderId totalAmount), s')
  | Return _ s' | Throw s' =>
      (error 500 "Internal server error", set_db s' begin)
  end.

(** [POST /api/v1/orders] *)
Definition post_orders (now : Z) (h : Headers) (b : OrderBody) (s : Server)
  : Response * Server :=
  authenticateToken now s h (λ r, (r, s)) (λ user, create_order user b s).

End Pg.

(** * [index-sqlite.js] *)
Module Sqlite.

(** [INSERT INTO users (id, name, email, phone, role, location, is_verified)
    VALUES (...)]: the columns are [TEXT], without a length. *)
Definition insert_user (d : Db) (id : uuid) (name : string)
    (email : option string) (phone role : string) (location : option string)
    (is_verified : bool) : option Db :=
  if primary_key (user_id <$> users d) id
     && check_role role
     && unique_phone (users d) phone && unique_email (users d) email
  then
    let u := mkUser id name email phone role location is_verified in
    Some (with_users d (users d ++ [u]))
  else None.

(** [POST /api/v1/auth/register] *)
Definition register (now u : Z) (b : RegisterBody) (s : Server)
  : Response * Server :=
  if falsy (reg_name b) || falsy (reg_phone b) || falsy (reg_role b)
  then (error 400 "Name, phone, and role are required", s)
  else
    let phone := str (reg_phone b) in
    let existingUser :=
      head (users_by_phone_or_email (db s) phone (reg_email b)) in
    if bool_decide (is_Some existingUser)
    then (error 400 "User already exists with this phone or email", s)
    else
      let otp := generateOTP u in
      let userData :=
        mkUserData (str (reg_name b)) (reg_email b) phone (str (reg_role b))
          (reg_location b) in
      (json (JMessage "OTP sent successfully" phone),
       set_otpStore s
         (<[phone := mkOtp otp (Some userData) (now + 300000)]> (otpStore s))).

(** [POST /api/v1/auth/request-otp] *)
Definition request_otp (now u : Z) (b : OtpBody) (s : Server)
  : Response * Server :=
  if falsy (body_phone b)
  then (error 400 "Phone number is required", s)
  else
    let phone := str (body_phone b) in
    let otp := generateOTP u in
    (json (JMessage "OTP sent successfully" phone),
     set_otpStore s (<[phone := mkOtp otp None (now + 300000)]> (otpStore s))).

(** The user of a verified code; [getQuery] yields the first row, and
    reading a field of no row throws. *)
Definition verified_user (phone : string) (storedData : OtpEntry) (s : Server)
  : Step User :=
  match userData storedData with
  | Some ud =>
      let '(userId, s1) := draw_uuid s in
      match insert_user (db s1) userId (ud_name ud) (ud_email ud) phone
              (ud_role ud) (ud_location ud) true with
      | Some d =>
          match head (users_by_id d userId) with
          | Some user => Next user (set_db s1 d)
          | None => Throw (set_db s1 d)
          end
      | None => Throw s1
      end
  | None =>
      match head (users_by_phone (db s) phone) with
      | None => Return (error 400 "User not found") s
      | Some user => Next user s
      end
  end.

(** [POST /api/v1/auth/verify-otp] *)
Definition verify_otp (now : Z) (b : OtpBody) (s : Server)
  : Response * Server :=
  if falsy (body_phone b) || falsy (body_otp b)
  then (error 400 "Phone and OTP are required", s)
  else
    let phone := str (body_phone b) in
    match otpStore s !! phone with
    | None => (error 400 "OTP expired or invalid", s)
    | Some storedData =>
        if bool_decide (expiresAt storedData < now)
        then (error 400 "OTP expired or invalid", s)
        else if negb (bool_decide (otp storedData = str (body_otp b)))
        then (error 400 "Invalid OTP", s)
        else
          match verified_user phone storedData s with
          | Next user s' => session now phone user s'
          | Return r s' => (r, s')
          | Throw s' => (error 500 "Internal server error", s')
          end
    end.

(** A number bound to [LIMIT ?] or [OFFSET ?]: SQLite takes an integer,
    and a REAL that is an integer strictly between the least and the
    greatest 64-bit integer; anything else is a datatype mismatch.  The
    driver binds an integer of 32 bits as an INTEGER, any other number as a
    REAL, and [NaN] as NULL. *)
Definition must_be_int (n : Number) : option Z :=
  match n with
  | Num z => if bool_decide (- 2 ^ 63 < z < 2 ^ 63 - 1) then Some z else None
  | Inf _ | NaN => None
  end.

(** [LIMIT ? OFFSET ?]: SQLite reads a negative limit as no limit and a
    negative offset as none. *)
Definition limit_offset {A} (limit offset : Z) (rows : list A) : list A :=
  let rows := drop (Z.to_nat offset) rows in
  if bool_decide (limit < 0) then rows else take (Z.to_nat limit) rows.

(** The page of [rows] for [parseInt(limit)] and [parseInt(offset)];
    [None] when the statement fails. *)
Definition paged {A} (limit : option Z) (offset : Number) (rows : list A)
  : option (list A) :=
  limit ← must_be_int (param 10 limit);
  offset ← must_be_int (parseInt offset);
  Some (limit_offset limit offset rows).

Section Listings.

(** [LIKE], the pattern match of the store: pattern, then value. *)
Variable like : string → string → bool.

(** The [SELECT] of [GET /api/v1/equipment], before [LIMIT]. *)
Definition select_equipment (d : Db) (q : EquipmentQuery)
  : list (Equipment * User) :=
  let rows :=
    filter (λ r, available r.1)
      (join_users equipment_owner_id (equipment d) (users d)) in
  let rows :=
    if falsy (eq_type q) then rows
    else filter (λ r, equipment_type r.1 = str (eq_type q)) rows in
  let rows :=
    if falsy (eq_location q) then rows
    else
      filter
        (λ r, matches like ("%" +:+ str (eq_location q) +:+ "%")
                (equipment_location r.1))
        rows in
  merge_sort (newer equipment_created_at) rows.

(** [GET /api/v1/equipment] *)
Definition get_equipment (q : EquipmentQuery) (s : Server) : Response :=
  let page := eq_page q in
  let limit := eq_limit q in
  let offset := offset_of page limit in
  match paged limit offset (select_equipment (db s) q) with
  | Some equipment =>
      json (JEquipmentList equipment
              (mkPagination (param 1 page) (param 10 limit)
                 (length equipment)))
  | None => error 500 "Internal server error"
  end.

(** The [SELECT] of [GET /api/v1/produce], before [LIMIT]. *)
Definition select_produce (d : Db) (q : ProduceQuery)
  : list (Produce * User) :=
  let rows :=
    filter (λ r, stocked (produce_stock_kg r.1) = true)
      (join_users produce_farmer_id (produce d) (users d)) in
  let rows :=
    if falsy (pq_category q) then rows
    else filter (λ r, produce_category r.1 = str (pq_category q)) rows in
  let rows :=
    match pq_organic q with
    | None => rows
    | Some organic =>
        filter
          (λ r, produce_organic r.1 = Some (bool_decide (organic = "true")))
          rows
    end in
  merge_sort (newer produce_created_at) rows.

(** [GET /api/v1/produce] *)
Definition get_produce (q : ProduceQuery) (s : Server) : Response :=
  let page := pq_page q in
  let limit := pq_limit q in
  let offset := offset_of page limit in
  match paged limit offset (select_produce (db s) q) with
  | Some produce =>
      json (JProduceList produce
              (mkPagination (param 1 page) (param 10 limit) (length produce)))
  | None => error 500 "Internal server error"
  end.

End Listings.

(** [INSERT INTO equipment (id, owner_id, name, type, description,
    specifications, base_rate_per_day, location) VALUES (...)] at time
    [now], with [JSON.stringify(specifications)]; SQLite does not enforce
    the foreign key. *)
Definition insert_equipment (now : Z) (id : uuid) (owner_id : option uuid)
    (b : EquipmentBody) (d : Db) : option (Db * unit) :=
  match eb_name b, eb_type b, eb_baseRatePerDay b with
  | Some name, Some type, Some rate =>
      if primary_key (equipment_id <$> equipment d) id
      then
        let e :=
          mkEquipment id owner_id name type (eb_description b)
            (JSON_stringify <$> eb_specifications b) rate (eb_location b)
            (Some "available") None now in
        Some (with_equipment d (equipment d ++ [e]), ())
      else None
  | _, _, _ => None
  end.

(** [SELECT * FROM equipment WHERE id = ?] *)
Definition equipment_by_id (d : Db) (id : uuid) : list Equipment :=
  filter (λ e, equipment_id e = id) (equipment d).

(** The handler of [POST /api/v1/equipment], behind its middleware. *)
Definition create_equipment (now : Z) (user : JwtPayload) (b : EquipmentBody)
    (s : Server) : Response * Server :=
  let ownerId := userId user in
  let run : Handler (option Equipment) :=
    equipmentId ← gen_uuid;
    _ ← query (insert_equipment now equipmentId (Some ownerId) b);
    query (λ d, Some (d, head (equipment_by_id d equipmentId))) in
  match run s with
  | Next equipment s' => (mkResponse 201 (JEquipment equipment), s')
  | Return r s' => (r, s')
  | Throw s' => (error 500 "Internal server error", s')
  end.

(** [POST /api/v1/equipment] *)
Definition post_equipment (now : Z) (h : Headers) (b : EquipmentBody)
    (s : Server) : Response * Server :=
  authenticateToken now s h (λ r, (r, s)) (λ user,
    authorizeRole ["equipment_provider"] user (λ r, (r, s))
      (create_equipment now user b s)).

End Sqlite.

(** * Vocabulary of the properties *)

(** No code that could be accepted: no entry under the phone, an entry that
    has expired, or an entry with another code. *)
Definition no_valid_otp (t : Z) (b : OtpBody) (s : Server) : Prop :=
  ∀ p e, body_phone b = Some p → otpStore s !! p = Some e →
    expiresAt e < t ∨ body_otp b ≠ Some (otp e).

(** The two servers. *)
Inductive Variant := index_js | index_sqlite_js.

Definition register (v : Variant) :=
  match v with index_js => Pg.register | index_sqlite_js => Sqlite.register end.

Definition request_otp (v : Variant) :=
  match v with
  | index_js => Pg.request_otp
  | index_sqlite_js => Sqlite.request_otp
  end.

Definition verify_otp (v : Variant) :=
  match v with
  | index_js => Pg.verify_otp
  | index_sqlite_js => Sqlite.verify_otp
  end.

Definition post_equipment (v : Variant) :=
  match v with
  | index_js => Pg.post_equipment
  | index_sqlite_js => Sqlite.post_equipment
  end.

Definition get_equipment (v : Variant) :=
  match v with
  | index_js => Pg.get_equipment
  | index_sqlite_js => Sqlite.get_equipment
  end.

Definition get_produce (v : Variant) :=
  match v with
  | index_js => Pg.get_produce
  | index_sqlite_js => Sqlite.get_produce
  end.

(** The request carries a session token that [jwt.verify] accepts at time
    [now], with payload [user]. *)
Definition authenticated (now : Z) (s : Server) (h : Headers)
    (user : JwtPayload) : Prop :=
  ∃ pieces token,
    authorization h = Some pieces ∧ pieces !! 1%nat = Some token ∧
    jwt_verify token (secret (JWT_SECRET s)) now = Some user.

(** ** Sample data *)

Definition empty_db : Db := mkDb [] [] [] [] [] [].

(** A server that has just started on empty tables. *)
Definition boot : Server := mkServer empty_db ∅ 0 None.

Definition asha : RegisterBody :=
  mkRegisterBody (Some "Asha") None (Some "9000000001") (Some "farmer") None.

Definition asha_code (code : string) : OtpBody :=
  mkOtpBody (Some "9000000001") (Some code).

(** Asha has registered at time 1000 and was sent the code 123456. *)
Definition asha_pending (v : Variant) : Server :=
  (register v 1000 23456 asha boot).2.

(** Asha has verified her code at time 2000. *)
Definition asha_verified (v : Variant) : Server :=
  (verify_otp v 2000 (asha_code "123456") (asha_pending v)).2.

Definition asha_token : Token :=
  Jwt (mkPayload 0 "9000000001" "farmer") "fallback_secret" 604802.

Definition bearer (token : Token) : Headers :=
  mkHeaders (Some [Opaque "Bearer"; token]).

Definition tractor : EquipmentBody :=
  mkEquipmentBody (Some "John Deere 5310 Tractor") (Some "tractor") None None
    (Some 150000) (Some "Haryana, India") None.

Definition select_equipment (v : Variant) :=
  match v with
  | index_js => Pg.select_equipment
  | index_sqlite_js => Sqlite.select_equipment
  end.

Definition select_produce (v : Variant) :=
  match v with
  | index_js => Pg.select_produce
  | index_sqlite_js => Sqlite.select_produce
  end.

(** The rows of a listing response. *)
Definition listed_equipment (r : Response) : list (Equipment * User) :=
  match body r with
  | JEquipmentList rows _ => rows
  | _ => []
  end.

Definition listed_produce (r : Response) : list (Produce * User) :=
  match body r with
  | JProduceList rows _ => rows
  | _ => []
  end.

(** Users, equipment and produce as [seedData] of [index-sqlite.js]
    inserts them, with a sold out produce row and a product. *)
Definition rajesh : User :=
  mkUser 0 "Rajesh Kumar" None "9876543210" "farmer" (Some "Punjab") true.

Definition priya : User :=
  mkUser 1 "Priya Sharma" None "9876543211" "equipment_provider"
    (Some "Haryana") true.

Definition amit : User :=
  mkUser 2 "Amit Patel" None "9876543212" "consumer" (Some "Gujarat") true.

Definition seeded : Db :=
  mkDb [rajesh; priya; amit]
    [mkEquipment 5 (Some 1%nat) "John Deere 5310 Tractor" "tractor" None None
       150000 (Some "Haryana, India") (Some "available") None 10;
     mkEquipment 6 (Some 1%nat) "Kubota Combine Harvester" "harvester" None None
       250000 (Some "Haryana, India") (Some "available") None 11]
    [mkProduce 7 (Some 0%nat) "Fresh Organic Tomatoes" "vegetables" None 4550
       (Some (StockInt 500)) (Some true) 12;
     mkProduce 8 (Some 0%nat) "Premium Basmati Rice" "grains" None 12000
       (Some (StockInt 1000)) (Some false) 13;
     mkProduce 9 (Some 0%nat) "Mangoes" "fruits" None 9000
       (Some (StockInt 0)) (Some true) 14]
    [mkProduct 3 None "Urea" "fertilizer" 26650 "bag" (Some 40)] [] [].

Definition market : Server := mkServer seeded ∅ 10 None.

Definition amit_token : Token :=
  Jwt (mkPayload 2 "9876543212" "consumer") "fallback_secret" 604802.

(** [total] counts the rows of the page, which is a segment of the rows
    that match. *)
Definition counts_page {A} (pg : Pagination) (rows matching : list A) : Prop :=
  total pg = length rows ∧
  ∃ before after, matching = before ++ rows ++ after.

(** A listing with one row a page. *)
Definition one_equipment : EquipmentQuery :=
  mkEquipmentQuery None (Some 1) None None.

Definition one_produce : ProduceQuery :=
  mkProduceQuery None (Some 1) None None.

(** ** Orders *)

(** The catalog row a line item refers to, by its price: the row of
    [produce] or of [products], as the type of the item says, whose primary
    key is the id of the item. *)
Definition catalog_price (d : Db) (item : Item) : option Z :=
  if bool_decide (li_type item = "produce") then
    produce_price_per_kg <$> head (Pg.produce_by_id d (li_itemId item))
  else if bool_decide (li_type item = "product") then
    product_price_per_unit <$> head (Pg.products_by_id d (li_itemId item))
  else None.

(** Catalog unit price times quantity. *)
Definition line_total (d : Db) (item : Item) : Z :=
  default 0 (catalog_price d item) * li_quantity item.

(** The sum of the line totals. *)
Definition order_total (d : Db) (items : list Item) : Z :=
  foldr (λ item sum, line_total d item + sum) 0 items.

(** The columns of [order_items] can hold the line: an [INTEGER] quantity,
    [DECIMAL(10,2)] prices. *)
Definition storable (d : Db) (item : Item) : Prop :=
  integer (li_quantity item) = true ∧
  decimal_10_2 (default 0 (catalog_price d item)) = true ∧
  decimal_10_2 (line_total d item) = true.

(** The row of [order_items] that snapshots a line item of order [oid]. *)
Definition snapshots (d : Db) (oid : uuid) (item : Item) (row : OrderItem)
  : Prop :=
  oi_order_id row = Some oid ∧
  catalog_price d item = Some (oi_unit_price row) ∧
  oi_quantity row = li_quantity item ∧
  oi_total_price row = line_total d item ∧
  oi_produce_id row
  = (if bool_decide (li_type item = "produce") then Some (li_itemId item)
     else None) ∧
  oi_product_id row
  = (if bool_decide (li_type item = "product") then Some (li_itemId item)
     else None).

(** Every id in use was drawn from the supply. *)
Definition supply_fresh (s : Server) : Prop :=
  Forall (λ id, id < uuid_supply s)%nat (user_id <$> users (db s)) ∧
  Forall (λ id, id < uuid_supply s)%nat (equipment_id <$> equipment (db s)) ∧
  Forall (λ id, id < uuid_supply s)%nat (order_id <$> orders (db s)) ∧
  Forall (λ id, id < uuid_supply s)%nat (oi_id <$> order_items (db s)).

(** From [s] to [s'], one order of [buyer] with the total of [items] and
    one row for each of the items have been added, and nothing else. *)
Definition order_persisted (s s' : Server) (buyer : uuid) (items : list Item)
    (o : Order) : Prop :=
  ∃ rows,
    db s' = with_order_items (with_orders (db s) (orders (db s) ++ [o]))
              (order_items (db s) ++ rows) ∧
    order_buyer_id o = Some buyer ∧
    order_total_amount o = order_total (db s) items ∧
    length rows = length items ∧
    Forall2 (snapshots (db s) (order_id o)) items rows.

(** A request for tomatoes and rice from Rajesh. *)
Definition two_lines : OrderBody :=
  mkOrderBody
    (Some [mkItem "produce" 7 3 (Some 0%nat); mkItem "produce" 8 2 (Some 0%nat)])
    (Some "12 MG Road").

Definition amit_payload : JwtPayload := mkPayload 2 "9876543212" "consumer".

(** The state a computation ends in. *)
Definition state_of {A} (r : Step A) : Server :=
  match r with
  | Next _ s | Return _ s | Throw s => s
  end.

(** A computation that touches the tables and the UUID supply only. *)
Definition database_only {A} (m : Handler A) : Prop :=
  ∀ s, otpStore (state_of (m s)) = otpStore s
       ∧ JWT_SECRET (state_of (m s)) = JWT_SECRET s.

(** Tomatoes and a produce id that is in no table. *)
Definition missing_line : OrderBody :=
  mkOrderBody
    (Some [mkItem "produce" 7 3 (Some 0%nat); mkItem "produce" 99 1 (Some 0%nat)])
    None.

(** Tomatoes, declared to be sold by a user that does not exist. *)
Definition unknown_seller : OrderBody :=
  mkOrderBody (Some [mkItem "produce" 7 3 (Some 99%nat)]) None.

(** A million bags of urea: 26 650 000 000 hundredths, more than
    [DECIMAL(10,2)] holds. *)
Definition too_much : OrderBody :=
  mkOrderBody (Some [mkItem "product" 3 1000000 None]) None.

(** ** Registration *)

(** No stored user has the phone, or the email if one is given. *)
Definition unregistered (d : Db) (phone : string) (email : option string)
  : Prop :=
  ∀ u, u ∈ users d →
    user_phone u ≠ phone ∧ (is_Some email → user_email u ≠ email).

(** The [VARCHAR] columns of [users] in [index.js] can hold the fields;
    [index-sqlite.js] has [TEXT] columns. *)
Definition fits_users (v : Variant) (b : RegisterBody) : Prop :=
  match v with
  | index_js =>
      varchar 255 (str (reg_name b)) = true ∧
      varchar_null 255 (reg_email b) = true ∧
      varchar 20 (str (reg_phone b)) = true ∧
      varchar_null 255 (reg_location b) = true
  | index_sqlite_js => True
  end.

(** [jwt.decode] *)
Definition decode (token : Token) : option JwtPayload :=
  match token with
  | Jwt payload _ _ => Some payload
  | Opaque _ => None
  end.

(** Asha, with a role that the [CHECK] of [users] does not list. *)
Definition asha_pilot : RegisterBody :=
  mkRegisterBody (Some "Asha") None (Some "9000000001") (Some "pilot") None.

(** Asha, with a phone number of 21 characters. *)
Definition asha_long_phone : RegisterBody :=
  mkRegisterBody (Some "Asha") None (Some "+91-9000-0000-01-0001") (Some "farmer")
    None.

(** ** The invariant of the UUID supply *)

(** [supply_fresh], with the ids a computation holds in its variables. *)
Definition fresh_above (ids : list uuid) (s : Server) : Prop :=
  supply_fresh s ∧ Forall (λ id, id < uuid_supply s)%nat ids.

(** A computation that only draws from the supply and keeps it fresh. *)
Definition keeps_fresh {A} (ids : list uuid) (m : Handler A) : Prop :=
  ∀ s, (uuid_supply s ≤ uuid_supply (state_of (m s)))%nat ∧
       (fresh_above ids s → fresh_above ids (state_of (m s))).

(** ** Two OTP requests with the same draw *)

Definition asha_phone : OtpBody := mkOtpBody (Some "9000000001") None.

(** Asha, verified, requests a code at time 2500: the draw is 0, the code
    100000. *)
Definition first_request (v : Variant) : Server :=
  (request_otp v 2500 0 asha_phone (asha_verified v)).2.

(** She requests a code again at time 3000, and the draw is 0 again. *)
Definition second_request (v : Variant) : Server :=
  (request_otp v 3000 0 asha_phone (first_request v)).2.

(** The pending registration of [asha_pilot]. *)
Definition pilot_pending (v : Variant) : Server :=
  (register v 1000 23456 asha_pilot boot).2.

(** * The other routes and the start-up code of both servers *)

(** A response whose payload [Body] has no case for, or a plain one. *)
Inductive Reply (A : Type) :=
  | Payload (code : Z) (payload : A)
  | Plain (r : Response).
Arguments Payload {A} code payload.
Arguments Plain {A} r.

Definition with_produce (d : Db) (ps : list Produce) : Db :=
  mkDb (users d) (equipment d) ps (products d) (orders d) (order_items d).

(** ** [POST /api/v1/produce] *)

(** The body of the request.  The dates are well-formed dates (day
    numbers); the rows of the model carry the columns that the listing and
    the order handler read, not the dates and the images.  [stockKg] is
    bound as it comes. *)
Record ProduceBody := mkProduceBody {
  pb_name : option string;
  pb_category : option string;
  pb_description : option string;
  pb_pricePerKg : option Z;
  pb_stockKg : option StockKg;
  pb_harvestDate : option Z;
  pb_expiryDate : option Z;
  pb_organic : option bool;
  pb_images : option (list string);
}.

Module CreateProduce.

(** The parameter of the INTEGER column [stock_kg] of PostgreSQL: NULL, or
    the integer that the text sent for it is, a number as [String(n)] and a
    string as it is; [None] when PostgreSQL refuses the text, as it does
    the text of a number that is no integer, with its point or its
    exponent. *)
Definition pg_stock (stockKg : option StockKg) : option (option Stock) :=
  match stockKg with
  | None => Some None
  | Some (KgNumber l) =>
      match Real_integer (Literal_real l) with
      | Some z =>
          match Number_toString (Num z) with
          | Decimal v => if integer v then Some (Some (StockInt v)) else None
          | Scientific _ | Word => None
          end
      | None => None
      end
  | Some (KgString s) =>
      match parse_literal s with
      | Some l =>
          let v := if negative l then - significand l else significand l in
          if whole l && integer v then Some (Some (StockInt v)) else None
      | None => None
      end
  end.

(** What SQLite stores in [stock_kg]: the driver binds a string as a text
    and a number as an INTEGER or a REAL, and the INTEGER affinity of the
    column makes an INTEGER of an integer literal of 64 bits and of a REAL
    that is one, a REAL of any other numeric literal, and keeps any other
    text. *)
Definition sqlite_stock (stockKg : option StockKg) : option Stock :=
  match stockKg with
  | None => None
  | Some (KgNumber l) => Some (integer_affinity (Literal_real l))
  | Some (KgString s) =>
      match parse_literal s with
      | Some l =>
          let v := if negative l then - significand l else significand l in
          if whole l && bool_decide (- 2 ^ 63 ≤ v ≤ 2 ^ 63 - 1)
          then Some (StockInt v)
          else Some (integer_affinity (Literal_real l))
      | None => Some (StockText s)
      end
  end.

(** [index.js]: [INSERT INTO produce (farmer_id, name, category,
    description, price_per_kg, stock_kg, harvest_date, expiry_date, organic,
    images) VALUES (...) RETURNING *] at time [now]. *)
Definition pg_insert_produce (now : Z) (id : uuid) (farmer_id : option uuid)
    (b : ProduceBody) (d : Pg.pool) : option (Db * Produce) :=
  match pb_name b, pb_category b, pb_pricePerKg b, pg_stock (pb_stockKg b) with
  | Some name, Some category, Some price, Some stock =>
      if primary_key (produce_id <$> produce d) id
         && references (user_id <$> users d) farmer_id
         && varchar 255 name && varchar 100 category && decimal_10_2 price
      then
        let p :=
          mkProduce id farmer_id name category (pb_description b) price
            stock (pb_organic b) now in
        Some (with_produce d (produce d ++ [p]), p)
      else None
  | _, _, _, _ => None
  end.

(** The handler of [index.js], behind its middleware. *)
Definition pg_create_produce (now : Z) (user : JwtPayload) (b : ProduceBody)
    (s : Server) : Reply Produce * Server :=
  let farmerId := userId user in
  let run : Handler Produce :=
    id ← gen_uuid;
    query (pg_insert_produce now id (Some farmerId) b) in
  match run s with
  | Next row s' => (Payload 201 row, s')
  | Return r s' => (Plain r, s')
  | Throw s' => (Plain (error 500 "Internal server error"), s')
  end.

(** [POST /api/v1/produce] of [index.js] *)
Definition pg_post_produce (now : Z) (h : Headers) (b : ProduceBody)
    (s : Server) : Reply Produce * Server :=
  authenticateToken now s h (λ r, (Plain r, s)) (λ user,
    authorizeRole ["farmer"] user (λ r, (Plain r, s))
      (pg_create_produce now user b s)).

(** [index-sqlite.js]: [INSERT INTO produce (id, farmer_id, name, category,
    description, price_per_kg, stock_kg, harvest_date, expiry_date, organic)
    VALUES (...)], with [organic ? 1 : 0]. *)
Definition sqlite_insert_produce (now : Z) (id : uuid)
    (farmer_id : option uuid) (b : ProduceBody) (d : Db)
  : option (Db * unit) :=
  match pb_name b, pb_category b, pb_pricePerKg b with
  | Some name, Some category, Some price =>
      if primary_key (produce_id <$> produce d) id
      then
        let p :=
          mkProduce id farmer_id name category (pb_description b) price
            (sqlite_stock (pb_stockKg b))
            (Some (default false (pb_organic b))) now in
        Some (with_produce d (produce d ++ [p]), ())
      else None
  | _, _, _ => None
  end.

(** [SELECT * FROM produce WHERE id = ?] *)
Definition produce_by_id (d : Db) (id : uuid) : list Produce :=
  filter (λ p, produce_id p = id) (produce d).

(** The handler of [index-sqlite.js], behind its middleware. *)
Definition sqlite_create_produce (now : Z) (user : JwtPayload)
    (b : ProduceBody) (s : Server) : Reply (option Produce) * Server :=
  let farmerId := userId user in
  let run : Handler (option Produce) :=
    produceId ← gen_uuid;
    _ ← query (sqlite_insert_produce now produceId (Some farmerId) b);
    query (λ d, Some (d, head (produce_by_id d produceId))) in
  match run s with
  | Next row s' => (Payload 201 row, s')
  | Return r s' => (Plain r, s')
  | Throw s' => (Plain (error 500 "Internal server error"), s')
  end.

(** [POST /api/v1/produce] of [index-sqlite.js] *)
Definition sqlite_post_produce (now : Z) (h : Headers) (b : ProduceBody)
    (s : Server) : Reply (option Produce) * Server :=
  authenticateToken now s h (λ r, (Plain r, s)) (λ user,
    authorizeRole ["farmer"] user (λ r, (Plain r, s))
      (sqlite_create_produce now user b s)).

End CreateProduce.

(** ** [GET /api/v1/dashboard/stats] *)

(** A row of [equipment_bookings].  No route of either server writes this
    table; the handlers below read it as it is given. *)
Record Booking := mkBooking {
  booking_id : uuid;
  booking_equipment_id : option uuid;
  booking_renter_id : option uuid;
  booking_status : option string;
}.

(** The three shapes of [stats]. *)
Inductive Stats :=
  | FarmerStats (totalProduce activeBookings totalRevenue activeListings : nat)
  | ProviderStats (totalEquipment totalBookings totalRevenue activeListings : nat)
  | OrderStats (totalOrders totalBookings totalRevenue activeListings : nat).

Module Dashboard.

(** [SELECT COUNT( * ) FROM produce WHERE farmer_id = $1] *)
Definition count_produce (d : Db) (userId : uuid) : nat :=
  length (filter (λ p, produce_farmer_id p = Some userId) (produce d)).

(** [SELECT COUNT( * ) FROM equipment_bookings WHERE renter_id = $1 AND
    status = $2] *)
Definition count_bookings (bookings : list Booking) (userId : uuid)
    (status : string) : nat :=
  length
    (filter
       (λ eb, booking_renter_id eb = Some userId
              ∧ booking_status eb = Some status)
       bookings).

(** [SELECT COUNT( * ) FROM equipment WHERE owner_id = $1] *)
Definition count_equipment (d : Db) (userId : uuid) : nat :=
  length (filter (λ e, equipment_owner_id e = Some userId) (equipment d)).

(** [SELECT COUNT( * ) FROM equipment_bookings eb JOIN equipment e ON
    eb.equipment_id = e.id WHERE e.owner_id = $1] *)
Definition count_owner_bookings (d : Db) (bookings : list Booking)
    (userId : uuid) : nat :=
  length
    (bookings ≫= λ eb,
       filter
         (λ e, booking_equipment_id eb = Some (equipment_id e)
               ∧ equipment_owner_id e = Some userId)
         (equipment d)).

(** [SELECT COUNT( * ) FROM orders WHERE buyer_id = $1] *)
Definition count_orders (d : Db) (userId : uuid) : nat :=
  length (filter (λ o, order_buyer_id o = Some userId) (orders d)).

(** The [switch (userRole)] of both servers; [parseInt] of a count, and
    [count || 0], is the count. *)
Definition stats (bookings : list Booking) (user : JwtPayload) (s : Server)
  : Stats :=
  let userId := userId user in
  let userRole := role user in
  if bool_decide (userRole = "farmer") then
    let produceCount := count_produce (db s) userId in
    let activeBookings := count_bookings bookings userId "active" in
    FarmerStats produceCount activeBookings 0 produceCount
  else if bool_decide (userRole = "equipment_provider") then
    let equipmentCount := count_equipment (db s) userId in
    let bookings := count_owner_bookings (db s) bookings userId in
    ProviderStats equipmentCount bookings 0 equipmentCount
  else if bool_decide (userRole = "consumer") then
    let orders := count_orders (db s) userId in
    OrderStats orders 0 0 0
  else OrderStats 0 0 0 0.

(** [GET /api/v1/dashboard/stats] *)
Definition get_stats (bookings : list Booking) (now : Z) (h : Headers)
    (s : Server) : Reply Stats :=
  authenticateToken now s h (λ r, Plain r)
    (λ user, Payload 200 (stats bookings user s)).

End Dashboard.

(** ** [seedData] *)

Record SeedUser := mkSeedUser {
  seed_name : string;
  seed_phone : string;
  seed_role : string;
  seed_location : string;
}.

(** The [users] of [seedData]. *)
Definition seed_users : list SeedUser :=
  [mkSeedUser "Rajesh Kumar" "9876543210" "farmer" "Punjab";
   mkSeedUser "Priya Sharma" "9876543211" "equipment_provider" "Haryana";
   mkSeedUser "Amit Patel" "9876543212" "consumer" "Gujarat";
   mkSeedUser "Sunita Devi" "9876543213" "input_supplier" "UP";
   mkSeedUser "Admin User" "9876543214" "admin" "Delhi"].

Module Seed.

(** [for (const user of users) { await pool.query('INSERT INTO users (name,
    phone, role, location, is_verified) VALUES (...)') }] *)
Fixpoint pg_insert_users (us : list SeedUser) : Handler unit :=
  match us with
  | [] => mret ()
  | user :: rest =>
      id ← gen_uuid;
      _ ← query (λ d,
             Pg.insert_user d id (seed_name user) None (seed_phone user)
               (seed_role user) (Some (seed_location user)) true);
      pg_insert_users rest
  end.

(** [seedData] of [index.js]: nothing when a user exists; an error is
    logged and ends the seeding where it stands. *)
Definition pg_seedData (s : Server) : Server :=
  let userCount := length (users (db s)) in
  if bool_decide (0 < userCount)%nat then s
  else state_of (pg_insert_users seed_users s).

(** [uuidv4()], once for each element of an array literal. *)
Fixpoint gen_uuids (n : nat) : Handler (list uuid) :=
  match n with
  | O => mret []
  | S n =>
      id ← gen_uuid;
      ids ← gen_uuids n;
      mret (id :: ids)
  end.

(** [for (const user of users) { await runQuery('INSERT INTO users (id,
    name, phone, role, location, is_verified) VALUES (...)') }] *)
Fixpoint sqlite_insert_users (us : list (uuid * SeedUser)) : Handler unit :=
  match us with
  | [] => mret ()
  | (id, user) :: rest =>
      _ ← query (λ d,
             (λ d', (d', ())) <$>
               Sqlite.insert_user d id (seed_name user) None (seed_phone user)
                 (seed_role user) (Some (seed_location user)) true);
      sqlite_insert_users rest
  end.

(** [INSERT INTO equipment (id, owner_id, name, type, description,
    specifications, base_rate_per_day, location, availability_status)
    VALUES (...)] *)
Definition sqlite_insert_equipment_row (e : Equipment) (d : Db)
  : option (Db * unit) :=
  if primary_key (equipment_id <$> equipment d) (equipment_id e)
  then Some (with_equipment d (equipment d ++ [e]), ())
  else None.

(** [INSERT INTO produce (id, farmer_id, name, category, description,
    price_per_kg, stock_kg, harvest_date, organic) VALUES (...)] *)
Definition sqlite_insert_produce_row (p : Produce) (d : Db)
  : option (Db * unit) :=
  if primary_key (produce_id <$> produce d) (produce_id p)
  then Some (with_produce d (produce d ++ [p]), ())
  else None.

Fixpoint insert_rows {A} (insert : A → Db → option (Db * unit))
    (rows : list A) : Handler unit :=
  match rows with
  | [] => mret ()
  | row :: rest =>
      _ ← query (insert row);
      insert_rows insert rest
  end.

(** [sampleEquipment], inserted at time [now]. *)
Definition sampleEquipment (now : Z) (ids : list uuid) (owner : option uuid)
  : list Equipment :=
  match ids with
  | [id1; id2] =>
      [mkEquipment id1 owner "John Deere 5310 Tractor" "tractor"
         (Some "55 HP 4WD Tractor with excellent fuel efficiency")
         (Some (JSON_stringify
                  (JsonObject [("horsepower", JsonString "55 HP");
                               ("fuelType", JsonString "diesel");
                               ("brand", JsonString "John Deere")])))
         150000 (Some "Haryana, India") (Some "available") None now;
       mkEquipment id2 owner "Kubota Combine Harvester" "harvester"
         (Some "Modern combine harvester for wheat and rice")
         (Some (JSON_stringify
                  (JsonObject [("brand", JsonString "Kubota");
                               ("capacity", JsonString "50 acres/day")])))
         250000 (Some "Haryana, India") (Some "available") None now]
  | _ => []
  end.

(** [sampleProduce], inserted at time [now]. *)
Definition sampleProduce (now : Z) (ids : list uuid) (farmer : option uuid)
  : list Produce :=
  match ids with
  | [id1; id2] =>
      [mkProduce id1 farmer "Fresh Organic Tomatoes" "vegetables"
         (Some "Fresh, organically grown tomatoes from Punjab farms")
         4550 (Some (StockInt 500)) (Some true) now;
       mkProduce id2 farmer "Premium Basmati Rice" "grains"
         (Some "High quality basmati rice, aged for perfect aroma")
         12000 (Some (StockInt 1000)) (Some false) now]
  | _ => []
  end.

(** The seeding of [index-sqlite.js] once no user is found. *)
Definition sqlite_seed (now : Z) : Handler unit :=
  ids ← gen_uuids (length seed_users);
  let users := zip ids seed_users in
  _ ← sqlite_insert_users users;
  eids ← gen_uuids 2;
  _ ← insert_rows sqlite_insert_equipment_row
        (sampleEquipment now eids (ids !! 1%nat));
  pids ← gen_uuids 2;
  insert_rows sqlite_insert_produce_row (sampleProduce now pids (ids !! 0%nat)).

(** [seedData] of [index-sqlite.js] *)
Definition sqlite_seedData (now : Z) (s : Server) : Server :=
  let userCount := length (users (db s)) in
  if bool_decide (0 < userCount)%nat then s
  else state_of (sqlite_seed now s).

End Seed.

(** * Vocabulary of the further properties *)

(** The token of a request: the second piece of its [Authorization]
    header. *)
Definition bearer_token (h : Headers) : option Token :=
  authorization h ≫= λ pieces, pieces !! 1%nat.

(** The request presents no token. *)
Definition no_token (h : Headers) : Prop :=
  bearer_token h = None ∨ bearer_token h = Some (Opaque "").

(** The request presents a token that [jwt.verify] refuses at time [now]:
    not a signed token, another key, or expired. *)
Definition refused_token (now : Z) (s : Server) (h : Headers) : Prop :=
  ∃ token, bearer_token h = Some token ∧ token ≠ Opaque "" ∧
    jwt_verify token (secret (JWT_SECRET s)) now = None.

Definition okra : ProduceBody :=
  mkProduceBody (Some "Okra") (Some "vegetables") None (Some 3000)
    (Some (kg 20))
    None None None None.

Definition rajesh_payload : JwtPayload := mkPayload 0 "9876543210" "farmer".

Definition rajesh_token : Token := Jwt rajesh_payload "fallback_secret" 604802.

Definition priya_payload : JwtPayload :=
  mkPayload 1 "9876543211" "equipment_provider".

Definition priya_token : Token := Jwt priya_payload "fallback_secret" 604802.

(** ** The servers as state machines *)

(** The requests that can change the state. *)
Inductive Request :=
  | Register (t u : Z) (b : RegisterBody)
  | RequestOtp (t u : Z) (b : OtpBody)
  | VerifyOtp (t : Z) (b : OtpBody)
  | PostEquipment (t : Z) (h : Headers) (b : EquipmentBody)
  | PostProduce (t : Z) (h : Headers) (b : ProduceBody)
  | PostOrders (t : Z) (h : Headers) (b : OrderBody).

(** The state after a request; [index-sqlite.js] has no route for orders. *)
Definition handle (v : Variant) (r : Request) (s : Server) : Server :=
  match r with
  | Register t u b => (register v t u b s).2
  | RequestOtp t u b => (request_otp v t u b s).2
  | VerifyOtp t b => (verify_otp v t b s).2
  | PostEquipment t h b => (post_equipment v t h b s).2
  | PostProduce t h b =>
      match v with
      | index_js => (CreateProduce.pg_post_produce t h b s).2
      | index_sqlite_js => (CreateProduce.sqlite_post_produce t h b s).2
      end
  | PostOrders t h b =>
      match v with
      | index_js => (Pg.post_orders t h b s).2
      | index_sqlite_js => s
      end
  end.

(** The state after a sequence of requests. *)
Definition run (v : Variant) (rs : list Request) (s : Server) : Server :=
  foldl (λ s r, handle v r s) s rs.

(** What the schema promises of [users]: ids, phones and the emails that
    are given are unique, and every role is one of [ROLES]. *)
Definition users_ok (d : Db) : Prop :=
  NoDup (user_id <$> users d) ∧
  NoDup (user_phone <$> users d) ∧
  NoDup (omap user_email (users d)) ∧
  Forall (λ u, user_role u ∈ ROLES) (users d).

(** Every table of [d'] starts with the rows of [d], unchanged. *)
Definition grown (d d' : Db) : Prop :=
  users d `prefix_of` users d' ∧
  equipment d `prefix_of` equipment d' ∧
  produce d `prefix_of` produce d' ∧
  products d = products d' ∧
  orders d `prefix_of` orders d' ∧
  order_items d `prefix_of` order_items d'.

(** The change a request makes to the tables: none, or the rows of one
    statement or transaction added at the end. *)
Inductive Delta (d : Db) : Db → Prop :=
  | delta_none : Delta d d
  | delta_user u :
      primary_key (user_id <$> users d) (user_id u) = true →
      unique_phone (users d) (user_phone u) = true →
      unique_email (users d) (user_email u) = true →
      check_role (user_role u) = true →
      Delta d (with_users d (users d ++ [u]))
  | delta_equipment e : Delta d (with_equipment d (equipment d ++ [e]))
  | delta_produce p : Delta d (with_produce d (produce d ++ [p]))
  | delta_order o rows :
      Delta d
        (with_order_items (with_orders d (orders d ++ [o]))
           (order_items d ++ rows)).

(** ** Listings *)

(** The row passes the filters of the equipment query. *)
Definition equipment_selected (like : string → string → bool)
    (q : EquipmentQuery) (e : Equipment) : Prop :=
  available e ∧
  (falsy (eq_type q) = false → equipment_type e = str (eq_type q)) ∧
  (falsy (eq_location q) = false →
   matches like ("%" +:+ str (eq_location q) +:+ "%") (equipment_location e)).

(** [p.stock_kg > 0] as the store of the server compares: an integer
    above 0 on [index.js]; on [index-sqlite.js] a number above 0, or any
    text. *)
Definition stock_above_0 (v : Variant) (p : Produce) : Prop :=
  match v with
  | index_js => in_stock p
  | index_sqlite_js => stocked (produce_stock_kg p) = true
  end.

(** The row passes the filters of the produce query; the [organic] filter
    compares the column with [organic === 'true']. *)
Definition produce_selected (v : Variant) (q : ProduceQuery) (p : Produce)
  : Prop :=
  stock_above_0 v p ∧
  (falsy (pq_category q) = false → produce_category p = str (pq_category q)) ∧
  (∀ organic, pq_organic q = Some organic →
     produce_organic p = Some (bool_decide (organic = "true"))).

(** A safe integer: binary64 holds it, and every integer between it and
    0, exactly. *)
Definition exact (z : Z) : Prop := Z.abs z < 2 ^ 53.


(** Page [n] of the equipment listing with [limit] rows a page. *)
Definition equipment_page (v : Variant) (like : string → string → bool)
    (type location : option string) (limit : Z) (s : Server) (n : Z)
  : list (Equipment * User) :=
  listed_equipment
    (get_equipment v like (mkEquipmentQuery (Some n) (Some limit) type location)
       s).



(** ** Creating equipment and produce *)

(** The columns of [equipment] in [index.js] can hold the fields;
    [index-sqlite.js] has [TEXT] and [REAL] columns. *)
Definition fits_equipment (v : Variant) (name type : string) (rate : Z)
    (location : option string) : Prop :=
  match v with
  | index_js =>
      varchar 255 name = true ∧ varchar 100 type = true ∧
      decimal_10_2 rate = true ∧ varchar_null 255 location = true
  | index_sqlite_js => True
  end.

(** The columns of [produce] in [index.js] can hold the fields; the stock,
    when one is given, is sent as the text of an INTEGER. *)
Definition fits_produce (v : Variant) (name category : string) (price : Z)
    (stock : option StockKg) : Prop :=
  match v with
  | index_js =>
      varchar 255 name = true ∧ varchar 100 category = true ∧
      decimal_10_2 price = true ∧ is_Some (CreateProduce.pg_stock stock)
  | index_sqlite_js => True
  end.

(** What the store of the server makes of the [stockKg] of a body is
    [stock]. *)
Definition stores_stock (v : Variant) (stockKg : option StockKg)
    (stock : option Stock) : Prop :=
  match v with
  | index_js => CreateProduce.pg_stock stockKg = Some stock
  | index_sqlite_js => stock = CreateProduce.sqlite_stock stockKg
  end.

(** Every produce id in use was drawn from the supply. *)
Definition produce_fresh (s : Server) : Prop :=
  Forall (λ id, id < uuid_supply s)%nat (produce_id <$> produce (db s)).

(** [POST /api/v1/produce] of either server; [index.js] answers with the
    row that [RETURNING] gives, [index-sqlite.js] with the row it selects
    by its id. *)
Definition post_produce (v : Variant) (now : Z) (h : Headers)
    (b : ProduceBody) (s : Server) : Reply (option Produce) * Server :=
  match v with
  | index_js =>
      match CreateProduce.pg_post_produce now h b s with
      | (Payload code row, s') => (Payload code (Some row), s')
      | (Plain r, s') => (Plain r, s')
      end
  | index_sqlite_js => CreateProduce.sqlite_post_produce now h b s
  end.

(** The listing without filters. *)
Definition all_equipment : EquipmentQuery :=
  mkEquipmentQuery None None None None.

Definition all_produce : ProduceQuery := mkProduceQuery None None None None.

(** A column that is [NOT NULL] gets no value. *)
Definition equipment_incomplete (b : EquipmentBody) : Prop :=
  eb_name b = None ∨ eb_type b = None ∨ eb_baseRatePerDay b = None.

Definition produce_incomplete (b : ProduceBody) : Prop :=
  pb_name b = None ∨ pb_category b = None ∨ pb_pricePerKg b = None.

(** The response as a plain one, when it is. *)
Definition plain {A} (r : Reply A) : option Response :=
  match r with
  | Plain r => Some r
  | Payload _ _ => None
  end.

(** ** The dashboard *)

(** 1 when the viewer of the dashboard is the user who made the request,
    0 for any other viewer. *)
Definition own (user viewer : JwtPayload) : nat :=
  if bool_decide (userId viewer = userId user) then 1%nat else 0%nat.

(** The code of a reply. *)
Definition reply_status {A} (r : Reply A) : Z :=
  match r with
  | Payload code _ => code
  | Plain r => status r
  end.

(** ** Seeding *)

(** [seedData] of either server; [index.js] reads no clock. *)
Definition seedData (v : Variant) (now : Z) (s : Server) : Server :=
  match v with
  | index_js => Seed.pg_seedData s
  | index_sqlite_js => Seed.sqlite_seedData now s
  end.

(** The row of a sample user. *)
Definition seeded_user (id : uuid) (su : SeedUser) : User :=
  mkUser id (seed_name su) None (seed_phone su) (seed_role su)
    (Some (seed_location su)) true.

(** The rows of the sample users, with the ids drawn from [n] on. *)
Fixpoint seeded_from (n : uuid) (us : list SeedUser) : list User :=
  match us with
  | [] => []
  | su :: rest => seeded_user n su :: seeded_from (S n) rest
  end.

(** The columns of [users] in [index.js] can hold the sample user, and the
    role is one of [ROLES]. *)
Definition seed_ok (su : SeedUser) : bool :=
  varchar 255 (seed_name su) && varchar 20 (seed_phone su)
  && varchar 50 (seed_role su) && check_role (seed_role su)
  && varchar 255 (seed_location su).

(** The sample equipment and produce of [index-sqlite.js], seeded at time
    [now] with the ids drawn from [n] on: five for the users, then two and
    two; the owner is the second sample user, the farmer the first. *)
Definition seeded_equipment (now : Z) (n : uuid) : list Equipment :=
  Seed.sampleEquipment now (seq (n + 5) 2) (Some (S n)).

Definition seeded_produce (now : Z) (n : uuid) : list Produce :=
  Seed.sampleProduce now (seq (n + 5 + 2) 2) (Some n).

(** A computation that leaves the table of users as it is, however it
    ends. *)
Definition keeps_users {A} (m : Handler A) : Prop :=
  ∀ s, users (db (state_of (m s))) = users (db s).



(** * Properties *)

(** ** Basic facts *)

Lemma falsy_false (v : option string) :
  falsy v = false → ∃ x, v = Some x ∧ x ≠ "" ∧ str v = x.
Proof.
  destruct v as [x|]; [|done]. simpl. intros H%bool_decide_eq_false. eauto.
Qed.

Lemma falsy_Some (x : string) : x ≠ "" → falsy (Some x) = false.
Proof. intros. by apply bool_decide_eq_false. Qed.

Lemma set_db_same (s : Server) : set_db s (db s) = s.
Proof. by destruct s. Qed.

Lemma pretty_N_go_nonempty (x : N) (s : string) :
  s ≠ "" → pretty_N_go x s ≠ "".
Proof.
  revert s. induction (N.lt_wf_0 x) as [x _ IH]; intros s Hs.
  destruct (decide (0 < x)%N) as [Hx|Hx].
  - rewrite pretty_N_go_step by done. apply IH; [by apply N.div_lt | done].
  - replace x with 0%N by lia. by rewrite pretty_N_go_0.
Qed.

Lemma pretty_N_nonempty (x : N) : pretty x ≠ "".
Proof.
  unfold pretty, pretty_N. case_decide; [done|].
  rewrite pretty_N_go_step by lia. by apply pretty_N_go_nonempty.
Qed.

(** A generated code is never the empty string, and distinct draws give
    distinct codes. *)
Lemma generateOTP_nonempty (u : Z) : generateOTP u ≠ "".
Proof.
  unfold generateOTP, pretty, pretty_Z.
  destruct (100000 + u); [done| apply pretty_N_nonempty | done].
Qed.

Lemma generateOTP_inj (u1 u2 : Z) : generateOTP u1 = generateOTP u2 → u1 = u2.
Proof. unfold generateOTP. intros H%(inj pretty). lia. Qed.

(** ** The OTP handlers *)

Ltac verify_otp_cases t b s :=
  let Hf := fresh "Hf" in
  let e := fresh "e" in
  let Hl := fresh "Hl" in
  destruct (falsy (body_phone b) || falsy (body_otp b)) eqn:Hf;
  [| apply orb_false_iff in Hf as [(?p & ?Hp & ?Hpne & ?Hps)%falsy_false
                                   (?c & ?Hc & ?Hcne & ?Hcs)%falsy_false];
     destruct (otpStore s !! str (body_phone b)) as [e|] eqn:Hl;
     [ destruct (bool_decide (expiresAt e < t)) eqn:?Hexp;
       [| destruct (bool_decide (otp e = str (body_otp b))) eqn:?Hcode; simpl ]
     |] ].

Lemma pg_no_valid_otp_400 t b s :
  no_valid_otp t b s →
  ∃ msg, Pg.verify_otp t b s = (error 400 msg, s).
Proof.
  intros Hno. unfold Pg.verify_otp.
  verify_otp_cases t b s; eauto.
  exfalso. rewrite Hps in Hl. destruct (Hno _ _ Hp Hl) as [Ht|Hne].
  - by apply bool_decide_eq_false in Hexp.
  - apply bool_decide_eq_true in Hcode. congruence.
Qed.

Lemma sqlite_no_valid_otp_400 t b s :
  no_valid_otp t b s →
  ∃ msg, Sqlite.verify_otp t b s = (error 400 msg, s).
Proof.
  intros Hno. unfold Sqlite.verify_otp.
  verify_otp_cases t b s; eauto.
  exfalso. rewrite Hps in Hl. destruct (Hno _ _ Hp Hl) as [Ht|Hne].
  - by apply bool_decide_eq_false in Hexp.
  - apply bool_decide_eq_true in Hcode. congruence.
Qed.

(** What a verification answered with 200 has done. *)
Lemma pg_verify_otp_200 t b s r s' :
  Pg.verify_otp t b s = (r, s') → status r = 200 →
  ∃ p e user s1,
    body_phone b = Some p ∧ p ≠ "" ∧ otpStore s !! p = Some e ∧
    ¬ expiresAt e < t ∧ body_otp b = Some (otp e) ∧ otp e ≠ "" ∧
    Pg.verified_user p e s = Next user s1 ∧
    (r, s') = session t p user s1.
Proof.
  unfold Pg.verify_otp. verify_otp_cases t b s; try (intros [= <- <-]; done).
  rewrite Hps in *. rewrite Hcs in *.
  apply bool_decide_eq_false in Hexp. apply bool_decide_eq_true in Hcode.
  destruct (Pg.verified_user p e s) as [user s1|r1 s1|s1] eqn:Hv.
  - intros Hr _. exists p, e, user, s1. rewrite Hr. repeat split; try done; congruence.
  - unfold Pg.verified_user in Hv.
    destruct (userData e); simpl in Hv; repeat case_match; simplify_eq.
    intros [= <- <-]. done.
  - intros [= <- <-]. done.
Qed.

Lemma sqlite_verify_otp_200 t b s r s' :
  Sqlite.verify_otp t b s = (r, s') → status r = 200 →
  ∃ p e user s1,
    body_phone b = Some p ∧ p ≠ "" ∧ otpStore s !! p = Some e ∧
    ¬ expiresAt e < t ∧ body_otp b = Some (otp e) ∧ otp e ≠ "" ∧
    Sqlite.verified_user p e s = Next user s1 ∧
    (r, s') = session t p user s1.
Proof.
  unfold Sqlite.verify_otp. verify_otp_cases t b s; try (intros [= <- <-]; done).
  rewrite Hps in *. rewrite Hcs in *.
  apply bool_decide_eq_false in Hexp. apply bool_decide_eq_true in Hcode.
  destruct (Sqlite.verified_user p e s) as [user s1|r1 s1|s1] eqn:Hv.
  - intros Hr _. exists p, e, user, s1. rewrite Hr. repeat split; try done; congruence.
  - unfold Sqlite.verified_user in Hv.
    destruct (userData e); simpl in Hv; repeat case_match; simplify_eq.
    intros [= <- <-]. done.
  - intros [= <- <-]. done.
Qed.

Lemma session_otpStore t p user s :
  otpStore (session t p user s).2 !! p = None.
Proof. simpl. apply lookup_delete_eq. Qed.

Lemma pg_verify_otp_no_entry t b s p :
  body_phone b = Some p → otpStore s !! p = None →
  (falsy (body_phone b) || falsy (body_otp b) = false) →
  Pg.verify_otp t b s = (error 400 "OTP expired or invalid", s).
Proof.
  intros Hp Hl Hf. unfold Pg.verify_otp. rewrite Hf, Hp. simpl. by rewrite Hl.
Qed.

Lemma sqlite_verify_otp_no_entry t b s p :
  body_phone b = Some p → otpStore s !! p = None →
  (falsy (body_phone b) || falsy (body_otp b) = false) →
  Sqlite.verify_otp t b s = (error 400 "OTP expired or invalid", s).
Proof.
  intros Hp Hl Hf. unfold Sqlite.verify_otp. rewrite Hf, Hp. simpl. by rewrite Hl.
Qed.

Lemma no_valid_otp_400 v t b s :
  no_valid_otp t b s → ∃ msg, verify_otp v t b s = (error 400 msg, s).
Proof.
  destruct v; [apply pg_no_valid_otp_400 | apply sqlite_no_valid_otp_400].
Qed.

(** C4: a verification without a valid code (no entry under the phone, an
    expired entry, or a code other than the stored one) is answered with
    400 on both servers and leaves the state as it was: no user row is
    inserted, no token is issued. *)
Theorem verify_otp_rejects (v : Variant) (t : Z) (b : OtpBody) (s : Server) :
  no_valid_otp t b s →
  ∃ msg, verify_otp v t b s = (error 400 msg, s).
Proof. apply no_valid_otp_400. Qed.

Lemma verify_otp_rejects_witness :
  no_valid_otp 2000 (asha_code "654321") (asha_pending index_js) ∧
  ∃ msg, verify_otp index_js 2000 (asha_code "654321") (asha_pending index_js)
         = (error 400 msg, asha_pending index_js).
Proof.
  assert (no_valid_otp 2000 (asha_code "654321") (asha_pending index_js)) as H.
  { intros p e [= <-] Hl. vm_compute in Hl. injection Hl as <-. by right. }
  split; [exact H | exact (verify_otp_rejects index_js _ _ _ H)].
Defined.

(** C5: a verification answered with 200 was sent the code that the store
    held under the phone, and has deleted that entry: the store of the
    answer holds nothing under the phone, so the same request, sent again
    to that state at any time, is answered with 400 "OTP expired or
    invalid" and changes nothing; and so it is in any state without an
    entry under the phone.  On both servers. *)
Theorem verify_otp_single_use (v : Variant) (t : Z) (b : OtpBody)
    (s : Server) (r : Response) (s' : Server) :
  verify_otp v t b s = (r, s') → status r = 200 →
  ∃ p e, body_phone b = Some p ∧
    otpStore s !! p = Some e ∧ body_otp b = Some (otp e) ∧
    otpStore s' !! p = None ∧
    (∀ t', verify_otp v t' b s' = (error 400 "OTP expired or invalid", s')) ∧
    ∀ t' s'', otpStore s'' !! p = None →
      verify_otp v t' b s'' = (error 400 "OTP expired or invalid", s'').
Proof.
  intros Hv H200.
  assert (∃ p e user s1,
    body_phone b = Some p ∧ p ≠ "" ∧ otpStore s !! p = Some e ∧
    ¬ expiresAt e < t ∧ body_otp b = Some (otp e) ∧ otp e ≠ "" ∧
    (r, s') = session t p user s1)
    as (p & e & user & s1 & Hp & Hpne & Hl & _ & Hc & Hcne & Hs).
  { destruct v; simpl in Hv.
    - destruct (pg_verify_otp_200 _ _ _ _ _ Hv H200) as (p&e&u&s1&?&?&?&?&?&?&?&?).
      by exists p, e, u, s1.
    - destruct (sqlite_verify_otp_200 _ _ _ _ _ Hv H200) as (p&e&u&s1&?&?&?&?&?&?&?&?).
      by exists p, e, u, s1. }
  assert (otpStore s' !! p = None) as Hgone.
  { replace s' with (session t p user s1).2 by by rewrite <-Hs.
    apply session_otpStore. }
  assert (falsy (body_phone b) || falsy (body_otp b) = false) as Hf.
  { rewrite Hp, Hc. by rewrite (falsy_Some p Hpne), (falsy_Some _ Hcne). }
  assert (∀ t' s'', otpStore s'' !! p = None →
            verify_otp v t' b s'' = (error 400 "OTP expired or invalid", s''))
    as Hagain.
  { intros t' s'' Hl'.
    destruct v;
      [by eapply pg_verify_otp_no_entry | by eapply sqlite_verify_otp_no_entry]. }
  exists p, e. repeat split; try done. intros t'. by apply Hagain.
Qed.

Lemma verify_otp_single_use_witness :
  (status (verify_otp index_js 2000 (asha_code "123456")
             (asha_pending index_js)).1 = 200 ∧
   otpStore (asha_pending index_js) !! "9000000001" ≠ None ∧
   otpStore (asha_verified index_js) !! "9000000001" = None ∧
   ∀ t', verify_otp index_js t' (asha_code "123456") (asha_verified index_js)
         = (error 400 "OTP expired or invalid", asha_verified index_js)) ∧
  (status (verify_otp index_sqlite_js 2000 (asha_code "123456")
             (asha_pending index_sqlite_js)).1 = 200 ∧
   otpStore (asha_pending index_sqlite_js) !! "9000000001" ≠ None ∧
   otpStore (asha_verified index_sqlite_js) !! "9000000001" = None ∧
   ∀ t', verify_otp index_sqlite_js t' (asha_code "123456")
           (asha_verified index_sqlite_js)
         = (error 400 "OTP expired or invalid", asha_verified index_sqlite_js)).
Proof.
  split.
  - destruct (verify_otp_single_use index_js 2000 (asha_code "123456")
                (asha_pending index_js)
                (verify_otp index_js 2000 (asha_code "123456")
                   (asha_pending index_js)).1
                (asha_verified index_js))
      as (p & e & [= <-] & Hl & _ & Hgone & Hagain & _);
      [reflexivity|vm_compute; reflexivity|].
    split; [vm_compute; reflexivity|]. split; [by rewrite Hl|].
    split; [exact Hgone | exact Hagain].
  - destruct (verify_otp_single_use index_sqlite_js 2000 (asha_code "123456")
                (asha_pending index_sqlite_js)
                (verify_otp index_sqlite_js 2000 (asha_code "123456")
                   (asha_pending index_sqlite_js)).1
                (asha_verified index_sqlite_js))
      as (p & e & [= <-] & Hl & _ & Hgone & Hagain & _);
      [reflexivity|vm_compute; reflexivity|].
    split; [vm_compute; reflexivity|]. split; [by rewrite Hl|].
    split; [exact Hgone | exact Hagain].
Defined.

Lemma request_otp_stores v t u b p s :
  body_phone b = Some p → p ≠ "" →
  request_otp v t u b s
  = (json (JMessage "OTP sent successfully" p),
     set_otpStore s
       (<[p := mkOtp (generateOTP u) None (t + 300000)]> (otpStore s))).
Proof.
  intros Hp Hne.
  destruct v; simpl; unfold Pg.request_otp, Sqlite.request_otp;
    rewrite Hp; simpl; by rewrite (bool_decide_eq_false_2 _ Hne).
Qed.

Lemma verify_otp_login v t p c exp user s :
  p ≠ "" → c ≠ "" → otpStore s !! p = Some (mkOtp c None exp) → t ≤ exp →
  head (users_by_phone (db s) p) = Some user →
  verify_otp v t (mkOtpBody (Some p) (Some c)) s = session t p user s.
Proof.
  intros Hp Hc Hl Ht Hu.
  destruct v; simpl; unfold Pg.verify_otp, Sqlite.verify_otp; simpl;
    rewrite (bool_decide_eq_false_2 _ Hp), (bool_decide_eq_false_2 _ Hc);
    simpl; rewrite Hl; simpl;
    rewrite bool_decide_eq_false_2 by lia;
    rewrite bool_decide_eq_true_2 by done; simpl.
  - unfold Pg.verified_user. simpl.
    destruct (users_by_phone (db s) p); by simplify_eq/=.
  - unfold Sqlite.verified_user. simpl. by rewrite Hu.
Qed.

(** C6, amended: after two OTP requests for one non-empty phone the store
    holds the second entry only; a verification that is answered with 200
    carried the second code, the first code is answered with 400 whenever
    the two draws differ, and the second code signs in the user of that
    phone until it expires. *)
Theorem request_otp_twice (v : Variant) (t1 t2 u1 u2 : Z) (b1 b2 : OtpBody)
    (p : string) (s : Server) :
  p ≠ "" → body_phone b1 = Some p → body_phone b2 = Some p →
  let s2 := (request_otp v t2 u2 b2 (request_otp v t1 u1 b1 s).2).2 in
  otpStore s2 !! p = Some (mkOtp (generateOTP u2) None (t2 + 300000)) ∧
  (∀ t code r s', verify_otp v t (mkOtpBody (Some p) code) s2 = (r, s') →
     status r = 200 → code = Some (generateOTP u2)) ∧
  (u1 ≠ u2 → ∀ t, ∃ msg,
     verify_otp v t (mkOtpBody (Some p) (Some (generateOTP u1))) s2
     = (error 400 msg, s2)) ∧
  (∀ t user, t ≤ t2 + 300000 →
     head (users_by_phone (db s) p) = Some user →
     verify_otp v t (mkOtpBody (Some p) (Some (generateOTP u2))) s2
     = session t p user s2).
Proof.
  intros Hne Hb1 Hb2 s2.
  assert (otpStore s2 !! p
          = Some (mkOtp (generateOTP u2) None (t2 + 300000))) as Hl.
  { subst s2. rewrite (request_otp_stores v t1 u1 b1 p s Hb1 Hne). simpl.
    rewrite (request_otp_stores v t2 u2 b2 p _ Hb2 Hne). simpl.
    apply lookup_insert_eq. }
  assert (db s2 = db s) as Hdb.
  { subst s2. rewrite (request_otp_stores v t1 u1 b1 p s Hb1 Hne). simpl.
    by rewrite (request_otp_stores v t2 u2 b2 p _ Hb2 Hne). }
  split; [done|]. split; [|split].
  - intros t code r s' Hv H200.
    assert (∃ e, otpStore s2 !! p = Some e ∧ code = Some (otp e))
      as (e & He & ->).
    { destruct v; simpl in Hv.
      - destruct (pg_verify_otp_200 _ _ _ _ _ Hv H200)
          as (p'&e&?&?&[= <-]&?&?&?&?&?); eauto.
      - destruct (sqlite_verify_otp_200 _ _ _ _ _ Hv H200)
          as (p'&e&?&?&[= <-]&?&?&?&?&?); eauto. }
    rewrite Hl in He. by injection He as <-.
  - intros Hu t. apply no_valid_otp_400.
    intros p' e [= <-] He. rewrite Hl in He. injection He as <-. right.
    simpl. intros [= H%generateOTP_inj]. done.
  - intros t user Ht Hu. apply (verify_otp_login v t p _ (t2 + 300000)); try done.
    + apply generateOTP_nonempty.
    + by rewrite Hdb.
Qed.

Lemma request_otp_twice_witness :
  let s2 :=
    (request_otp index_js 3000 111 (mkOtpBody (Some "9000000001") None)
       (request_otp index_js 2500 0 (mkOtpBody (Some "9000000001") None)
          (asha_verified index_js)).2).2 in
  otpStore s2 !! "9000000001" = Some (mkOtp "100111" None 303000) ∧
  (∃ msg, verify_otp index_js 4000 (asha_code "100000") s2 = (error 400 msg, s2)) ∧
  status (verify_otp index_js 4000 (asha_code "100111") s2).1 = 200.
Proof.
  intros s2.
  destruct (request_otp_twice index_js 2500 3000 0 111
              (mkOtpBody (Some "9000000001") None)
              (mkOtpBody (Some "9000000001") None)
              "9000000001" (asha_verified index_js))
    as (H1 & _ & H3 & H4); [done..|].
  split; [exact H1|]. split.
  - apply H3. lia.
  - unfold asha_code. change "100111" with (generateOTP 111).
    fold s2 in H4. rewrite (H4 4000 (mkUser 0 "Asha" None "9000000001" "farmer" None true));
      [reflexivity | lia | reflexivity].
Defined.

(** C6 as the specification words it fails on both servers: the codes are
    drawn at random and compared by value, so when the second request draws
    the code of the first, the first code still signs the user in. *)
Lemma request_otp_twice_counterexample :
  (otp <$> otpStore (first_request index_js) !! "9000000001" = Some "100000" ∧
   otpStore (second_request index_js) !! "9000000001"
   = Some (mkOtp "100000" None 303000) ∧
   status (verify_otp index_js 4000 (asha_code "100000")
             (second_request index_js)).1 = 200) ∧
  (otp <$> otpStore (first_request index_sqlite_js) !! "9000000001"
   = Some "100000" ∧
   otpStore (second_request index_sqlite_js) !! "9000000001"
   = Some (mkOtp "100000" None 303000) ∧
   status (verify_otp index_sqlite_js 4000 (asha_code "100000")
             (second_request index_sqlite_js)).1 = 200).
Proof. split; by vm_compute. Qed.

(** ** Middleware *)

Lemma authenticateToken_next {A} t s h user (fail : Response → A) next :
  authenticated t s h user → authenticateToken t s h fail next = next user.
Proof.
  intros (pieces & token & Hh & Hp & Hv). unfold authenticateToken.
  rewrite Hh. simpl. rewrite Hp.
  destruct token as [payload k exp|o]; [|done]. by rewrite Hv.
Qed.

(** C7: on both servers, [POST /api/v1/equipment] with a valid token whose
    role is not ['equipment_provider'] is answered with 403 and leaves the
    state, hence the equipment table, as it was. *)
Theorem post_equipment_forbidden (v : Variant) (t : Z) (h : Headers)
    (b : EquipmentBody) (s : Server) (user : JwtPayload) :
  authenticated t s h user → role user ≠ "equipment_provider" →
  post_equipment v t h b s = (error 403 "Insufficient permissions", s).
Proof.
  intros Ha Hr.
  destruct v; simpl; unfold Pg.post_equipment, Sqlite.post_equipment;
    rewrite (authenticateToken_next _ _ _ _ _ _ Ha); unfold authorizeRole;
    rewrite bool_decide_eq_false_2; try done;
    by intros ?%list_elem_of_singleton.
Qed.

Lemma post_equipment_forbidden_witness :
  authenticated 3000 (asha_verified index_js) (bearer asha_token)
    (mkPayload 0 "9000000001" "farmer") ∧
  post_equipment index_js 3000 (bearer asha_token) tractor
    (asha_verified index_js)
  = (error 403 "Insufficient permissions", asha_verified index_js).
Proof.
  assert (authenticated 3000 (asha_verified index_js) (bearer asha_token)
            (mkPayload 0 "9000000001" "farmer")) as H.
  { exists [Opaque "Bearer"; asha_token], asha_token. by vm_compute. }
  split; [exact H|].
  by apply (post_equipment_forbidden index_js 3000 _ tractor _ _ H).
Defined.

(** C10: [POST /api/v1/orders] with a valid token and no items, or an empty
    array of items, is answered with 500 and leaves the state as it was:
    no order and no order item persist. *)
Theorem post_orders_no_items (t : Z) (h : Headers) (b : OrderBody)
    (s : Server) (user : JwtPayload) :
  authenticated t s h user → items b = None ∨ items b = Some [] →
  Pg.post_orders t h b s = (error 500 "Internal server error", s).
Proof.
  intros Ha Hi. unfold Pg.post_orders.
  rewrite (authenticateToken_next _ _ _ _ _ _ Ha).
  unfold Pg.create_order, Pg.order_transaction.
  destruct Hi as [-> | ->]; simpl; by rewrite set_db_same.
Qed.

Lemma post_orders_no_items_witness :
  Pg.post_orders 3000 (bearer asha_token) (mkOrderBody (Some []) None)
    (asha_verified index_js)
  = (error 500 "Internal server error", asha_verified index_js) ∧
  Pg.post_orders 3000 (bearer asha_token) (mkOrderBody None None)
    (asha_verified index_js)
  = (error 500 "Internal server error", asha_verified index_js).
Proof.
  assert (authenticated 3000 (asha_verified index_js) (bearer asha_token)
            (mkPayload 0 "9000000001" "farmer")) as H.
  { exists [Opaque "Bearer"; asha_token], asha_token. by vm_compute. }
  split.
  - apply (post_orders_no_items 3000 _ _ _ _ H). by right.
  - apply (post_orders_no_items 3000 _ _ _ _ H). by left.
Defined.

(** ** Listings *)

Lemma take_drop_segment {A} (limit offset : nat) (rows : list A) :
  ∃ before after, rows = before ++ take limit (drop offset rows) ++ after.
Proof.
  exists (take offset rows), (drop limit (drop offset rows)).
  by rewrite take_drop, take_drop.
Qed.

Lemma pg_paged_segment {A} limit offset (rows page : list A) :
  Pg.paged limit offset rows = Some page →
  ∃ before after, rows = before ++ page ++ after.
Proof.
  unfold Pg.paged, Pg.limit_offset.
  destruct (Pg.int8 _) as [l|]; [|done]. simpl.
  destruct (Pg.int8_of_number _) as [o|]; [|done]. simpl.
  destruct (_ || _); [done|]. intros [= <-]. apply take_drop_segment.
Qed.

Lemma sqlite_paged_segment {A} limit offset (rows page : list A) :
  Sqlite.paged limit offset rows = Some page →
  ∃ before after, rows = before ++ page ++ after.
Proof.
  unfold Sqlite.paged, Sqlite.limit_offset.
  destruct (Sqlite.must_be_int (param _ _)) as [l|]; [|done]. simpl.
  destruct (Sqlite.must_be_int (parseInt _)) as [o|]; [|done]. simpl.
  intros [= <-]. destruct (bool_decide _).
  - exists (take (Z.to_nat o) rows), []. by rewrite app_nil_r, take_drop.
  - apply take_drop_segment.
Qed.

Lemma segment_subseteq {A} (rows page before after : list A) :
  rows = before ++ page ++ after → page ⊆ rows.
Proof.
  intros -> x Hx. apply elem_of_app. right. apply elem_of_app. by left.
Qed.

Lemma elem_of_join_users {A} (fk : A → option uuid) rows us (r : A * User) :
  r ∈ join_users fk rows us → r.1 ∈ rows ∧ r.2 ∈ us ∧ fk r.1 = Some (user_id r.2).
Proof.
  unfold join_users. intros (a & Hr & Ha)%list_elem_of_bind.
  apply list_elem_of_fmap in Hr as (u & -> & (Hfk & Hu)%list_elem_of_filter).
  done.
Qed.

(** Every selected row passes the availability filter and joins a row of
    the table with its owner. *)
Lemma select_equipment_spec v like d q r :
  r ∈ select_equipment v like d q →
  available r.1 ∧ r.1 ∈ equipment d ∧ r.2 ∈ users d.
Proof.
  assert (∀ rows : list (Equipment * User),
            r ∈ rows → rows ⊆ filter (λ r, available r.1)
              (join_users equipment_owner_id (equipment d) (users d)) →
            available r.1 ∧ r.1 ∈ equipment d ∧ r.2 ∈ users d) as Hbase.
  { intros rows Hr Hsub. apply Hsub in Hr.
    apply list_elem_of_filter in Hr as [Hav Hj].
    by destruct (elem_of_join_users _ _ _ _ Hj) as (? & ? & ?). }
  destruct v; simpl; unfold Pg.select_equipment, Sqlite.select_equipment;
    rewrite merge_sort_Permutation; intros Hr; apply (Hbase _ Hr);
    repeat case_match;
    repeat first [reflexivity | etrans; [apply list_subseteq_filter|]].
Qed.

Lemma select_produce_spec v d q r :
  r ∈ select_produce v d q →
  stock_above_0 v r.1 ∧ r.1 ∈ produce d ∧ r.2 ∈ users d.
Proof.
  assert (∀ (P : Produce → Prop) `{∀ p, Decision (P p)}
            (rows : list (Produce * User)),
            r ∈ rows → rows ⊆ filter (λ r, P r.1)
              (join_users produce_farmer_id (produce d) (users d)) →
            P r.1 ∧ r.1 ∈ produce d ∧ r.2 ∈ users d) as Hbase.
  { intros P ? rows Hr Hsub. apply Hsub in Hr.
    apply list_elem_of_filter in Hr as [Hav Hj].
    by destruct (elem_of_join_users _ _ _ _ Hj) as (? & ? & ?). }
  destruct v; simpl; unfold Pg.select_produce, Sqlite.select_produce;
    rewrite merge_sort_Permutation; intros Hr;
    [apply (Hbase in_stock _ _ Hr)
    |apply (Hbase (λ p, stocked (produce_stock_kg p) = true) _ _ Hr)];
    repeat case_match;
    repeat first [reflexivity | etrans; [apply list_subseteq_filter|]].
Qed.

Lemma listed_equipment_subseteq v like q s :
  listed_equipment (get_equipment v like q s)
  ⊆ select_equipment v like (db s) q.
Proof.
  destruct v; simpl; unfold Pg.get_equipment, Sqlite.get_equipment.
  - destruct (Pg.paged _ _ _) as [page|] eqn:E; [|by intros x Hx%elem_of_nil].
    apply pg_paged_segment in E as (before & after & E).
    by eapply segment_subseteq.
  - destruct (Sqlite.paged _ _ _) as [page|] eqn:E;
      [|by intros x Hx%elem_of_nil].
    apply sqlite_paged_segment in E as (before & after & E).
    by eapply segment_subseteq.
Qed.

Lemma listed_produce_subseteq v q s :
  listed_produce (get_produce v q s) ⊆ select_produce v (db s) q.
Proof.
  destruct v; simpl; unfold Pg.get_produce, Sqlite.get_produce.
  - destruct (Pg.paged _ _ _) as [page|] eqn:E; [|by intros x Hx%elem_of_nil].
    apply pg_paged_segment in E as (before & after & E).
    by eapply segment_subseteq.
  - destruct (Sqlite.paged _ _ _) as [page|] eqn:E;
      [|by intros x Hx%elem_of_nil].
    apply sqlite_paged_segment in E as (before & after & E).
    by eapply segment_subseteq.
Qed.

(** C9: whatever the filters, the page and the limit, every row of the
    produce listing of [index.js] has a stock above 0 and every row of its
    equipment listing is ['available']; each is a row of its table. *)
Theorem listings_default_filter (like : string → string → bool)
    (qp : ProduceQuery) (qe : EquipmentQuery) (s : Server) :
  Forall (λ r, (∃ kg, produce_stock_kg r.1 = Some (StockInt kg) ∧ 0 < kg)
               ∧ r.1 ∈ produce (db s))
    (listed_produce (get_produce index_js qp s)) ∧
  Forall (λ r, equipment_availability_status r.1 = Some "available"
               ∧ r.1 ∈ equipment (db s))
    (listed_equipment (get_equipment index_js like qe s)).
Proof.
  split; apply list.Forall_forall; intros r Hr.
  - apply listed_produce_subseteq, select_produce_spec in Hr.
    by destruct Hr as (? & ? & ?).
  - apply listed_equipment_subseteq, select_equipment_spec in Hr.
    by destruct Hr as (? & ? & ?).
Qed.

(** The seeded market lists its two stocked produce rows, not the sold out
    one. *)
Example listed_produce_market :
  produce_name ∘ fst
    <$> listed_produce
          (get_produce index_js (mkProduceQuery None None None None) market)
  = ["Premium Basmati Rice"; "Fresh Organic Tomatoes"].
Proof. by vm_compute. Qed.

(** C8: on both servers and for both listings, [pagination.total] of a
    listing response is the number of rows of the returned page, the
    segment of the matching rows that LIMIT and OFFSET leave; the only
    other response is the 500 for a limit or an offset that the store
    refuses.  It is not the number of matching rows: with one row a page
    the seeded market reports a total of 1 for its 2 matching rows. *)
Theorem pagination_total_counts_page (v : Variant)
    (like : string → string → bool) :
  (∀ q s,
     match body (get_equipment v like q s) with
     | JEquipmentList rows pg =>
         counts_page pg rows (select_equipment v like (db s) q)
     | JError _ => status (get_equipment v like q s) = 500
     | _ => False
     end) ∧
  (∀ q s,
     match body (get_produce v q s) with
     | JProduceList rows pg => counts_page pg rows (select_produce v (db s) q)
     | JError _ => status (get_produce v q s) = 500
     | _ => False
     end) ∧
  (∃ rows pg,
     body (get_equipment v like one_equipment market) = JEquipmentList rows pg ∧
     total pg = 1%nat ∧
     length (select_equipment v like (db market) one_equipment) = 2%nat) ∧
  (∃ rows pg,
     body (get_produce v one_produce market) = JProduceList rows pg ∧
     total pg = 1%nat ∧
     length (select_produce v (db market) one_produce) = 2%nat).
Proof.
  split; [|split; [|split]].
  - intros q s. destruct v; simpl; unfold Pg.get_equipment, Sqlite.get_equipment.
    + destruct (Pg.paged _ _ _) as [rows|] eqn:E; simpl; [|done].
      split; [done|]. by eapply pg_paged_segment.
    + destruct (Sqlite.paged _ _ _) as [rows|] eqn:E; simpl; [|done].
      split; [done|]. by eapply sqlite_paged_segment.
  - intros q s. destruct v; simpl; unfold Pg.get_produce, Sqlite.get_produce.
    + destruct (Pg.paged _ _ _) as [rows|] eqn:E; simpl; [|done].
      split; [done|]. by eapply pg_paged_segment.
    + destruct (Sqlite.paged _ _ _) as [rows|] eqn:E; simpl; [|done].
      split; [done|]. by eapply sqlite_paged_segment.
  - destruct v; eexists _, _; (split; [by vm_compute|]); by vm_compute.
  - destruct v; eexists _, _; (split; [by vm_compute|]); by vm_compute.
Qed.

(** ** Orders *)

Lemma bind_Next {A B} (m : Handler A) (f : A → Handler B) s a s' :
  m s = Next a s' → (m ≫= f) s = f a s'.
Proof. unfold mbind, Handler_bind. by intros ->. Qed.

Lemma bind_Throw {A B} (m : Handler A) (f : A → Handler B) s s' :
  m s = Throw s' → (m ≫= f) s = Throw s'.
Proof. unfold mbind, Handler_bind. by intros ->. Qed.

Lemma bind_inv_Next {A B} (m : Handler A) (f : A → Handler B) s b s'' :
  (m ≫= f) s = Next b s'' → ∃ a s', m s = Next a s' ∧ f a s' = Next b s''.
Proof. unfold mbind, Handler_bind. destruct (m s); naive_solver. Qed.

(** The price the loop reads is the catalog price. *)
Lemma unitPrice_catalog item s :
  match catalog_price (db s) item with
  | Some price => Pg.unitPrice item s = Next (Some price) s
  | None =>
      Pg.unitPrice item s = Throw s ∨ Pg.unitPrice item s = Next None s
  end.
Proof.
  unfold catalog_price, Pg.unitPrice. repeat case_bool_decide.
  - destruct (Pg.produce_by_id _ _); simpl; auto.
  - destruct (Pg.products_by_id _ _); simpl; auto.
  - auto.
Qed.

Lemma catalog_price_references d item price :
  catalog_price d item = Some price →
  references (produce_id <$> produce d)
    (if bool_decide (li_type item = "produce") then Some (li_itemId item)
     else None) = true ∧
  references (product_id <$> products d)
    (if bool_decide (li_type item = "product") then Some (li_itemId item)
     else None) = true.
Proof.
  unfold catalog_price, Pg.produce_by_id, Pg.products_by_id.
  destruct (bool_decide (li_type item = "produce")) eqn:E1;
    [|destruct (bool_decide (li_type item = "product")) eqn:E2; [|done]].
  - apply bool_decide_eq_true in E1.
    rewrite bool_decide_eq_false_2 by (rewrite E1; done).
    destruct (filter _ _) as [|p l] eqn:Hf; [done|]. intros _. split; [|done].
    assert (p ∈ filter (λ p, produce_id p = li_itemId item) (produce d)) as Hp
      by (rewrite Hf; left).
    apply list_elem_of_filter in Hp as [<- Hp].
    apply bool_decide_eq_true. by apply list_elem_of_fmap_2.
  - destruct (filter _ _) as [|p l] eqn:Hf; [done|]. intros _. split; [done|].
    assert (p ∈ filter (λ p, product_id p = li_itemId item) (products d)) as Hp
      by (rewrite Hf; left).
    apply list_elem_of_filter in Hp as [<- Hp].
    apply bool_decide_eq_true. by apply list_elem_of_fmap_2.
Qed.

Lemma create_item_Next oid total item s total' s' :
  Pg.create_item oid total item s = Next total' s' →
  ∃ row,
    snapshots (db s) oid item row ∧ oi_id row = uuid_supply s ∧
    total' = total + line_total (db s) item ∧
    s' = mkServer (with_order_items (db s) (order_items (db s) ++ [row]))
           (otpStore s) (S (uuid_supply s)) (JWT_SECRET s).
Proof.
  unfold Pg.create_item. intros (price & s1 & Hp & H)%bind_inv_Next.
  pose proof (unitPrice_catalog item s) as Hc.
  destruct (catalog_price (db s) item) as [p|] eqn:Hcat.
  - rewrite Hc in Hp. injection Hp as <- <-.
    apply bind_inv_Next in H as (id & s2 & Hid & H).
    injection Hid as <- <-.
    apply bind_inv_Next in H as ([] & s3 & Hq & H).
    injection H as <- <-.
    unfold query, Pg.insert_order_item in Hq. simpl in Hq.
    destruct (primary_key _ _ && _ && _ && _ && _ && _ && _) eqn:Hcond;
      [|done]. injection Hq as <-.
    eexists. split; [|split; [|split]]; [| | |reflexivity]; [|done|].
    + unfold snapshots, line_total. rewrite Hcat. done.
    + unfold line_total. by rewrite Hcat.
  - destruct Hc as [Hc|Hc]; rewrite Hc in Hp; [done|].
    injection Hp as <- <-. done.
Qed.

Lemma create_item_Throw oid total item s :
  catalog_price (db s) item = None →
  Pg.create_item oid total item s = Throw s.
Proof.
  intros Hcat. pose proof (unitPrice_catalog item s) as Hc.
  rewrite Hcat in Hc. unfold Pg.create_item.
  destruct Hc as [Hc|Hc].
  - by apply bind_Throw.
  - by rewrite (bind_Next _ _ _ _ _ Hc).
Qed.

Lemma create_item_ok oid total item s :
  is_Some (catalog_price (db s) item) → storable (db s) item →
  oid ∈ order_id <$> orders (db s) →
  Forall (λ id, id < uuid_supply s)%nat (oi_id <$> order_items (db s)) →
  ∃ total' s', Pg.create_item oid total item s = Next total' s'.
Proof.
  intros [price Hcat] (Hq & Hp & Ht) Hoid Hfresh.
  pose proof (unitPrice_catalog item s) as Hc. rewrite Hcat in Hc.
  destruct (catalog_price_references _ _ _ Hcat) as [Hr1 Hr2].
  unfold line_total in Ht. rewrite Hcat in Hp, Ht. simpl in Hp, Ht.
  unfold Pg.create_item. rewrite (bind_Next _ _ _ _ _ Hc).
  unfold mbind, Handler_bind, gen_uuid, query, Pg.insert_order_item. simpl.
  rewrite Hr1, Hr2, Hq, Hp, Ht.
  rewrite (bool_decide_eq_true_2 (oid ∈ _)) by done.
  unfold primary_key. rewrite bool_decide_eq_true_2; [simpl; eauto|].
  intros Hin. eapply list.Forall_forall in Hfresh; [|done]. lia.
Qed.

Lemma catalog_price_same d d' item :
  produce d = produce d' → products d = products d' →
  catalog_price d item = catalog_price d' item.
Proof.
  intros H1 H2.
  unfold catalog_price, Pg.produce_by_id, Pg.products_by_id.
  by rewrite H1, H2.
Qed.

Lemma snapshots_same d d' oid item row :
  produce d = produce d' → products d = products d' →
  snapshots d oid item row → snapshots d' oid item row.
Proof.
  intros H1 H2. unfold snapshots, line_total.
  by rewrite (catalog_price_same d d' item H1 H2).
Qed.

Lemma order_total_same d d' its :
  produce d = produce d' → products d = products d' →
  order_total d its = order_total d' its.
Proof.
  intros H1 H2. induction its as [|it its IH]; [done|]. simpl.
  unfold line_total at 1. rewrite (catalog_price_same d d' it H1 H2).
  by rewrite IH.
Qed.

(** What the loop has done when it ends: one snapshot row for each item,
    in order, and the running total. *)
Lemma create_items_Next oid its : ∀ total s total' s',
  Pg.create_items oid total its s = Next total' s' →
  ∃ rows,
    Forall2 (snapshots (db s) oid) its rows ∧
    total' = total + order_total (db s) its ∧
    s' = mkServer (with_order_items (db s) (order_items (db s) ++ rows))
           (otpStore s) (uuid_supply s + length its) (JWT_SECRET s).
Proof.
  induction its as [|it its IH]; intros total s total' s'; simpl.
  - intros [= <- <-]. exists []. split; [constructor|]. split; [lia|].
    destruct s as [[] ? ? ?]. simpl. unfold with_order_items. simpl.
    by rewrite app_nil_r, Nat.add_0_r.
  - intros (total1 & s1 & H1 & H2)%bind_inv_Next.
    apply create_item_Next in H1 as (row & Hrow & _ & -> & ->).
    apply IH in H2 as (rows & Hrows & -> & ->). simpl.
    exists (row :: rows). split; [|split].
    + constructor; [done|].
      eapply list.Forall2_impl; [exact Hrows|]. intros ???.
      by eapply snapshots_same.
    + rewrite (order_total_same _ (db s)) by done. lia.
    + unfold with_order_items. simpl. rewrite <-app_assoc. simpl.
      f_equal. lia.
Qed.

Lemma create_items_ok oid its : ∀ total s,
  Forall (λ it, is_Some (catalog_price (db s) it) ∧ storable (db s) it) its →
  oid ∈ order_id <$> orders (db s) →
  Forall (λ id, id < uuid_supply s)%nat (oi_id <$> order_items (db s)) →
  ∃ total' s', Pg.create_items oid total its s = Next total' s'.
Proof.
  induction its as [|it its IH]; intros total s Hits Hoid Hfresh; simpl.
  - by eexists _, _.
  - apply list.Forall_cons in Hits as [[Hcat Hst] Hits].
    destruct (create_item_ok oid total it s) as (total1 & s1 & H1); try done.
    rewrite (bind_Next _ _ _ _ _ H1).
    apply create_item_Next in H1 as (row & Hrow & Hid & -> & ->).
    apply IH; simpl.
    + eapply list.Forall_impl; [exact Hits|]. intros it' [Hc' Hs'].
      unfold storable, line_total in *.
      by rewrite <-(catalog_price_same (db s)).
    + done.
    + rewrite fmap_app. apply Forall_app. split.
      * eapply list.Forall_impl; [exact Hfresh|]. simpl. lia.
      * simpl. apply Forall_singleton. lia.
Qed.

Lemma update_unrelated (f : Order → Order) (id : uuid) (os : list Order) :
  id ∉ order_id <$> os →
  (λ o, if bool_decide (order_id o = id) then f o else o) <$> os = os.
Proof.
  induction os as [|o os IH]; [done|]. rewrite !fmap_cons.
  intros [Hne Hnin]%not_elem_of_cons.
  rewrite bool_decide_eq_false_2 by done. by rewrite IH.
Qed.

(** A transaction that reaches [COMMIT] was given at least one item and has
    persisted the order. *)
Lemma order_transaction_Next buyer b s oid total s' :
  Pg.order_transaction buyer b s = Next (oid, total) s' →
  ∃ its o,
    items b = Some its ∧ its ≠ [] ∧ order_id o = oid ∧
    total = order_total (db s) its ∧
    order_persisted s s' buyer its o ∧
    otpStore s' = otpStore s ∧ JWT_SECRET s' = JWT_SECRET s.
Proof.
  unfold Pg.order_transaction.
  destruct (items b) as [[|first rest]|] eqn:Hits; [done| |done].
  assert (first :: rest ≠ []) as Hne by done.
  remember (first :: rest) as its eqn:Hi. clear Hi.
  intros (id & s1 & Hid & H)%bind_inv_Next. injection Hid as <- <-.
  apply bind_inv_Next in H as (o0 & s2 & Hins & H).
  unfold query, Pg.insert_order in Hins. simpl in Hins.
  destruct (primary_key _ _ && _ && _ && _) eqn:Hcond; [|done].
  injection Hins as <- <-.
  repeat (apply andb_prop in Hcond as [Hcond ?]).
  apply bool_decide_eq_true in Hcond.
  apply bind_inv_Next in H as (total1 & s3 & Hloop & H).
  apply create_items_Next in Hloop as (rows & Hrows & -> & ->).
  apply bind_inv_Next in H as ([] & s4 & Hupd & H).
  injection H as <- <- <-.
  unfold query, Pg.update_total_amount in Hupd. simpl in Hupd.
  destruct (bool_decide _ && negb _) eqn:Hdec; [done|].
  injection Hupd as <-. simpl in *.
  rewrite (order_total_same _ (db s)) by done.
  rewrite (order_total_same _ (db s)) in Hdec by done.
  rewrite fmap_app, update_unrelated by done. simpl.
  rewrite bool_decide_eq_true_2 by done. rewrite Z.add_0_l.
  exists its,
    (mkOrder (uuid_supply s) (Some buyer) (li_sellerId first)
       (order_total (db s) its) "pending" "pending" (deliveryAddress b)).
  split; [done|]. split; [done|]. split; [done|]. split; [done|].
  split; [|done].
  exists rows. split; [done|]. split; [done|]. split; [done|].
  split; [symmetry; by eapply Forall2_length|].
  eapply list.Forall2_impl; [exact Hrows|]. intros ???.
  by eapply snapshots_same.
Qed.

Lemma database_only_bind {A B} (m : Handler A) (f : A → Handler B) :
  database_only m → (∀ a, database_only (f a)) → database_only (m ≫= f).
Proof.
  intros Hm Hf s. specialize (Hm s). unfold mbind, Handler_bind.
  destruct (m s) as [a s1|r s1|s1]; simpl in *; [|done..].
  destruct (Hf a s1) as [-> ->]. done.
Qed.

Lemma database_only_query {A} (q : Db → option (Db * A)) :
  database_only (query q).
Proof. intros s. unfold query. by destruct (q (db s)) as [[]|]. Qed.

Lemma database_only_gen_uuid : database_only gen_uuid.
Proof. done. Qed.

Lemma database_only_throw {A} : database_only (@throw A).
Proof. done. Qed.

Lemma database_only_ret {A} (a : A) : database_only (mret a).
Proof. done. Qed.

Lemma database_only_unitPrice item : database_only (Pg.unitPrice item).
Proof. intros s. unfold Pg.unitPrice. by repeat case_match. Qed.

Create HintDb frame.

#[local] Hint Resolve database_only_query database_only_gen_uuid
  database_only_throw database_only_ret database_only_unitPrice : frame.

Lemma database_only_create_item oid total item :
  database_only (Pg.create_item oid total item).
Proof.
  unfold Pg.create_item. apply database_only_bind; [auto with frame|].
  intros [price|]; [|auto with frame].
  repeat (apply database_only_bind; [auto with frame|]; intros ?).
  auto with frame.
Qed.

Lemma database_only_create_items oid its : ∀ total,
  database_only (Pg.create_items oid total its).
Proof.
  induction its as [|it its IH]; intros total; simpl; [auto with frame|].
  apply database_only_bind; [apply database_only_create_item | apply IH].
Qed.

Lemma database_only_order_transaction buyer b :
  database_only (Pg.order_transaction buyer b).
Proof.
  unfold Pg.order_transaction.
  destruct (items b) as [[|first rest]|]; [auto with frame| |auto with frame].
  apply database_only_bind; [auto with frame|]; intros id.
  apply database_only_bind; [auto with frame|]; intros o.
  apply database_only_bind; [apply database_only_create_items|]; intros total.
  apply database_only_bind; [auto with frame|]; intros ?.
  auto with frame.
Qed.

Lemma order_transaction_ok buyer b s its :
  items b = Some its → its ≠ [] →
  supply_fresh s →
  buyer ∈ user_id <$> users (db s) →
  references (user_id <$> users (db s)) (head its ≫= li_sellerId) = true →
  Forall (λ it, is_Some (catalog_price (db s) it) ∧ storable (db s) it) its →
  decimal_10_2 (order_total (db s) its) = true →
  ∃ oid total s', Pg.order_transaction buyer b s = Next (oid, total) s'.
Proof.
  intros Hits Hne (_ & _ & Hfo & Hfi) Hbuyer Hseller Hall Htotal.
  unfold Pg.order_transaction. rewrite Hits.
  destruct its as [|first rest]; [done|]. simpl in Hseller.
  remember (first :: rest) as its eqn:Hi. clear Hi Hne.
  unfold mbind at 1, Handler_bind at 1, gen_uuid. simpl.
  unfold mbind at 1, Handler_bind at 1, query, Pg.insert_order. simpl.
  unfold primary_key. rewrite bool_decide_eq_true_2; last first.
  { intros Hin. eapply list.Forall_forall in Hfo; [|done]. lia. }
  rewrite (bool_decide_eq_true_2 _ Hbuyer), Hseller. simpl.
  match goal with
  | |- context [(Pg.create_items ?oid 0 its ≫= _) ?s2] =>
      destruct (create_items_ok oid its 0 s2) as (total' & s3 & Hloop)
  end.
  { eapply list.Forall_impl; [exact Hall|]. intros it [Hc Hs].
    unfold storable, line_total in *.
    by rewrite <-(catalog_price_same (db s)). }
  { simpl. rewrite fmap_app. apply elem_of_app. right. simpl. left. }
  { simpl. eapply list.Forall_impl; [exact Hfi|]. simpl. lia. }
  rewrite (bind_Next _ _ _ _ _ Hloop).
  apply create_items_Next in Hloop as (rows & Hrows & -> & ->).
  simpl. rewrite (order_total_same _ (db s)) by done.
  unfold mbind, Handler_bind, query, Pg.update_total_amount. simpl.
  rewrite Z.add_0_l, Htotal, andb_false_r. by eexists _, _, _.
Qed.

Lemma snapshots_priced d oid its rows :
  Forall2 (snapshots d oid) its rows →
  Forall (λ it, is_Some (catalog_price d it)) its.
Proof.
  intros H. induction H as [|it row its rows Hs _ IH]; constructor; [|done].
  destruct Hs as (_ & Hc & _). eauto.
Qed.

Lemma create_order_all_or_nothing user b s its :
  items b = Some its →
  Exists (λ it, catalog_price (db s) it = None) its →
  ∃ s', Pg.create_order user b s = (error 500 "Internal server error", s') ∧
    db s' = db s ∧ otpStore s' = otpStore s ∧ JWT_SECRET s' = JWT_SECRET s.
Proof.
  intros Hits Hmissing. unfold Pg.create_order.
  destruct (database_only_order_transaction (userId user) b s) as [Ho Hj].
  destruct (Pg.order_transaction (userId user) b s)
    as [[oid total] s'|r s'|s'] eqn:Htx; simpl in Ho, Hj.
  - exfalso.
    apply order_transaction_Next in Htx
      as (its' & o & Hits' & _ & _ & _ & (rows & _ & _ & _ & _ & Hrows) & _).
    rewrite Hits in Hits'. injection Hits' as <-.
    apply snapshots_priced in Hrows.
    apply list.Exists_exists in Hmissing as (it & Hin & Hnone).
    eapply list.Forall_forall in Hrows; [|done].
    rewrite Hnone in Hrows. by destruct Hrows.
  - by eexists.
  - by eexists.
Qed.

(** C2: when some line item refers to no row of its catalog table, the
    handler, and with it the route for a request with a valid token,
    answers with 500 and leaves the tables as they were before: no order
    and no order item persist. *)
Theorem post_orders_all_or_nothing (b : OrderBody) (s : Server)
    (user : JwtPayload) (its : list Item) :
  items b = Some its →
  Exists (λ it, catalog_price (db s) it = None) its →
  ∃ s', Pg.create_order user b s = (error 500 "Internal server error", s') ∧
    db s' = db s ∧ otpStore s' = otpStore s ∧ JWT_SECRET s' = JWT_SECRET s ∧
    ∀ t h, authenticated t s h user →
      Pg.post_orders t h b s = (error 500 "Internal server error", s').
Proof.
  intros Hits Hmissing.
  destruct (create_order_all_or_nothing user b s its Hits Hmissing)
    as (s' & Hs' & Hdb & Ho & Hj).
  exists s'. repeat (split; [done|]).
  intros t h Ha. unfold Pg.post_orders.
  by rewrite (authenticateToken_next _ _ _ _ _ _ Ha).
Qed.

Lemma post_orders_all_or_nothing_witness :
  ∃ s', Pg.create_order amit_payload missing_line market
        = (error 500 "Internal server error", s') ∧
    db s' = db market ∧ otpStore s' = otpStore market ∧
    JWT_SECRET s' = JWT_SECRET market ∧
    ∀ t h, authenticated t market h amit_payload →
      Pg.post_orders t h missing_line market
      = (error 500 "Internal server error", s').
Proof.
  apply (post_orders_all_or_nothing missing_line market amit_payload
           [mkItem "produce" 7 3 (Some 0%nat); mkItem "produce" 99 1 (Some 0%nat)]).
  - reflexivity.
  - apply Exists_cons_tl, Exists_cons_hd. reflexivity.
Defined.

(** C1, amended: a request with a valid token of a stored user, whose
    items (at least one) all refer to rows of the produce or product
    tables, whose first item names no seller or a stored user, and
    whose quantities and amounts fit the columns, is answered with 201;
    then one order is added whose [total_amount] is the sum of catalog
    price times quantity, and one [order_items] row is added for each
    item. *)
Theorem post_orders_persists_total (t : Z) (h : Headers) (b : OrderBody)
    (s : Server) (user : JwtPayload) (its : list Item) :
  authenticated t s h user → items b = Some its →
  Forall (λ it, is_Some (catalog_price (db s) it)) its →
  its ≠ [] →
  supply_fresh s →
  userId user ∈ user_id <$> users (db s) →
  references (user_id <$> users (db s)) (head its ≫= li_sellerId) = true →
  Forall (storable (db s)) its →
  decimal_10_2 (order_total (db s) its) = true →
  ∃ o s',
    Pg.post_orders t h b s
    = (mkResponse 201 (JOrder (order_id o) (order_total (db s) its)), s') ∧
    order_persisted s s' (userId user) its o.
Proof.
  intros Ha Hits Hcat Hne Hfresh Hbuyer Hseller Hst Htotal.
  unfold Pg.post_orders.
  rewrite (authenticateToken_next _ _ _ _ _ _ Ha). unfold Pg.create_order.
  destruct (order_transaction_ok (userId user) b s its)
    as (oid & total & s' & Htx); try done.
  { apply list.Forall_forall. intros it Hin. split.
    - by eapply list.Forall_forall in Hcat.
    - by eapply list.Forall_forall in Hst. }
  rewrite Htx.
  apply order_transaction_Next in Htx
    as (its' & o & Hits' & _ & <- & -> & Hp & _).
  rewrite Hits in Hits'. injection Hits' as <-. by exists o, s'.
Qed.

Lemma post_orders_persists_total_witness :
  ∃ o s',
    Pg.post_orders 3000 (bearer amit_token) two_lines market
    = (mkResponse 201 (JOrder (order_id o) 37650), s') ∧
    order_persisted market s' 2
      [mkItem "produce" 7 3 (Some 0%nat); mkItem "produce" 8 2 (Some 0%nat)] o.
Proof.
  destruct (post_orders_persists_total 3000 (bearer amit_token) two_lines
              market amit_payload
              [mkItem "produce" 7 3 (Some 0%nat);
               mkItem "produce" 8 2 (Some 0%nat)])
    as (o & s' & H1 & H2).
  - exists [Opaque "Bearer"; amit_token], amit_token. by vm_compute.
  - reflexivity.
  - repeat constructor; by eexists.
  - done.
  - repeat split; simpl; repeat constructor.
  - simpl. set_solver.
  - reflexivity.
  - repeat constructor.
  - reflexivity.
  - exists o, s'. split; [exact H1 | exact H2].
Defined.

(** C1 as the specification words it fails: every item of the request
    refers to a catalog row and the token is valid, but the declared seller
    is no user, the insert of the order violates its foreign key, and the
    request is answered with 500 with no order and none of its item rows
    persisted. *)
Lemma post_orders_persists_total_counterexample :
  authenticated 3000 market (bearer amit_token) amit_payload ∧
  items unknown_seller = Some [mkItem "produce" 7 3 (Some 99%nat)] ∧
  Forall (λ it, is_Some (catalog_price (db market) it))
    [mkItem "produce" 7 3 (Some 99%nat)] ∧
  ∃ s',
    Pg.post_orders 3000 (bearer amit_token) unknown_seller market
    = (error 500 "Internal server error", s') ∧
    orders (db s') = [] ∧ order_items (db s') = [] ∧
    ¬ ∃ o, order_persisted market s' 2 [mkItem "produce" 7 3 (Some 99%nat)] o.
Proof.
  split; [|split; [|split]].
  - exists [Opaque "Bearer"; amit_token], amit_token. by vm_compute.
  - reflexivity.
  - repeat constructor. by eexists.
  - eexists. split; [vm_compute; reflexivity|]. split; [done|]. split; [done|].
    intros (o & rows & Hdb & _). simpl in Hdb.
    apply (f_equal orders) in Hdb. simpl in Hdb. discriminate.
Qed.

(** The other conditions of the amended C1 are needed as well: an amount
    beyond [DECIMAL(10,2)] and a token of a user that is not stored are
    answered with 500. *)
Example post_orders_too_much :
  Pg.post_orders 3000 (bearer amit_token) too_much market
  = (error 500 "Internal server error",
     mkServer seeded ∅ 12 None).
Proof. by vm_compute. Qed.

Example post_orders_unknown_buyer :
  Pg.post_orders 3000
    (bearer (Jwt (mkPayload 50 "9876543219" "consumer") "fallback_secret" 604802))
    two_lines market
  = (error 500 "Internal server error", mkServer seeded ∅ 11 None).
Proof. by vm_compute. Qed.

Example post_orders_two_lines :
  (Pg.post_orders 3000 (bearer amit_token) two_lines market).1
  = mkResponse 201 (JOrder 10 37650).
Proof. by vm_compute. Qed.

(** ** Registration *)

Lemma filter_none {A} (P : A → Prop) `{∀ x, Decision (P x)} (l : list A) :
  Forall (λ x, ¬ P x) l → filter P l = [].
Proof.
  induction 1 as [|x l Hx _ IH]; [done|]. by rewrite filter_cons_False.
Qed.

Lemma unregistered_no_match d phone email :
  unregistered d phone email → users_by_phone_or_email d phone email = [].
Proof.
  intros Hun. unfold users_by_phone_or_email.
  apply filter_none, list.Forall_forall.
  intros u Hu [Hp|[He1 He2]]; destruct (Hun u Hu) as [Hn1 Hn2]; [done|].
  by apply Hn2.
Qed.

Lemma unregistered_unique d phone email :
  unregistered d phone email →
  unique_phone (users d) phone = true ∧ unique_email (users d) email = true.
Proof.
  intros Hun. unfold unique_phone, unique_email. split.
  - apply bool_decide_eq_true, list.Forall_forall. intros u Hu.
    by destruct (Hun u Hu).
  - destruct email as [e|]; [|done].
    apply bool_decide_eq_true, list.Forall_forall. intros u Hu.
    destruct (Hun u Hu) as [_ He]. by apply He.
Qed.

Lemma register_pending v t u b s :
  falsy (reg_name b) = false → falsy (reg_phone b) = false →
  falsy (reg_role b) = false →
  unregistered (db s) (str (reg_phone b)) (reg_email b) →
  register v t u b s
  = (json (JMessage "OTP sent successfully" (str (reg_phone b))),
     set_otpStore s
       (<[str (reg_phone b) :=
            mkOtp (generateOTP u)
              (Some (mkUserData (str (reg_name b)) (reg_email b)
                       (str (reg_phone b)) (str (reg_role b))
                       (reg_location b)))
              (t + 300000)]> (otpStore s))).
Proof.
  intros Hn Hp Hr Hun.
  destruct v; simpl; unfold Pg.register, Sqlite.register;
    rewrite Hn, Hp, Hr; simpl;
    by rewrite (unregistered_no_match _ _ _ Hun).
Qed.

Lemma fresh_primary_key {A} (key : A → uuid) (rows : list A) (n : nat) :
  Forall (λ id, id < n)%nat (key <$> rows) → primary_key (key <$> rows) n = true.
Proof.
  intros Hf. apply bool_decide_eq_true. intros Hin.
  eapply list.Forall_forall in Hf; [|done]. lia.
Qed.

Lemma fresh_users_by_id d u :
  Forall (λ id, id < user_id u)%nat (user_id <$> users d) →
  users_by_id (with_users d (users d ++ [u])) (user_id u) = [u].
Proof.
  intros Hf. unfold users_by_id. simpl. rewrite list.filter_app.
  rewrite (filter_none (λ u', user_id u' = user_id u) (users d)).
  - simpl. rewrite filter_cons_True by done. done.
  - apply list.Forall_forall. intros u' Hu' Heq.
    eapply list.Forall_forall in Hf; [|by apply list_elem_of_fmap_2].
    lia.
Qed.

(** A pending registration that the columns accept becomes a user. *)
Lemma verify_otp_registers v t p c ud exp s :
  p ≠ "" → c ≠ "" → otpStore s !! p = Some (mkOtp c (Some ud) exp) →
  t ≤ exp → supply_fresh s →
  check_role (ud_role ud) = true →
  unregistered (db s) p (ud_email ud) →
  (v = index_js →
   varchar 255 (ud_name ud) = true ∧ varchar_null 255 (ud_email ud) = true ∧
   varchar 20 p = true ∧ varchar_null 255 (ud_location ud) = true) →
  let user :=
    mkUser (uuid_supply s) (ud_name ud) (ud_email ud) p (ud_role ud)
      (ud_location ud) true in
  verify_otp v t (mkOtpBody (Some p) (Some c)) s
  = session t p user
      (mkServer (with_users (db s) (users (db s) ++ [user])) (otpStore s)
         (S (uuid_supply s)) (JWT_SECRET s)).
Proof.
  intros Hp Hc Hl Ht (Hfu & _) Hrole Hun Hfit user.
  destruct (unregistered_unique _ _ _ Hun) as [Hup Hue].
  pose proof (fresh_primary_key user_id _ _ Hfu) as Hpk.
  destruct v; simpl; unfold Pg.verify_otp, Sqlite.verify_otp; simpl;
    rewrite (bool_decide_eq_false_2 _ Hp), (bool_decide_eq_false_2 _ Hc);
    simpl; rewrite Hl; simpl;
    rewrite bool_decide_eq_false_2 by lia;
    rewrite bool_decide_eq_true_2 by done; simpl.
  - destruct Hfit as (Hf1 & Hf2 & Hf3 & Hf4); [done|].
    unfold Pg.verified_user, Pg.insert_user. simpl.
    rewrite Hpk, Hf1, Hf2, Hf3, Hf4, Hrole, Hup, Hue. simpl.
    assert (varchar 50 (ud_role ud) = true) as ->; [|done].
    apply bool_decide_eq_true in Hrole. apply bool_decide_eq_true.
    unfold ROLES in Hrole. set_unfold in Hrole.
    destruct Hrole as [->|[->|[->|[->|[->|[->|[]]]]]]]; simpl; lia.
  - unfold Sqlite.verified_user, Sqlite.insert_user. simpl.
    rewrite Hpk, Hrole, Hup, Hue. simpl.
    fold user. change (uuid_supply s) with (user_id user) at 1.
    rewrite fresh_users_by_id; done.
Qed.

(** C3, amended: for a payload with non-empty name, phone and role, whose
    role is one of the six roles of the schema and whose fields fit the
    columns, when no user has the phone or the email, [register] followed,
    within the 300 seconds of the code, by [verify-otp] with the phone and
    the generated code is answered with a session: a new user row is
    stored, and the payload of the token, which [jwt.verify] accepts, holds
    the id and the role of that row. *)
Theorem register_then_verify_otp (v : Variant) (t1 t2 u : Z)
    (b : RegisterBody) (s : Server) (name phone role : string) :
  reg_name b = Some name → name ≠ "" →
  reg_phone b = Some phone → phone ≠ "" →
  reg_role b = Some role → role ≠ "" →
  unregistered (db s) phone (reg_email b) →
  role ∈ ROLES → fits_users v b → t2 ≤ t1 + 300000 → supply_fresh s →
  ∃ token user s2,
    (register v t1 u b s).1 = json (JMessage "OTP sent successfully" phone) ∧
    verify_otp v t2 (mkOtpBody (Some phone) (Some (generateOTP u)))
      (register v t1 u b s).2
    = (json (JSession token (view user)), s2) ∧
    users (db s2) = users (db s) ++ [user] ∧
    user = mkUser (uuid_supply s) name (reg_email b) phone role
             (reg_location b) true ∧
    decode token = Some (mkPayload (user_id user) phone (user_role user)) ∧
    jwt_verify token (secret (JWT_SECRET s2)) t2 = decode token.
Proof.
  intros Hn Hnne Hp Hpne Hr Hrne Hun Hrole Hfit Ht Hfresh.
  assert (str (reg_name b) = name) as Hsn by by rewrite Hn.
  assert (str (reg_phone b) = phone) as Hsp by by rewrite Hp.
  assert (str (reg_role b) = role) as Hsr by by rewrite Hr.
  rewrite (register_pending v t1 u b s); cycle 1.
  { rewrite Hn. by apply falsy_Some. }
  { rewrite Hp. by apply falsy_Some. }
  { rewrite Hr. by apply falsy_Some. }
  { by rewrite Hsp. }
  rewrite Hsn, Hsp, Hsr. simpl.
  set (user := mkUser (uuid_supply s) name (reg_email b) phone role
                 (reg_location b) true).
  set (s1 := set_otpStore s _).
  set (s2 := mkServer (with_users (db s1) (users (db s1) ++ [user]))
               (otpStore s1) (S (uuid_supply s1)) (JWT_SECRET s1)).
  exists (jwt_sign (mkPayload (user_id user) (user_phone user) (user_role user))
            (secret (JWT_SECRET s2)) t2), user, (session t2 phone user s2).2.
  split; [done|]. split; [|split; [done|split; [done|]]].
  - rewrite (verify_otp_registers v t2 phone (generateOTP u)
               (mkUserData name (reg_email b) phone role (reg_location b))
               (t1 + 300000) s1); try done.
    + apply generateOTP_nonempty.
    + apply lookup_insert_eq.
    + by apply bool_decide_eq_true.
    + intros ->. simpl in Hfit. by rewrite Hsn, Hsp in Hfit.
  - simpl. split; [done|].
    rewrite bool_decide_eq_true_2 by done.
    rewrite bool_decide_eq_true_2 by lia. done.
Qed.

Lemma register_then_verify_otp_witness :
  ∃ token user s2,
    (register index_js 1000 23456 asha boot).1
    = json (JMessage "OTP sent successfully" "9000000001") ∧
    verify_otp index_js 2000 (asha_code "123456")
      (register index_js 1000 23456 asha boot).2
    = (json (JSession token (view user)), s2) ∧
    users (db s2) = users (db boot) ++ [user] ∧
    user = mkUser 0 "Asha" None "9000000001" "farmer" None true ∧
    decode token = Some (mkPayload (user_id user) "9000000001" (user_role user)) ∧
    jwt_verify token (secret (JWT_SECRET s2)) 2000 = decode token.
Proof.
  apply (register_then_verify_otp index_js 1000 2000 23456 asha boot
           "Asha" "9000000001" "farmer"); try done.
  - intros u Hu. by apply not_elem_of_nil in Hu.
  - unfold ROLES. set_solver.
Defined.

(** C3 as the specification words it fails on both servers: name, phone
    and role are non-empty and no user is stored, but the role is none of
    the schema's, the insert of the user violates the [CHECK] of the role
    column, and the verification with the generated code is answered with
    500; no user row is stored and no token is issued. *)
Lemma register_then_verify_otp_counterexample :
  reg_name asha_pilot = Some "Asha" ∧ reg_phone asha_pilot = Some "9000000001" ∧
  reg_role asha_pilot = Some "pilot" ∧
  unregistered (db boot) "9000000001" (reg_email asha_pilot) ∧
  ((register index_js 1000 23456 asha_pilot boot).1
   = json (JMessage "OTP sent successfully" "9000000001") ∧
   (verify_otp index_js 2000 (asha_code "123456") (pilot_pending index_js)).1
   = error 500 "Internal server error" ∧
   users (db (verify_otp index_js 2000 (asha_code "123456")
                (pilot_pending index_js)).2) = []) ∧
  ((register index_sqlite_js 1000 23456 asha_pilot boot).1
   = json (JMessage "OTP sent successfully" "9000000001") ∧
   (verify_otp index_sqlite_js 2000 (asha_code "123456")
      (pilot_pending index_sqlite_js)).1
   = error 500 "Internal server error" ∧
   users (db (verify_otp index_sqlite_js 2000 (asha_code "123456")
                (pilot_pending index_sqlite_js)).2) = []).
Proof.
  split; [done|]. split; [done|]. split; [done|]. split; [|split].
  - intros u Hu. by apply not_elem_of_nil in Hu.
  - by vm_compute.
  - by vm_compute.
Qed.

(** The other conditions of the amended C3 are needed as well: a code that
    is verified after its 300 seconds is answered with 400, and a phone of
    more than 20 characters is refused by the column of [index.js], not by
    the one of [index-sqlite.js]. *)
Example verify_otp_expired v :
  (verify_otp v 301001 (asha_code "123456")
     (register v 1000 23456 asha boot).2).1
  = error 400 "OTP expired or invalid".
Proof. destruct v; by vm_compute. Qed.

Example verify_otp_long_phone :
  (verify_otp index_js 2000
     (mkOtpBody (Some "+91-9000-0000-01-0001") (Some "123456"))
     (register index_js 1000 23456 asha_long_phone boot).2).1
  = error 500 "Internal server error" ∧
  status
    (verify_otp index_sqlite_js 2000
       (mkOtpBody (Some "+91-9000-0000-01-0001") (Some "123456"))
       (register index_sqlite_js 1000 23456 asha_long_phone boot).2).1
  = 200.
Proof. split; by vm_compute. Qed.

(** ** The invariant of the UUID supply *)

Lemma supply_fresh_boot : supply_fresh boot.
Proof. repeat split; constructor. Qed.

Lemma supply_fresh_market : supply_fresh market.
Proof. repeat split; simpl; repeat constructor. Qed.

Lemma supply_fresh_otpStore s m :
  supply_fresh s → supply_fresh (set_otpStore s m).
Proof. done. Qed.

Lemma Forall_lt_mono (ids : list uuid) (n m : nat) :
  (n ≤ m)%nat → Forall (λ id, id < n)%nat ids → Forall (λ id, id < m)%nat ids.
Proof.
  intros Hle Hn. eapply list.Forall_impl; [exact Hn|]. intros id. simpl. lia.
Qed.

(** Rolling the tables back, or leaving them, under a supply that has
    advanced. *)
Lemma supply_fresh_advance s s' :
  supply_fresh s → (uuid_supply s ≤ uuid_supply s')%nat →
  supply_fresh (set_db s' (db s)).
Proof.
  intros (H1 & H2 & H3 & H4) Hle. repeat split; simpl;
    apply (Forall_lt_mono _ (uuid_supply s)); done.
Qed.

Lemma keeps_fresh_bind {A B} ids (m : Handler A) (f : A → Handler B) :
  keeps_fresh ids m → (∀ a, keeps_fresh ids (f a)) →
  keeps_fresh ids (m ≫= f).
Proof.
  intros Hm Hf s. destruct (Hm s) as [Hle Hfr]. unfold mbind, Handler_bind.
  destruct (m s) as [a s1|r s1|s1]; simpl in *; [|done..].
  destruct (Hf a s1) as [Hle' Hfr']. split; [lia|auto].
Qed.

Lemma keeps_fresh_gen_uuid {B} ids (f : uuid → Handler B) :
  (∀ id, keeps_fresh (id :: ids) (f id)) → keeps_fresh ids (gen_uuid ≫= f).
Proof.
  intros Hf s. unfold mbind, Handler_bind, gen_uuid. simpl.
  destruct (Hf (uuid_supply s)
              (mkServer (db s) (otpStore s) (S (uuid_supply s)) (JWT_SECRET s)))
    as [Hle Hfr]. simpl in Hle.
  split; [lia|]. intros [(H1 & H2 & H3 & H4) Hids].
  destruct Hfr as [Hfresh Hids'].
  - split;
      [repeat split; simpl;
       apply (Forall_lt_mono _ (uuid_supply s)); (lia || done)|].
    constructor; [simpl; lia|]. simpl.
    apply (Forall_lt_mono _ (uuid_supply s)); (lia || done).
  - split; [done|]. by apply list.Forall_cons in Hids' as [_ ?].
Qed.

Lemma keeps_fresh_pure {A} ids (m : Handler A) :
  (∀ s, state_of (m s) = s) → keeps_fresh ids m.
Proof. intros Hm s. by rewrite Hm. Qed.

Lemma keeps_fresh_query {A} ids (q : Db → option (Db * A)) :
  (∀ s d a, q (db s) = Some (d, a) → fresh_above ids s →
            supply_fresh (set_db s d)) →
  keeps_fresh ids (query q).
Proof.
  intros Hq s. unfold query.
  destruct (q (db s)) as [[d a]|] eqn:E; simpl; [|done].
  split; [done|]. intros Hf. split; [by eapply Hq|]. by destruct Hf.
Qed.

Lemma keeps_fresh_create_item ids oid total item :
  keeps_fresh ids (Pg.create_item oid total item).
Proof.
  unfold Pg.create_item. apply keeps_fresh_bind.
  { apply keeps_fresh_pure. intros s. unfold Pg.unitPrice.
    by repeat case_match. }
  intros [price|]; [|by apply keeps_fresh_pure].
  apply keeps_fresh_gen_uuid. intros id.
  apply keeps_fresh_bind; [|intros ?; by apply keeps_fresh_pure].
  apply keeps_fresh_query. intros s d [] Hq [(H1 & H2 & H3 & H4) Hids].
  unfold Pg.insert_order_item in Hq. case_match; [|done].
  injection Hq as <-. repeat split; simpl; try done.
  rewrite fmap_app. apply Forall_app. split; [done|].
  apply Forall_singleton. simpl. by apply list.Forall_cons in Hids as [? _].
Qed.

Lemma keeps_fresh_create_items ids oid its : ∀ total,
  keeps_fresh ids (Pg.create_items oid total its).
Proof.
  induction its as [|it its IH]; intros total; simpl.
  - by apply keeps_fresh_pure.
  - apply keeps_fresh_bind; [apply keeps_fresh_create_item | apply IH].
Qed.

Lemma keeps_fresh_order_transaction buyer b :
  keeps_fresh [] (Pg.order_transaction buyer b).
Proof.
  unfold Pg.order_transaction.
  destruct (items b) as [[|first rest]|]; try by apply keeps_fresh_pure.
  apply keeps_fresh_gen_uuid. intros id.
  apply keeps_fresh_bind.
  { apply keeps_fresh_query. intros s d o Hq [(H1 & H2 & H3 & H4) Hids].
    unfold Pg.insert_order in Hq. case_match; [|done].
    injection Hq as <- <-. repeat split; simpl; try done.
    rewrite fmap_app. apply Forall_app. split; [done|].
    apply Forall_singleton. simpl. by apply list.Forall_cons in Hids as [? _]. }
  intros o. apply keeps_fresh_bind; [apply keeps_fresh_create_items|].
  intros total. apply keeps_fresh_bind; [|intros ?; by apply keeps_fresh_pure].
  apply keeps_fresh_query. intros s d [] Hq [(H1 & H2 & H3 & H4) Hids].
  unfold Pg.update_total_amount in Hq. case_match; [done|].
  injection Hq as <-. repeat split; simpl; try done.
  rewrite <-list_fmap_compose.
  erewrite list_fmap_ext; [exact H3|]. intros ? o' _. simpl. by case_match.
Qed.

(** Every handler that writes keeps the supply fresh. *)
Lemma create_order_fresh user b s :
  supply_fresh s → supply_fresh (Pg.create_order user b s).2.
Proof.
  intros Hf. unfold Pg.create_order.
  destruct (keeps_fresh_order_transaction (userId user) b s) as [Hle Hfr].
  destruct (Pg.order_transaction (userId user) b s)
    as [[oid total] s'|r s'|s']; simpl in *.
  - by apply Hfr.
  - by apply supply_fresh_advance.
  - by apply supply_fresh_advance.
Qed.

Lemma post_orders_fresh t h b s :
  supply_fresh s → supply_fresh (Pg.post_orders t h b s).2.
Proof.
  intros Hf. unfold Pg.post_orders, authenticateToken.
  repeat case_match; try done. by apply create_order_fresh.
Qed.

Lemma supply_fresh_new_user s d u :
  supply_fresh s → users d = users (db s) ++ [u] →
  equipment d = equipment (db s) → orders d = orders (db s) →
  order_items d = order_items (db s) → user_id u = uuid_supply s →
  supply_fresh
    (mkServer d (otpStore s) (S (uuid_supply s)) (JWT_SECRET s)).
Proof.
  intros (H1 & H2 & H3 & H4) Hu He Ho Hi Hid. repeat split; simpl.
  - rewrite Hu, fmap_app. apply Forall_app. split.
    + apply (Forall_lt_mono _ (uuid_supply s)); [lia|done].
    + apply Forall_singleton. simpl. lia.
  - rewrite He. apply (Forall_lt_mono _ (uuid_supply s)); [lia|done].
  - rewrite Ho. apply (Forall_lt_mono _ (uuid_supply s)); [lia|done].
  - rewrite Hi. apply (Forall_lt_mono _ (uuid_supply s)); [lia|done].
Qed.

Lemma supply_fresh_draw s :
  supply_fresh s → supply_fresh (draw_uuid s).2.
Proof.
  intros Hf. replace (draw_uuid s).2 with (set_db (draw_uuid s).2 (db s)) by done.
  apply supply_fresh_advance; [done|simpl; lia].
Qed.

Lemma pg_verified_user_fresh p e s :
  supply_fresh s → supply_fresh (state_of (Pg.verified_user p e s)).
Proof.
  intros Hf. unfold Pg.verified_user.
  destruct (userData e) as [ud|]; simpl.
  - unfold Pg.insert_user. simpl.
    destruct (primary_key _ _ && _ && _ && _ && _ && _ && _ && _ && _); simpl.
    + unfold set_db. simpl. by eapply (supply_fresh_new_user s).
    + by apply (supply_fresh_draw s).
  - by destruct (users_by_phone (db s) p).
Qed.

Lemma sqlite_verified_user_fresh p e s :
  supply_fresh s → supply_fresh (state_of (Sqlite.verified_user p e s)).
Proof.
  intros Hf. unfold Sqlite.verified_user.
  destruct (userData e) as [ud|]; simpl.
  - unfold Sqlite.insert_user. simpl.
    destruct (primary_key _ _ && _ && _ && _); simpl.
    + destruct (head _); unfold set_db; simpl;
        by eapply (supply_fresh_new_user s).
    + by apply (supply_fresh_draw s).
  - by destruct (head (users_by_phone (db s) p)).
Qed.

Lemma verify_otp_fresh v t b s :
  supply_fresh s → supply_fresh (verify_otp v t b s).2.
Proof.
  intros Hf. destruct v; simpl; unfold Pg.verify_otp, Sqlite.verify_otp;
    verify_otp_cases t b s; try done.
  - pose proof (pg_verified_user_fresh (str (body_phone b)) e s Hf) as H.
    by destruct (Pg.verified_user _ _ _).
  - pose proof (sqlite_verified_user_fresh (str (body_phone b)) e s Hf) as H.
    by destruct (Sqlite.verified_user _ _ _).
Qed.

Lemma register_fresh v t u b s :
  supply_fresh s → supply_fresh (register v t u b s).2.
Proof.
  intros Hf. destruct v; simpl; unfold Pg.register, Sqlite.register;
    by repeat case_match.
Qed.

Lemma request_otp_fresh v t u b s :
  supply_fresh s → supply_fresh (request_otp v t u b s).2.
Proof.
  intros Hf. destruct v; simpl; unfold Pg.request_otp, Sqlite.request_otp;
    by repeat case_match.
Qed.

Lemma pg_create_equipment_fresh t user b s :
  supply_fresh s → supply_fresh (Pg.create_equipment t user b s).2.
Proof.
  intros Hf. unfold Pg.create_equipment.
  assert (keeps_fresh []
            (gen_uuid ≫= λ id,
               query (Pg.insert_equipment t id (Some (userId user)) b)))
    as Hk.
  { apply keeps_fresh_gen_uuid. intros id. apply keeps_fresh_query.
    intros s0 d e Hq [(H1 & H2 & H3 & H4) Hids].
    unfold Pg.insert_equipment in Hq.
    destruct (eb_name b), (eb_type b), (eb_baseRatePerDay b); try done.
    destruct (primary_key _ _ && _ && _ && _ && _ && _); [|done].
    injection Hq as <- <-. repeat split; simpl; try done.
    rewrite fmap_app. apply Forall_app. split; [done|].
    apply Forall_singleton. simpl.
    by apply list.Forall_cons in Hids as [? _]. }
  destruct (Hk s) as [_ Hfr].
  destruct ((gen_uuid ≫= _) s); simpl in *; apply Hfr; by split.
Qed.

Lemma sqlite_create_equipment_fresh t user b s :
  supply_fresh s → supply_fresh (Sqlite.create_equipment t user b s).2.
Proof.
  intros Hf. unfold Sqlite.create_equipment.
  assert (keeps_fresh []
            (gen_uuid ≫= λ equipmentId,
               query (Sqlite.insert_equipment t equipmentId
                        (Some (userId user)) b) ≫= λ _,
               query (λ d, Some
                        (d, head (Sqlite.equipment_by_id d equipmentId)))))
    as Hk.
  { apply keeps_fresh_gen_uuid. intros id. apply keeps_fresh_bind.
    - apply keeps_fresh_query.
      intros s0 d e Hq [(H1 & H2 & H3 & H4) Hids].
      unfold Sqlite.insert_equipment in Hq.
      destruct (eb_name b), (eb_type b), (eb_baseRatePerDay b); try done.
      destruct (primary_key _ _); [|done].
      injection Hq as <-. repeat split; simpl; try done.
      rewrite fmap_app. apply Forall_app. split; [done|].
      apply Forall_singleton. simpl.
      by apply list.Forall_cons in Hids as [? _].
    - intros _. apply keeps_fresh_query.
      intros s0 d e [= <- <-] [? _]. by rewrite set_db_same. }
  destruct (Hk s) as [_ Hfr].
  destruct ((gen_uuid ≫= _) s); simpl in *; apply Hfr; by split.
Qed.

(** The supply stays fresh under every request: [supply_fresh] holds in
    every state that the handlers reach from a fresh one, such as [boot]. *)
Lemma post_equipment_fresh v t h b s :
  supply_fresh s → supply_fresh (post_equipment v t h b s).2.
Proof.
  intros Hf.
  destruct v; simpl; unfold Pg.post_equipment, Sqlite.post_equipment,
    authenticateToken, authorizeRole; repeat case_match; try done.
  - by apply pg_create_equipment_fresh.
  - by apply sqlite_create_equipment_fresh.
Qed.

(** * Further properties of the handlers *)

(** ** Authentication *)

Lemma authenticateToken_401 {A} t s h (fail : Response → A) next :
  no_token h →
  authenticateToken t s h fail next = fail (error 401 "Access token required").
Proof.
  unfold no_token, bearer_token, authenticateToken. by intros [-> | ->].
Qed.

Lemma authenticateToken_403 {A} t s h (fail : Response → A) next :
  refused_token t s h →
  authenticateToken t s h fail next
  = fail (error 403 "Invalid or expired token").
Proof.
  unfold refused_token, bearer_token, authenticateToken.
  intros (token & -> & Hne & Hv). rewrite Hv.
  destruct token as [p k e|o]; [done|].
  destruct o as [|c o]; [done|]. done.
Qed.

(** X1: every protected route of both servers answers a request without a
    token with 401 "Access token required", before any role check or
    statement, and leaves the state as it was. *)
Theorem protected_routes_without_token (v : Variant) (t : Z) (h : Headers)
    (s : Server) :
  no_token h →
  (∀ b, post_equipment v t h b s = (error 401 "Access token required", s)) ∧
  (∀ b, Pg.post_orders t h b s = (error 401 "Access token required", s)) ∧
  (∀ b, CreateProduce.pg_post_produce t h b s
        = (Plain (error 401 "Access token required"), s)) ∧
  (∀ b, CreateProduce.sqlite_post_produce t h b s
        = (Plain (error 401 "Access token required"), s)) ∧
  (∀ bookings, Dashboard.get_stats bookings t h s
               = Plain (error 401 "Access token required")).
Proof.
  intros Hno. repeat split; intros;
    try destruct v; simpl;
    unfold Pg.post_equipment, Sqlite.post_equipment, Pg.post_orders,
      CreateProduce.pg_post_produce, CreateProduce.sqlite_post_produce,
      Dashboard.get_stats;
    by rewrite authenticateToken_401.
Qed.

Lemma protected_routes_without_token_witness :
  no_token (mkHeaders (Some [Opaque "Bearer"])) ∧
  Pg.post_orders 3000 (mkHeaders (Some [Opaque "Bearer"])) two_lines market
  = (error 401 "Access token required", market).
Proof.
  assert (no_token (mkHeaders (Some [Opaque "Bearer"]))) as H by by left.
  split; [exact H|].
  destruct (protected_routes_without_token index_js 3000 _ market H)
    as (_ & Ho & _).
  apply Ho.
Defined.

(** X2: every protected route of both servers answers a token that
    [jwt.verify] refuses (malformed, signed under another key, or expired)
    with 403 "Invalid or expired token" and leaves the state as it was. *)
Theorem protected_routes_refused_token (v : Variant) (t : Z) (h : Headers)
    (s : Server) :
  refused_token t s h →
  (∀ b, post_equipment v t h b s = (error 403 "Invalid or expired token", s)) ∧
  (∀ b, Pg.post_orders t h b s = (error 403 "Invalid or expired token", s)) ∧
  (∀ b, CreateProduce.pg_post_produce t h b s
        = (Plain (error 403 "Invalid or expired token"), s)) ∧
  (∀ b, CreateProduce.sqlite_post_produce t h b s
        = (Plain (error 403 "Invalid or expired token"), s)) ∧
  (∀ bookings, Dashboard.get_stats bookings t h s
               = Plain (error 403 "Invalid or expired token")).
Proof.
  intros Hno. repeat split; intros;
    try destruct v; simpl;
    unfold Pg.post_equipment, Sqlite.post_equipment, Pg.post_orders,
      CreateProduce.pg_post_produce, CreateProduce.sqlite_post_produce,
      Dashboard.get_stats;
    by rewrite authenticateToken_403.
Qed.

Lemma protected_routes_refused_token_witness :
  refused_token 604802000 market (bearer amit_token) ∧
  Pg.post_orders 604802000 (bearer amit_token) two_lines market
  = (error 403 "Invalid or expired token", market).
Proof.
  assert (refused_token 604802000 market (bearer amit_token)) as H.
  { exists amit_token. by vm_compute. }
  split; [exact H|].
  destruct (protected_routes_refused_token index_js 604802000 _ market H)
    as (_ & Ho & _).
  apply Ho.
Defined.

(** X3: the token of a session that [verify-otp] opens at time [t]
    authenticates later requests as the user of the session, with the id,
    phone and role of the response, until 7 days (604800 s) after [t],
    and no longer. *)
Theorem session_token_seven_days (v : Variant) (t : Z) (b : OtpBody)
    (s : Server) (token : Token) (user : UserView) (s' : Server) :
  verify_otp v t b s = (json (JSession token user), s') →
  ∀ t',
    authenticated t' s' (bearer token)
      (mkPayload (view_id user) (view_phone user) (view_role user))
    ↔ t' `div` 1000 < t `div` 1000 + 604800.
Proof.
  intros Hv.
  assert (∃ p u s1, (json (JSession token user), s') = session t p u s1)
    as (p & u & s1 & Hs).
  { destruct v; simpl in Hv.
    - destruct (pg_verify_otp_200 _ _ _ _ _ Hv eq_refl)
        as (p&e&u&s1&?&?&?&?&?&?&?&?). eauto.
    - destruct (sqlite_verify_otp_200 _ _ _ _ _ Hv eq_refl)
        as (p&e&u&s1&?&?&?&?&?&?&?&?). eauto. }
  unfold session in Hs. injection Hs as -> -> ->. simpl.
  intros t'. unfold authenticated, bearer, jwt_sign. simpl. split.
  - intros (pieces & token & [= <-] & [= <-] & Hj). simpl in Hj.
    rewrite bool_decide_eq_true_2 in Hj by done. simpl in Hj.
    case_bool_decide; [lia|done].
  - intros Ht. eexists _, _. split; [done|]. split; [done|]. simpl.
    rewrite bool_decide_eq_true_2 by done.
    rewrite bool_decide_eq_true_2 by lia. done.
Qed.

Lemma session_token_seven_days_witness :
  authenticated 604801999 (asha_verified index_js) (bearer asha_token)
    (mkPayload 0 "9000000001" "farmer")
  ↔ 604801999 `div` 1000 < 2000 `div` 1000 + 604800.
Proof.
  apply (session_token_seven_days index_js 2000 (asha_code "123456")
           (asha_pending index_js) asha_token
           (mkUserView 0 "Asha" None "9000000001" "farmer" None)
           (asha_verified index_js)).
  reflexivity.
Defined.

(** ** Binary64 *)

Lemma pow2_53 : 2 ^ 53 = 9007199254740992.
Proof. reflexivity. Qed.

Lemma round53_small (z : Z) : Z.abs z < 2 ^ 53 → round53 z = z.
Proof.
  intros Hz. unfold round53. rewrite bool_decide_eq_true_2; [done|].
  destruct (decide (Z.abs z = 0)) as [->|Hne]; [done|].
  assert (Z.log2 (Z.abs z) < 53); [|lia].
  apply Z.log2_lt_pow2; lia.
Qed.

Lemma round53_opp (z : Z) : round53 (- z) = - round53 z.
Proof.
  unfold round53. rewrite Z.abs_opp, Z.sgn_opp.
  destruct (bool_decide _); lia.
Qed.

Lemma round53_large (z : Z) : 2 ^ 53 ≤ z → 2 ^ 53 ≤ round53 z.
Proof.
  intros Hz. unfold round53.
  assert (0 < z) as Hpos by (rewrite pow2_53 in Hz; lia).
  rewrite Z.abs_eq by lia.
  assert (53 ≤ Z.log2 z) as Hlog.
  { rewrite <- (Z.log2_pow2 53) by lia. by apply Z.log2_le_mono. }
  rewrite bool_decide_eq_false_2 by lia.
  set (sh := Z.log2 z - 52).
  assert (1 ≤ sh) as Hsh by (unfold sh; lia).
  pose proof (Z.log2_spec z Hpos) as [Hlo _].
  replace (Z.log2 z) with (52 + sh) in Hlo by (unfold sh; lia).
  rewrite Z.pow_add_r in Hlo by lia.
  assert (0 < 2 ^ sh) as Hp by (apply Z.pow_pos_nonneg; lia).
  assert (2 ^ 52 ≤ z `div` 2 ^ sh) as Hq.
  { apply Z.div_le_lower_bound; lia. }
  assert (2 ≤ 2 ^ sh) as H2.
  { change 2 with (2 ^ 1) at 1. apply Z.pow_le_mono_r; lia. }
  rewrite Z.sgn_pos by lia.
  change (2 ^ 53) with (2 ^ 52 * 2).
  destruct (_ || _); nia.
Qed.


Lemma to_number_Num (c x : Z) :
  to_number c = Num x → round53 c = x.
Proof. unfold to_number. by destruct (bool_decide _); intros [= <-]. Qed.

Lemma to_number_Num_small (c x : Z) :
  to_number c = Num x → Z.abs x < 2 ^ 53 → c = x.
Proof.
  intros <-%to_number_Num Hx.
  destruct (decide (Z.abs c < 2 ^ 53)) as [Hc|Hc].
  { by rewrite round53_small. }
  exfalso. destruct (decide (0 ≤ c)).
  - pose proof (round53_large c). lia.
  - pose proof (round53_large (- c)) as H. rewrite round53_opp in H. lia.
Qed.

Lemma nearest_reads (x unit lo c : Z) :
  nearest x unit lo = Some c → to_number c = Num x.
Proof.
  unfold nearest.
  destruct (bool_decide (to_number lo = Num x)) eqn:Hlo;
    destruct (bool_decide (to_number (lo + unit) = Num x)) eqn:Hhi;
    try apply bool_decide_eq_true in Hlo;
    try apply bool_decide_eq_true in Hhi;
    repeat case_match; congruence.
Qed.

Lemma shortest_from_reads (fuel : nat) : ∀ x unit,
  shortest_from fuel x unit = x
  ∨ to_number (shortest_from fuel x unit) = Num x.
Proof.
  induction fuel as [|fuel IH]; intros x unit; simpl; [by left|].
  destruct (nearest _ _ _) as [c|] eqn:Hn; [|apply IH].
  right. by eapply nearest_reads.
Qed.

Lemma shortest_small (x : Z) : Z.abs x < 2 ^ 53 → shortest x = x.
Proof.
  intros Hx. unfold shortest.
  destruct (shortest_from_reads (Z.to_nat (digits x)) x (10 ^ (digits x - 1)))
    as [H|H]; [done|].
  by apply to_number_Num_small.
Qed.

Lemma Number_toString_small (z : Z) :
  Z.abs z < 2 ^ 53 → Number_toString (Num z) = Decimal z.
Proof.
  intros Hz. unfold Number_toString.
  rewrite shortest_small by (rewrite Z.abs_idemp; done).
  rewrite bool_decide_eq_false_2.
  - f_equal. lia.
  - assert (2 ^ 53 < 10 ^ 21) by done. lia.
Qed.



Lemma round53_grid (z : Z) :
  2 ^ 53 ≤ z →
  let sh := Z.log2 z - 52 in
  let q := z `div` 2 ^ sh in
  let r := z `mod` 2 ^ sh in
  let up := bool_decide (2 ^ (sh - 1) < r)
            || bool_decide (r = 2 ^ (sh - 1)) && Z.odd q in
  1 ≤ sh ∧ 2 ^ 52 ≤ q < 2 ^ 53 ∧
  round53 z = (if up then q + 1 else q) * 2 ^ sh.
Proof.
  intros Hz sh q r up.
  assert (0 < z) as Hpos by (rewrite pow2_53 in Hz; lia).
  assert (53 ≤ Z.log2 z) as Hlog.
  { rewrite <- (Z.log2_pow2 53) by lia. by apply Z.log2_le_mono. }
  assert (1 ≤ sh) as Hsh by (unfold sh; lia).
  pose proof (Z.log2_spec z Hpos) as [Hlo Hhi].
  replace (Z.succ (Z.log2 z)) with (53 + sh) in Hhi by (unfold sh; lia).
  replace (Z.log2 z) with (52 + sh) in Hlo by (unfold sh; lia).
  rewrite Z.pow_add_r in Hlo, Hhi by lia.
  assert (0 < 2 ^ sh) as Hp by (apply Z.pow_pos_nonneg; lia).
  split; [done|]. split.
  - split.
    + apply Z.div_le_lower_bound; lia.
    + apply Z.div_lt_upper_bound; lia.
  - unfold round53. rewrite Z.abs_eq, Z.sgn_pos by lia.
    fold sh. rewrite bool_decide_eq_false_2 by lia.
    fold q r up. lia.
Qed.

Lemma round53_mono (x y : Z) : 0 ≤ x ≤ y → round53 x ≤ round53 y.
Proof.
  intros [Hx Hxy].
  destruct (decide (y < 2 ^ 53)) as [Hy|Hy].
  { rewrite !round53_small by lia. done. }
  destruct (decide (x < 2 ^ 53)) as [Hx'|Hx'].
  { rewrite (round53_small x) by lia. pose proof (round53_large y). lia. }
  destruct (round53_grid x) as (Hsx & Hqx & ->); [lia|].
  destruct (round53_grid y) as (Hsy & Hqy & ->); [lia|].
  assert (Z.log2 x ≤ Z.log2 y) as Hlog by (by apply Z.log2_le_mono).
  set (sx := Z.log2 x - 52) in *. set (sy := Z.log2 y - 52) in *.
  assert (sx ≤ sy) as Hs by (unfold sx, sy; lia).
  destruct (decide (sx = sy)) as [Heq|Hne].
  - rewrite <- Heq in *. clearbody sx. clear Hs Heq Hlog sy Hsy.
    assert (0 < 2 ^ sx) as Hp by (apply Z.pow_pos_nonneg; lia).
    assert (2 ^ sx = 2 * 2 ^ (sx - 1)) as Hhalf.
    { rewrite <- Z.pow_succ_r by lia. f_equal. lia. }
    pose proof (Z.div_mod x (2 ^ sx) ltac:(lia)) as Ex.
    pose proof (Z.div_mod y (2 ^ sx) ltac:(lia)) as Ey.
    pose proof (Z.mod_pos_bound x (2 ^ sx) Hp) as Brx.
    pose proof (Z.mod_pos_bound y (2 ^ sx) Hp) as Bry.
    assert (x `div` 2 ^ sx ≤ y `div` 2 ^ sx) as Hq by (by apply Z.div_le_mono).
    set (qx := x `div` 2 ^ sx) in *. set (qy := y `div` 2 ^ sx) in *.
    set (rx := x `mod` 2 ^ sx) in *. set (ry := y `mod` 2 ^ sx) in *.
    apply Z.mul_le_mono_nonneg_r; [lia|].
    destruct (decide (qx = qy)) as [Hqq|Hqq].
    + rewrite <- Hqq in *. assert (rx ≤ ry) by lia.
      destruct (bool_decide (2 ^ (sx - 1) < rx)) eqn:H1.
      { apply bool_decide_eq_true in H1.
        rewrite (bool_decide_eq_true_2 (2 ^ (sx - 1) < ry)) by lia.
        simpl. lia. }
      destruct (bool_decide (rx = 2 ^ (sx - 1))) eqn:H2; simpl.
      * apply bool_decide_eq_true in H2.
        destruct (Z.odd qx) eqn:Hodd; simpl; [|destruct (_ || _); lia].
        destruct (decide (ry = 2 ^ (sx - 1))) as [E|E].
        -- rewrite (bool_decide_eq_true_2 _ E), orb_true_r. lia.
        -- rewrite (bool_decide_eq_true_2 (2 ^ (sx - 1) < ry)) by lia.
           simpl. lia.
      * destruct (_ || _); lia.
    + transitivity (qx + 1); [destruct (_ || _); lia|].
      transitivity qy; [lia|]. destruct (_ || _); lia.
  - assert (2 ^ sx * 2 ≤ 2 ^ sy) as Hpow.
    { rewrite Z.mul_comm, <- Z.pow_succ_r by lia.
      apply Z.pow_le_mono_r; lia. }
    assert (0 < 2 ^ sx) as Hp by (apply Z.pow_pos_nonneg; lia).
    transitivity (2 ^ 53 * 2 ^ sx).
    { apply Z.mul_le_mono_nonneg_r; [lia|]. destruct (_ || _); lia. }
    transitivity (2 ^ 52 * 2 ^ sy).
    { change (2 ^ 53) with (2 ^ 52 * 2). nia. }
    apply Z.mul_le_mono_nonneg_r; [lia|]. destruct (_ || _); lia.
Qed.

Lemma random_draw_range (m : Z) :
  0 ≤ m < 2 ^ 53 → 0 ≤ random_draw m < 900000.
Proof.
  intros Hm. unfold random_draw.
  set (a := round53 (m * 900000)).
  assert (0 ≤ a ≤ 900000 * 2 ^ 53 - 2 ^ 20) as Ha.
  { split.
    - change 0 with (round53 0) at 1. apply round53_mono. lia.
    - change (900000 * 2 ^ 53 - 2 ^ 20)
        with (round53 ((2 ^ 53 - 1) * 900000)).
      apply round53_mono. lia. }
  set (b := round53 (a + 100000 * 2 ^ 53)).
  assert (100000 * 2 ^ 53 ≤ b ≤ 1000000 * 2 ^ 53 - 2 ^ 20) as Hb.
  { split.
    - change (100000 * 2 ^ 53) with (round53 (0 + 100000 * 2 ^ 53)) at 1.
      apply round53_mono. rewrite pow2_53. lia.
    - change (1000000 * 2 ^ 53 - 2 ^ 20)
        with (round53 (900000 * 2 ^ 53 - 2 ^ 20 + 100000 * 2 ^ 53)).
      apply round53_mono. rewrite pow2_53 in *. lia. }
  assert (100000 ≤ b `div` 2 ^ 53).
  { apply Z.div_le_lower_bound; lia. }
  assert (b `div` 2 ^ 53 < 1000000).
  { apply Z.div_lt_upper_bound; [done|]. rewrite pow2_53 in *.
    change (2 ^ 20) with 1048576 in Hb. lia. }
  lia.
Qed.

Lemma round64_integer (neg : bool) (p : Z) :
  0 ≤ p < 2 ^ 53 →
  Real_integer (round64 neg p 1) = Some (if neg then - p else p).
Proof.
  intros Hp. unfold round64. case_bool_decide as H0.
  { subst p. simpl. by destruct neg. }
  assert (0 < p) as Hpos by lia.
  pose proof (Z.log2_spec p Hpos) as [Hlo Hhi].
  assert (0 ≤ Z.log2 p) as HL0 by apply Z.log2_nonneg.
  assert (Z.log2 p < 53) as HL by (apply Z.log2_lt_pow2; lia).
  change (Z.log2 1) with 0. rewrite Z.sub_0_r.
  set (e0 := Z.log2 p - 52).
  assert (e0 ≤ 0) as He0 by (unfold e0; lia).
  assert (2 ^ 52 ≤ p * 2 ^ (- e0)) as Hscaled.
  { replace (2 ^ 52) with (2 ^ Z.log2 p * 2 ^ (- e0)).
    - apply Z.mul_le_mono_nonneg_r; [apply Z.pow_nonneg|]; lia.
    - rewrite <- Z.pow_add_r by lia. f_equal. unfold e0. lia. }
  assert (0 < 2 ^ (- e0)) as Hpow by (apply Z.pow_pos_nonneg; lia).
  rewrite (bool_decide_eq_false_2 (_ < 2 ^ 52)).
  2:{ case_bool_decide as He.
      - assert (e0 = 0) as -> by lia. rewrite Z.mul_1_l, Z.pow_0_r, Z.div_1_r.
        simpl in Hscaled. lia.
      - rewrite Z.div_1_r. lia. }
  rewrite Z.max_l by (unfold e0; lia).
  destruct (decide (e0 = 0)) as [Hz|Hnz].
  - rewrite Hz. simpl (bool_decide (0 ≤ 0)). cbn iota.
    rewrite Z.pow_0_r, Z.mul_1_l, Z.div_1_r, Z.mod_1_r. simpl.
    rewrite bool_decide_eq_false_2.
    + simpl. f_equal. lia.
    + assert (2 ^ 53 < 2 ^ 1024) by (apply Z.pow_lt_mono_r; lia). lia.
  - rewrite (bool_decide_eq_false_2 (0 ≤ e0)) by lia. cbn iota.
    rewrite Z.div_1_r, Z.mod_1_r. simpl.
    rewrite (bool_decide_eq_false_2 (0 ≤ e0)) by lia.
    destruct neg.
    + rewrite <- Z.mul_opp_l, Z.mod_mul, Z.div_mul by lia.
      by rewrite bool_decide_eq_true_2.
    + rewrite Z.mod_mul, Z.div_mul by lia.
      by rewrite bool_decide_eq_true_2.
Qed.

Lemma Literal_real_kg (z : Z) :
  Z.abs z < 2 ^ 53 →
  Real_integer
    (Literal_real (mkLiteral (bool_decide (z < 0)) (Z.abs z) 0 true))
  = Some z.
Proof.
  intros Hz. unfold Literal_real. simpl. rewrite Z.mul_1_r.
  rewrite round64_integer by lia. f_equal. case_bool_decide; lia.
Qed.

(** ** One-time passwords *)

Lemma pretty_N_go_length (k : nat) : ∀ (x : N) (s : string),
  (10 ^ N.of_nat k ≤ x < 10 ^ N.of_nat (S k))%N →
  String.length (pretty_N_go x s) = (S k + String.length s)%nat.
Proof.
  induction k as [|k IH]; intros x s Hx.
  - rewrite pretty_N_go_step by (simpl in Hx; lia).
    replace (x `div` 10)%N with 0%N.
    + by rewrite pretty_N_go_0.
    + symmetry. apply N.div_small. simpl in Hx. lia.
  - assert (10 ^ N.of_nat (S k) = 10 * 10 ^ N.of_nat k)%N as E1.
    { rewrite Nat2N.inj_succ. apply N.pow_succ_r'. }
    assert (10 ^ N.of_nat (S (S k)) = 10 * 10 ^ N.of_nat (S k))%N as E2.
    { rewrite (Nat2N.inj_succ (S k)). apply N.pow_succ_r'. }
    assert (0 < 10 ^ N.of_nat k)%N as Hpos.
    { apply N.neq_0_lt_0, N.pow_nonzero. lia. }
    rewrite pretty_N_go_step by lia.
    rewrite IH.
    + simpl. lia.
    + split.
      * apply N.div_le_lower_bound; lia.
      * apply N.Div0.div_lt_upper_bound; lia.
Qed.

Lemma generateOTP_length (u : Z) :
  0 ≤ u < 900000 → String.length (generateOTP u) = 6%nat.
Proof.
  intros Hu. unfold generateOTP, pretty, pretty_Z.
  destruct (100000 + u) as [|n|n] eqn:E; [lia| |lia].
  change (pretty n) with (pretty (N.pos n)).
  unfold pretty, pretty_N. case_decide; [done|].
  rewrite (pretty_N_go_length 5); [done|].
  change (10 ^ N.of_nat 5)%N with 100000%N.
  change (10 ^ N.of_nat 6)%N with 1000000%N. lia.
Qed.

(** X4: whatever [Math.random] draws, a binary64 number [m / 2^53] of
    [0, 1), the code that [generateOTP] makes of it, rounding the product
    and the sum as binary64 does, lies between 100000 and 999999 and has
    exactly six characters. *)
Theorem generateOTP_six_digits (m : Z) :
  0 ≤ m < 2 ^ 53 →
  0 ≤ random_draw m < 900000 ∧
  String.length (generateOTP (random_draw m)) = 6%nat.
Proof.
  intros Hm. apply random_draw_range in Hm. split; [done|].
  by apply generateOTP_length.
Qed.

Lemma generateOTP_six_digits_witness :
  0 ≤ random_draw 123456789 < 900000 ∧
  String.length (generateOTP (random_draw 123456789)) = 6%nat.
Proof. apply (generateOTP_six_digits 123456789). by rewrite pow2_53. Defined.

(** The sum rounds: for the draw 305243974744 / 2^52 the product is below
    61, its floor 60, and the code is 100061. *)
Example generateOTP_rounds_up :
  (2 * 305243974744 * 900000) `div` 2 ^ 53 = 60 ∧
  generateOTP (random_draw (2 * 305243974744)) = "100061".
Proof. by vm_compute. Qed.

(** ** Registration and login *)

Lemma users_by_phone_or_email_elem d phone email usr :
  usr ∈ users d →
  user_phone usr = phone ∨ (is_Some email ∧ user_email usr = email) →
  usr ∈ users_by_phone_or_email d phone email.
Proof. intros Hin Hm. by apply list_elem_of_filter. Qed.

Lemma existing_user_refused v t u b s usr :
  falsy (reg_name b) = false → falsy (reg_phone b) = false →
  falsy (reg_role b) = false →
  usr ∈ users (db s) →
  user_phone usr = str (reg_phone b)
  ∨ (is_Some (reg_email b) ∧ user_email usr = reg_email b) →
  register v t u b s
  = (error 400 "User already exists with this phone or email", s).
Proof.
  intros Hn Hp Hr Hin Hm.
  pose proof (users_by_phone_or_email_elem _ _ _ _ Hin Hm) as He.
  destruct v; simpl; unfold Pg.register, Sqlite.register;
    rewrite Hn, Hp, Hr; simpl;
    destruct (users_by_phone_or_email _ _ _) as [|x l] eqn:E;
    try (by apply not_elem_of_nil in He); done.
Qed.

(** X5: [register] refuses, on both servers, a payload whose phone, or
    whose email when it gives one, belongs to a stored user: 400 "User
    already exists with this phone or email", and no code is stored. *)
Theorem register_existing_user (v : Variant) (t u : Z) (b : RegisterBody)
    (s : Server) (usr : User) :
  falsy (reg_name b) = false → falsy (reg_phone b) = false →
  falsy (reg_role b) = false →
  usr ∈ users (db s) →
  user_phone usr = str (reg_phone b)
  ∨ (is_Some (reg_email b) ∧ user_email usr = reg_email b) →
  register v t u b s
  = (error 400 "User already exists with this phone or email", s).
Proof. apply existing_user_refused. Qed.

Lemma register_existing_user_witness :
  register index_sqlite_js 5000 1
    (mkRegisterBody (Some "Amit") (Some "amit@example.org")
       (Some "9876543212") (Some "farmer") None)
    market
  = (error 400 "User already exists with this phone or email", market).
Proof.
  apply (register_existing_user index_sqlite_js 5000 1 _ market amit);
    try done.
  - simpl. set_solver.
  - by left.
Defined.

Lemma pg_verified_user_otpStore p e s :
  otpStore (state_of (Pg.verified_user p e s)) = otpStore s.
Proof.
  unfold Pg.verified_user. destruct (userData e); simpl.
  - by destruct (Pg.insert_user _ _ _ _ _ _ _ _) as [[]|].
  - by destruct (users_by_phone _ _).
Qed.

Lemma sqlite_verified_user_otpStore p e s :
  otpStore (state_of (Sqlite.verified_user p e s)) = otpStore s.
Proof.
  unfold Sqlite.verified_user. destruct (userData e); simpl.
  - destruct (Sqlite.insert_user _ _ _ _ _ _ _ _); [|done].
    by destruct (head _).
  - by destruct (head _).
Qed.

Lemma verify_otp_other_phone v t b s p :
  body_phone b ≠ Some p →
  otpStore (verify_otp v t b s).2 !! p = otpStore s !! p.
Proof.
  intros Hne. destruct v; simpl; unfold Pg.verify_otp, Sqlite.verify_otp;
    verify_otp_cases t b s; try done.
  - pose proof (pg_verified_user_otpStore (str (body_phone b)) e s) as Ho.
    destruct (Pg.verified_user _ _ _); simpl in *; rewrite <-Ho; try done.
    apply lookup_delete_ne. congruence.
  - pose proof (sqlite_verified_user_otpStore (str (body_phone b)) e s) as Ho.
    destruct (Sqlite.verified_user _ _ _); simpl in *; rewrite <-Ho; try done.
    apply lookup_delete_ne. congruence.
Qed.

Lemma register_otpStore v t u b s :
  otpStore (register v t u b s).2 = otpStore s
  ∨ ∃ x e, reg_phone b = Some x
           ∧ otpStore (register v t u b s).2 = <[x := e]> (otpStore s).
Proof.
  destruct v; simpl; unfold Pg.register, Sqlite.register;
    (destruct (falsy (reg_name b) || falsy (reg_phone b) || falsy (reg_role b))
       eqn:Hf; [by left|]);
    apply orb_false_iff in Hf as [[_ (x & Hx & _ & Hs)%falsy_false]%orb_false_iff _];
    rewrite Hs; case_bool_decide; simpl; eauto.
Qed.

Lemma request_otp_otpStore v t u b s :
  otpStore (request_otp v t u b s).2 = otpStore s
  ∨ ∃ x e, body_phone b = Some x
           ∧ otpStore (request_otp v t u b s).2 = <[x := e]> (otpStore s).
Proof.
  destruct v; simpl; unfold Pg.request_otp, Sqlite.request_otp;
    (destruct (falsy (body_phone b)) eqn:Hf; [by left|]);
    apply falsy_false in Hf as (x & Hx & _ & Hs); rewrite Hs; simpl; eauto.
Qed.

(** X6: a request of the OTP routes writes under its own phone only: the
    pending code of any other phone is the same after [register],
    [request-otp] and [verify-otp], on both servers. *)
Theorem otp_routes_keep_other_phones (v : Variant) (t u : Z)
    (rb : RegisterBody) (ob : OtpBody) (s : Server) (p : string) :
  reg_phone rb ≠ Some p → body_phone ob ≠ Some p →
  otpStore (register v t u rb s).2 !! p = otpStore s !! p ∧
  otpStore (request_otp v t u ob s).2 !! p = otpStore s !! p ∧
  otpStore (verify_otp v t ob s).2 !! p = otpStore s !! p.
Proof.
  intros Hr Ho. split; [|split].
  - destruct (register_otpStore v t u rb s) as [->|(x & e & Hx & ->)]; [done|].
    apply lookup_insert_ne. congruence.
  - destruct (request_otp_otpStore v t u ob s) as [->|(x & e & Hx & ->)];
      [done|].
    apply lookup_insert_ne. congruence.
  - by apply verify_otp_other_phone.
Qed.

Lemma otp_routes_keep_other_phones_witness :
  otpStore (register index_js 5000 7 asha_long_phone (asha_pending index_js)).2
    !! "9000000001"
  = otpStore (asha_pending index_js) !! "9000000001" ∧
  otpStore (request_otp index_js 5000 7 (mkOtpBody (Some "9876543210") None)
              (asha_pending index_js)).2 !! "9000000001"
  = otpStore (asha_pending index_js) !! "9000000001" ∧
  otpStore (verify_otp index_js 5000 (mkOtpBody (Some "9876543210") None)
              (asha_pending index_js)).2 !! "9000000001"
  = otpStore (asha_pending index_js) !! "9000000001".
Proof.
  by apply (otp_routes_keep_other_phones index_js 5000 7 asha_long_phone
              (mkOtpBody (Some "9876543210") None) (asha_pending index_js)
              "9000000001").
Defined.

Lemma primary_key_by_id d u :
  primary_key (user_id <$> users d) (user_id u) = true →
  users_by_id (with_users d (users d ++ [u])) (user_id u) = [u].
Proof.
  intros Hpk%bool_decide_eq_true. unfold users_by_id. simpl.
  rewrite list.filter_app.
  rewrite (filter_none (λ u', user_id u' = user_id u) (users d)).
  - simpl. by rewrite filter_cons_True.
  - apply list.Forall_forall. intros u' Hu' Heq. apply Hpk.
    rewrite <-Heq. by apply list_elem_of_fmap_2.
Qed.

(** The user of a verified code is stored under the phone of the request. *)
Lemma pg_verified_user_stored p e s user s1 :
  Pg.verified_user p e s = Next user s1 →
  user ∈ users (db s1) ∧ user_phone user = p.
Proof.
  unfold Pg.verified_user. destruct (userData e) as [ud|]; simpl.
  - unfold Pg.insert_user. simpl.
    destruct (primary_key _ _ && _ && _ && _ && _ && _ && _ && _ && _);
      [|done].
    intros [= <- <-]. simpl. split; [|done].
    apply elem_of_app. right. by left.
  - destruct (users_by_phone (db s) p) as [|u l] eqn:E; [done|].
    intros [= <- <-].
    assert (u ∈ users_by_phone (db s) p) as Hu by (rewrite E; left).
    by apply list_elem_of_filter in Hu as [? ?].
Qed.

Lemma sqlite_verified_user_stored p e s user s1 :
  Sqlite.verified_user p e s = Next user s1 →
  user ∈ users (db s1) ∧ user_phone user = p.
Proof.
  unfold Sqlite.verified_user. destruct (userData e) as [ud|]; simpl.
  - unfold Sqlite.insert_user. simpl.
    destruct (primary_key _ _) eqn:Hpk; [|done]. simpl.
    destruct (check_role _ && _ && _); [|done].
    set (u := mkUser (uuid_supply s) _ _ _ _ _ _).
    change (uuid_supply s) with (user_id u) at 2.
    rewrite primary_key_by_id by done. simpl.
    intros [= <- <-]. simpl. split; [|done].
    apply elem_of_app. right. by left.
  - destruct (head (users_by_phone (db s) p)) as [u|] eqn:E; [|done].
    intros [= <- <-].
    apply head_Some_elem_of in E.
    by apply list_elem_of_filter in E as [? ?].
Qed.

(** X7: once [verify-otp] has answered 200 for a phone, by registration
    or by login, [register] refuses that phone on the same server: 400
    "User already exists with this phone or email". *)
Theorem register_after_verification (v : Variant) (t : Z) (b : OtpBody)
    (s : Server) (r : Response) (s' : Server) (p : string) :
  verify_otp v t b s = (r, s') → status r = 200 → body_phone b = Some p →
  ∀ t' u' b',
    reg_phone b' = Some p → falsy (reg_name b') = false →
    falsy (reg_role b') = false →
    register v t' u' b' s'
    = (error 400 "User already exists with this phone or email", s').
Proof.
  intros Hv H200 Hp t' u' b' Hp' Hn Hr.
  assert (∃ usr, usr ∈ users (db s') ∧ user_phone usr = p ∧ p ≠ "")
    as (usr & Hin & Hph & Hpne).
  { destruct v; simpl in Hv.
    - destruct (pg_verify_otp_200 _ _ _ _ _ Hv H200)
        as (p0&e&u&s1&Hp0&?&?&?&?&?&Hvu&Hs).
      rewrite Hp in Hp0. injection Hp0 as <-.
      apply pg_verified_user_stored in Hvu as [? ?].
      unfold session in Hs. injection Hs as _ ->. eauto.
    - destruct (sqlite_verify_otp_200 _ _ _ _ _ Hv H200)
        as (p0&e&u&s1&Hp0&?&?&?&?&?&Hvu&Hs).
      rewrite Hp in Hp0. injection Hp0 as <-.
      apply sqlite_verified_user_stored in Hvu as [? ?].
      unfold session in Hs. injection Hs as _ ->. eauto. }
  apply (existing_user_refused v t' u' b' s' usr); try done.
  - rewrite Hp'. by apply falsy_Some.
  - left. by rewrite Hp'.
Qed.

Lemma register_after_verification_witness :
  register index_js 5000 1 asha (asha_verified index_js)
  = (error 400 "User already exists with this phone or email",
     asha_verified index_js).
Proof.
  apply (register_after_verification index_js 2000 (asha_code "123456")
           (asha_pending index_js)
           (verify_otp index_js 2000 (asha_code "123456")
              (asha_pending index_js)).1
           (asha_verified index_js) "9000000001"); reflexivity.
Defined.

Lemma verify_otp_user_not_found v t p c exp s :
  p ≠ "" → c ≠ "" → otpStore s !! p = Some (mkOtp c None exp) → t ≤ exp →
  users_by_phone (db s) p = [] →
  verify_otp v t (mkOtpBody (Some p) (Some c)) s
  = (error 400 "User not found", s).
Proof.
  intros Hp Hc Hl Ht Hu.
  destruct v; simpl; unfold Pg.verify_otp, Sqlite.verify_otp; simpl;
    rewrite (bool_decide_eq_false_2 _ Hp), (bool_decide_eq_false_2 _ Hc);
    simpl; rewrite Hl; simpl;
    rewrite bool_decide_eq_false_2 by lia;
    rewrite bool_decide_eq_true_2 by done; simpl.
  - unfold Pg.verified_user. simpl. by rewrite Hu.
  - unfold Sqlite.verified_user. simpl. by rewrite Hu.
Qed.

(** X8: [request-otp] does not look the phone up: for a phone of no user
    it answers 200 and stores a code all the same; [verify-otp] with that
    code is then answered with 400 "User not found", and the code stays
    in the store. *)
Theorem login_unknown_phone (v : Variant) (t1 t2 u : Z) (b : OtpBody)
    (p : string) (s : Server) :
  body_phone b = Some p → p ≠ "" → users_by_phone (db s) p = [] →
  t2 ≤ t1 + 300000 →
  let s1 := (request_otp v t1 u b s).2 in
  (request_otp v t1 u b s).1 = json (JMessage "OTP sent successfully" p) ∧
  otpStore s1 !! p = Some (mkOtp (generateOTP u) None (t1 + 300000)) ∧
  verify_otp v t2 (mkOtpBody (Some p) (Some (generateOTP u))) s1
  = (error 400 "User not found", s1).
Proof.
  intros Hb Hp Hu Ht s1. subst s1.
  rewrite (request_otp_stores v t1 u b p s Hb Hp). simpl.
  split; [done|]. split; [apply lookup_insert_eq|].
  apply (verify_otp_user_not_found v t2 p _ (t1 + 300000)); try done.
  - apply generateOTP_nonempty.
  - apply lookup_insert_eq.
Qed.

Lemma login_unknown_phone_witness :
  let s1 := (request_otp index_sqlite_js 1000 5 (mkOtpBody (Some "555") None)
               market).2 in
  (request_otp index_sqlite_js 1000 5 (mkOtpBody (Some "555") None) market).1
  = json (JMessage "OTP sent successfully" "555") ∧
  otpStore s1 !! "555" = Some (mkOtp (generateOTP 5) None (1000 + 300000)) ∧
  verify_otp index_sqlite_js 2000 (mkOtpBody (Some "555") (Some (generateOTP 5)))
    s1
  = (error 400 "User not found", s1).
Proof.
  by apply (login_unknown_phone index_sqlite_js 1000 2000 5
              (mkOtpBody (Some "555") None) "555" market).
Defined.

(** X9: a login request for a phone with a pending registration replaces
    the pending payload: after [register] and then [request-otp] for the
    phone of no user, no code registers the user any more; every
    [verify-otp] for that phone is answered with 400 and changes
    nothing. *)
Theorem request_otp_drops_registration (v : Variant) (t1 t2 t3 u1 u2 : Z)
    (rb : RegisterBody) (ob : OtpBody) (p : string) (code : option string)
    (s : Server) :
  reg_phone rb = Some p → body_phone ob = Some p → p ≠ "" →
  users_by_phone (db s) p = [] →
  let s2 := (request_otp v t2 u2 ob (register v t1 u1 rb s).2).2 in
  ∃ msg, verify_otp v t3 (mkOtpBody (Some p) code) s2 = (error 400 msg, s2).
Proof.
  intros Hr Ho Hp Hu s2.
  assert (otpStore s2 !! p
          = Some (mkOtp (generateOTP u2) None (t2 + 300000))) as Hl.
  { subst s2. rewrite (request_otp_stores v t2 u2 ob p _ Ho Hp). simpl.
    apply lookup_insert_eq. }
  assert (db s2 = db s) as Hdb.
  { subst s2. rewrite (request_otp_stores v t2 u2 ob p _ Ho Hp). simpl.
    destruct v; simpl; unfold Pg.register, Sqlite.register;
      by repeat case_match. }
  destruct (decide (t3 ≤ t2 + 300000 ∧ code = Some (generateOTP u2)))
    as [[Ht ->]|Hn].
  - exists "User not found".
    apply (verify_otp_user_not_found v t3 p _ (t2 + 300000)); try done.
    + apply generateOTP_nonempty.
    + by rewrite Hdb.
  - apply no_valid_otp_400. intros p' e [= <-] He.
    rewrite Hl in He. injection He as <-. simpl.
    destruct (decide (t2 + 300000 < t3)); [by left|right].
    intros ->. apply Hn. split; [lia|done].
Qed.

Lemma request_otp_drops_registration_witness :
  let s2 :=
    (request_otp index_js 1500 7 (mkOtpBody (Some "9000000001") None)
       (register index_js 1000 23456 asha boot).2).2 in
  ∃ msg, verify_otp index_js 2000 (asha_code "100007") s2 = (error 400 msg, s2).
Proof.
  by apply (request_otp_drops_registration index_js 1000 1500 2000 23456 7
              asha (mkOtpBody (Some "9000000001") None) "9000000001"
              (Some "100007") boot).
Defined.

(** ** Every request adds rows at the end of one table, or none *)

Lemma register_db v t u b s : db (register v t u b s).2 = db s.
Proof.
  destruct v; simpl; unfold Pg.register, Sqlite.register; by repeat case_match.
Qed.

Lemma request_otp_db v t u b s : db (request_otp v t u b s).2 = db s.
Proof.
  destruct v; simpl; unfold Pg.request_otp, Sqlite.request_otp;
    by repeat case_match.
Qed.

Lemma pg_verified_user_delta p e s :
  Delta (db s) (db (state_of (Pg.verified_user p e s))).
Proof.
  unfold Pg.verified_user. destruct (userData e) as [ud|]; simpl.
  - unfold Pg.insert_user. simpl.
    destruct (primary_key _ _ && _ && _ && _ && _ && _ && _ && _ && _)
      eqn:Hc; simpl; [|constructor].
    repeat (apply andb_prop in Hc as [Hc ?]).
    by apply (delta_user _ (mkUser _ _ _ _ _ _ _)).
  - destruct (users_by_phone (db s) p); constructor.
Qed.

Lemma sqlite_verified_user_delta p e s :
  Delta (db s) (db (state_of (Sqlite.verified_user p e s))).
Proof.
  unfold Sqlite.verified_user. destruct (userData e) as [ud|]; simpl.
  - unfold Sqlite.insert_user. simpl.
    destruct (primary_key _ _ && _ && _ && _) eqn:Hc; simpl; [|constructor].
    repeat (apply andb_prop in Hc as [Hc ?]).
    destruct (head _); simpl; by apply (delta_user _ (mkUser _ _ _ _ _ _ _)).
  - destruct (head (users_by_phone (db s) p)); constructor.
Qed.

Lemma verify_otp_delta v t b s : Delta (db s) (db (verify_otp v t b s).2).
Proof.
  destruct v; simpl; unfold Pg.verify_otp, Sqlite.verify_otp;
    verify_otp_cases t b s; try constructor.
  - pose proof (pg_verified_user_delta (str (body_phone b)) e s) as H.
    by destruct (Pg.verified_user _ _ _).
  - pose proof (sqlite_verified_user_delta (str (body_phone b)) e s) as H.
    by destruct (Sqlite.verified_user _ _ _).
Qed.

Lemma pg_create_equipment_delta t user b s :
  Delta (db s) (db (Pg.create_equipment t user b s).2).
Proof.
  unfold Pg.create_equipment, mbind, Handler_bind, gen_uuid, query,
    Pg.insert_equipment. simpl.
  destruct (eb_name b), (eb_type b), (eb_baseRatePerDay b);
    try constructor.
  destruct (primary_key _ _ && _ && _ && _ && _ && _); simpl; constructor.
Qed.

Lemma sqlite_create_equipment_delta t user b s :
  Delta (db s) (db (Sqlite.create_equipment t user b s).2).
Proof.
  unfold Sqlite.create_equipment, mbind, Handler_bind, gen_uuid, query,
    Sqlite.insert_equipment. simpl.
  destruct (eb_name b), (eb_type b), (eb_baseRatePerDay b);
    try constructor.
  destruct (primary_key _ _); simpl; constructor.
Qed.

Lemma pg_create_produce_delta t user b s :
  Delta (db s) (db (CreateProduce.pg_create_produce t user b s).2).
Proof.
  unfold CreateProduce.pg_create_produce, mbind, Handler_bind, gen_uuid,
    query, CreateProduce.pg_insert_produce. simpl.
  destruct (pb_name b), (pb_category b), (pb_pricePerKg b),
    (CreateProduce.pg_stock (pb_stockKg b)); try constructor.
  destruct (primary_key _ _ && _ && _ && _ && _); simpl; constructor.
Qed.

Lemma sqlite_create_produce_delta t user b s :
  Delta (db s) (db (CreateProduce.sqlite_create_produce t user b s).2).
Proof.
  unfold CreateProduce.sqlite_create_produce, mbind, Handler_bind, gen_uuid,
    query, CreateProduce.sqlite_insert_produce. simpl.
  destruct (pb_name b), (pb_category b), (pb_pricePerKg b);
    try constructor.
  destruct (primary_key _ _); simpl; constructor.
Qed.

Lemma create_order_delta user b s :
  Delta (db s) (db (Pg.create_order user b s).2).
Proof.
  unfold Pg.create_order.
  destruct (Pg.order_transaction (userId user) b s)
    as [[oid total] s'|r s'|s'] eqn:Htx; simpl; try constructor.
  apply order_transaction_Next in Htx
    as (its & o & _ & _ & _ & _ & (rows & -> & _) & _).
  constructor.
Qed.

Lemma handle_delta v r s : Delta (db s) (db (handle v r s)).
Proof.
  destruct r as [t u b|t u b|t b|t h b|t h b|t h b]; simpl.
  - rewrite register_db. constructor.
  - rewrite request_otp_db. constructor.
  - apply verify_otp_delta.
  - destruct v; simpl; unfold Pg.post_equipment, Sqlite.post_equipment,
      authenticateToken, authorizeRole; repeat case_match;
      first [apply pg_create_equipment_delta
            |apply sqlite_create_equipment_delta
            |apply delta_none].
  - destruct v; unfold CreateProduce.pg_post_produce,
      CreateProduce.sqlite_post_produce, authenticateToken, authorizeRole;
      repeat case_match;
      first [apply pg_create_produce_delta
            |apply sqlite_create_produce_delta
            |apply delta_none].
  - destruct v; [|constructor].
    unfold Pg.post_orders, authenticateToken; repeat case_match;
      first [apply create_order_delta | apply delta_none].
Qed.

Lemma Delta_users_ok d d' : Delta d d' → users_ok d → users_ok d'.
Proof.
  intros [|u Hpk Hph Hem Hrole|e|p|o rows] Hok; try done.
  destruct Hok as (Hid & Hphone & Hemail & Hroles).
  apply bool_decide_eq_true in Hpk, Hph, Hrole.
  unfold users_ok. simpl. rewrite !fmap_app, omap_app. simpl.
  split; [|split; [|split]].
  - apply list.NoDup_app. split; [done|]. split; [|apply NoDup_singleton].
    intros x Hx ->%list_elem_of_singleton. done.
  - apply list.NoDup_app. split; [done|]. split; [|apply NoDup_singleton].
    intros x Hx ->%list_elem_of_singleton.
    apply list_elem_of_fmap in Hx as (u' & Heq & Hu').
    eapply list.Forall_forall in Hph; [|done]. done.
  - destruct (user_email u) as [em|] eqn:E; simpl; [|by rewrite app_nil_r].
    apply bool_decide_eq_true in Hem.
    apply list.NoDup_app. split; [done|]. split; [|apply NoDup_singleton].
    intros x Hx ->%list_elem_of_singleton.
    apply list_elem_of_omap in Hx as (u' & Hu' & Heq).
    eapply list.Forall_forall in Hem; [|done]. done.
  - apply Forall_app. split; [done|]. by apply Forall_singleton.
Qed.

Lemma Delta_grown d d' : Delta d d' → grown d d'.
Proof.
  intros [|u _ _ _ _|e|p|o rows]; repeat split; simpl;
    first [done | by apply prefix_app_r].
Qed.

Lemma grown_trans d1 d2 d3 : grown d1 d2 → grown d2 d3 → grown d1 d3.
Proof.
  intros (?&?&?&?&?&?) (?&?&?&?&?&?).
  repeat split; first [by etrans | congruence].
Qed.

(** X10: the users table stays consistent under every sequence of
    requests to either server: ids, phones and given emails stay unique
    and every role stays one of the six roles of the schema. *)
Theorem users_stay_consistent (v : Variant) (rs : list Request) (s : Server) :
  users_ok (db s) → users_ok (db (run v rs s)).
Proof.
  revert s. induction rs as [|r rs IH]; intros s Hok; [done|].
  simpl. apply IH. eapply Delta_users_ok; [apply handle_delta|done].
Qed.

Lemma users_stay_consistent_witness :
  users_ok
    (db (run index_js
           [Register 1000 23456 asha; VerifyOtp 2000 (asha_code "123456");
            Register 3000 5 asha; PostOrders 3000 (bearer amit_token) two_lines]
           market)).
Proof.
  apply users_stay_consistent.
  repeat split; simpl; apply (bool_decide_unpack _); by vm_compute.
Defined.

(** X11: no request to either server removes or alters a stored row: after
    every sequence of requests each table starts with the rows it had, in
    their order, and [products] is the same. *)
Theorem tables_only_grow (v : Variant) (rs : list Request) (s : Server) :
  grown (db s) (db (run v rs s)).
Proof.
  revert s. induction rs as [|r rs IH]; intros s.
  - by repeat split.
  - simpl. eapply grown_trans; [|apply IH].
    apply Delta_grown, handle_delta.
Qed.

(** ** Listings *)

Lemma elem_of_join_users_iff {A} (fk : A → option uuid) rows us (r : A * User) :
  r ∈ join_users fk rows us
  ↔ r.1 ∈ rows ∧ r.2 ∈ us ∧ fk r.1 = Some (user_id r.2).
Proof.
  split; [apply elem_of_join_users|].
  intros (Hr & Hu & Hfk). unfold join_users. apply list_elem_of_bind.
  exists r.1. split; [|done]. apply list_elem_of_fmap.
  exists r.2. split; [by destruct r|]. by apply list_elem_of_filter.
Qed.

Lemma elem_of_select_equipment v like d q (r : Equipment * User) :
  r ∈ select_equipment v like d q
  ↔ r.1 ∈ equipment d ∧ r.2 ∈ users d ∧
    equipment_owner_id r.1 = Some (user_id r.2) ∧
    equipment_selected like q r.1.
Proof.
  unfold equipment_selected.
  destruct v; simpl; unfold Pg.select_equipment, Sqlite.select_equipment;
    rewrite merge_sort_Permutation;
    destruct (falsy (eq_type q)), (falsy (eq_location q));
    rewrite ?list_elem_of_filter, elem_of_join_users_iff;
    intuition (try congruence).
Qed.

Lemma elem_of_select_produce v d q (r : Produce * User) :
  r ∈ select_produce v d q
  ↔ r.1 ∈ produce d ∧ r.2 ∈ users d ∧
    produce_farmer_id r.1 = Some (user_id r.2) ∧
    produce_selected v q r.1.
Proof.
  unfold produce_selected, stock_above_0.
  destruct v; simpl; unfold Pg.select_produce, Sqlite.select_produce;
    rewrite merge_sort_Permutation;
    destruct (falsy (pq_category q)), (pq_organic q);
    rewrite ?list_elem_of_filter, elem_of_join_users_iff;
    intuition (simplify_eq; eauto; try congruence).
Qed.

(** X12: the equipment listing selects exactly the available equipment
    rows that have a stored owner and pass the type and location filters
    of the query, each with its owner, on both servers; an empty filter
    is no filter. *)
Theorem select_equipment_exact (v : Variant) (like : string → string → bool)
    (d : Db) (q : EquipmentQuery) (r : Equipment * User) :
  r ∈ select_equipment v like d q
  ↔ r.1 ∈ equipment d ∧ r.2 ∈ users d ∧
    equipment_owner_id r.1 = Some (user_id r.2) ∧
    equipment_selected like q r.1.
Proof. apply elem_of_select_equipment. Qed.

(** X13: the produce listing selects exactly the produce rows that have a
    stored farmer, pass the category and organic filters, and whose
    [stock_kg] the store of the server finds above 0: an integer above 0
    on [index.js]; on [index-sqlite.js] a number above 0 or any text, which
    SQLite orders after every number.  A value of [organic] other than
    ['true'] selects the rows that are not organic. *)
Theorem select_produce_exact (v : Variant) (d : Db) (q : ProduceQuery)
    (r : Produce * User) :
  r ∈ select_produce v d q
  ↔ r.1 ∈ produce d ∧ r.2 ∈ users d ∧
    produce_farmer_id r.1 = Some (user_id r.2) ∧
    produce_selected v q r.1.
Proof. apply elem_of_select_produce. Qed.

(** A row of [index-sqlite.js] whose stock is a text is listed. *)
Example select_produce_text :
  let row := mkProduce 9 (Some 0%nat) "Okra" "vegetables" None 3000
               (Some (StockText "plenty")) None 5 in
  stock_above_0 index_sqlite_js row ∧ ¬ stock_above_0 index_js row.
Proof. split; [done|]. by intros (kg & [=] & _). Qed.

Lemma newer_trans {A} (created_at : A → Z) : Transitive (newer created_at).
Proof. unfold newer. intros a b c ??. lia. Qed.

Lemma newer_total {A} (created_at : A → Z) : Total (newer created_at).
Proof. unfold newer. intros a b. lia. Qed.

Lemma StronglySorted_segment {A} (R : relation A)
    (rows before page after : list A) :
  rows = before ++ page ++ after →
  StronglySorted R rows → StronglySorted R page.
Proof.
  intros -> H. apply StronglySorted_app_1_r in H.
  by apply StronglySorted_app_1_l in H.
Qed.

Lemma select_equipment_sorted v like d q :
  StronglySorted (newer equipment_created_at) (select_equipment v like d q).
Proof.
  destruct v; simpl; unfold Pg.select_equipment, Sqlite.select_equipment;
    apply (@StronglySorted_merge_sort _ _ _ (newer_trans _) (newer_total _)).
Qed.

Lemma select_produce_sorted v d q :
  StronglySorted (newer produce_created_at) (select_produce v d q).
Proof.
  destruct v; simpl; unfold Pg.select_produce, Sqlite.select_produce;
    apply (@StronglySorted_merge_sort _ _ _ (newer_trans _) (newer_total _)).
Qed.

(** X14: every page of the equipment listing and of the produce listing is
    ordered newest first ([ORDER BY created_at DESC]): a row is never
    older than a row listed after it, on both servers, for every query. *)
Theorem listings_newest_first (v : Variant) (like : string → string → bool)
    (s : Server) :
  (∀ q, StronglySorted (newer equipment_created_at)
          (listed_equipment (get_equipment v like q s))) ∧
  (∀ q, StronglySorted (newer produce_created_at)
          (listed_produce (get_produce v q s))).
Proof.
  split; intros q.
  - pose proof (select_equipment_sorted v like (db s) q) as Hs.
    destruct v; simpl in *; unfold Pg.get_equipment, Sqlite.get_equipment.
    + destruct (Pg.paged _ _ _) as [page|] eqn:E; simpl; [|constructor].
      apply pg_paged_segment in E as (before & after & E).
      by eapply StronglySorted_segment.
    + destruct (Sqlite.paged _ _ _) as [page|] eqn:E; simpl; [|constructor].
      apply sqlite_paged_segment in E as (before & after & E).
      by eapply StronglySorted_segment.
  - pose proof (select_produce_sorted v (db s) q) as Hs.
    destruct v; simpl in *; unfold Pg.get_produce, Sqlite.get_produce.
    + destruct (Pg.paged _ _ _) as [page|] eqn:E; simpl; [|constructor].
      apply pg_paged_segment in E as (before & after & E).
      by eapply StronglySorted_segment.
    + destruct (Sqlite.paged _ _ _) as [page|] eqn:E; simpl; [|constructor].
      apply sqlite_paged_segment in E as (before & after & E).
      by eapply StronglySorted_segment.
Qed.

Lemma pow2_63 : 2 ^ 63 = 9223372036854775808.
Proof. reflexivity. Qed.












(** Past 2^53 the pages no longer compose: page 10^21 with one row a page
    is sent by [index-sqlite.js] with the offset 1, which [parseInt] reads
    off ['1e+21'], and lists the second row. *)
Example listing_page_1e21 :
  equipment_name ∘ fst
    <$> equipment_page index_sqlite_js (λ _ _, true) None None 1 market
          (10 ^ 21 + 1)
  = equipment_name ∘ fst
    <$> equipment_page index_sqlite_js (λ _ _, true) None None 1 market 2.
Proof. by vm_compute. Qed.



(** At the limits -2^63 and 2^63 [index-sqlite.js] answers 500 too: the
    driver binds the number as a REAL, and SQLite does not take it for an
    integer. *)
Example listings_limit_min_int8 :
  status (get_equipment index_sqlite_js (λ _ _, true)
            (mkEquipmentQuery None (Some (- 2 ^ 63)) None None) market) = 500 ∧
  status (get_equipment index_sqlite_js (λ _ _, true)
            (mkEquipmentQuery None (Some (2 ^ 63)) None None) market) = 500 ∧
  status (get_produce index_sqlite_js
            (mkProduceQuery None (Some (2 ^ 63)) None None) market) = 500.
Proof. by vm_compute. Qed.

(** ** Creating equipment and produce *)

Lemma authorizeRole_next {A} roles user (fail : Response → A) next :
  role user ∈ roles → authorizeRole roles user fail next = next.
Proof. intros Hr. unfold authorizeRole. by rewrite bool_decide_eq_true_2. Qed.

Lemma head_filter_fresh {A} (key : A → uuid) (rows : list A) (row : A) :
  primary_key (key <$> rows) (key row) = true →
  head (filter (λ r, key r = key row) (rows ++ [row])) = Some row.
Proof.
  intros Hpk%bool_decide_eq_true.
  rewrite list.filter_app, filter_none.
  - simpl. rewrite filter_cons_True by done. done.
  - apply list.Forall_forall. intros r Hr Hk. apply Hpk. rewrite <- Hk.
    by apply list_elem_of_fmap_2.
Qed.

Lemma create_equipment_ok v t user b s u name type rate :
  u ∈ users (db s) → user_id u = userId user →
  supply_fresh s →
  eb_name b = Some name → eb_type b = Some type →
  eb_baseRatePerDay b = Some rate →
  fits_equipment v name type rate (eb_location b) →
  ∃ e s',
    match v with
    | index_js => Pg.create_equipment t user b s
    | index_sqlite_js => Sqlite.create_equipment t user b s
    end = (mkResponse 201 (JEquipment (Some e)), s') ∧
    equipment (db s') = equipment (db s) ++ [e] ∧
    users (db s') = users (db s) ∧
    equipment_owner_id e = Some (user_id u) ∧
    equipment_name e = name ∧ equipment_type e = type ∧
    equipment_base_rate_per_day e = rate ∧
    equipment_location e = eb_location b ∧
    available e.
Proof.
  intros Hu Hid (_ & Hfe & _) Hn Hty Hr Hfit.
  pose proof (fresh_primary_key equipment_id (equipment (db s)) _ Hfe) as Hpk.
  destruct v; simpl in *.
  - destruct Hfit as (H1 & H2 & H3 & H4).
    unfold Pg.create_equipment, mbind, Handler_bind, gen_uuid, query,
      Pg.insert_equipment. simpl. rewrite Hn, Hty, Hr, Hpk, H1, H2, H3, H4.
    unfold references. rewrite bool_decide_eq_true_2.
    + simpl. eexists _, _. split; [done|]. simpl. by rewrite Hid.
    + rewrite <- Hid. by apply list_elem_of_fmap_2.
  - unfold Sqlite.create_equipment, mbind, Handler_bind, gen_uuid, query,
      Sqlite.insert_equipment. simpl. rewrite Hn, Hty, Hr, Hpk. simpl.
    unfold Sqlite.equipment_by_id. simpl.
    set (e := mkEquipment _ _ _ _ _ _ _ _ _ _ _).
    pose proof (head_filter_fresh equipment_id _ e Hpk) as Hh.
    subst e. simpl in Hh. rewrite Hh.
    eexists _, _. split; [done|]. simpl. by rewrite Hid.
Qed.

(** X18: on both servers, [POST /api/v1/equipment] by a stored user with
    an ['equipment_provider'] token, with a name, a type and a daily rate
    that the columns can hold, answers 201 with the new row; the row is
    added to the table with the caller as owner and status ['available'],
    so that the listing without filters, and the listing by its type,
    show it from then on, with its owner. *)
Theorem post_equipment_listed (v : Variant) (like : string → string → bool)
    (t : Z) (h : Headers) (b : EquipmentBody) (s : Server)
    (user : JwtPayload) (u : User) (name type : string) (rate : Z) :
  authenticated t s h user → role user = "equipment_provider" →
  u ∈ users (db s) → user_id u = userId user →
  supply_fresh s →
  eb_name b = Some name → eb_type b = Some type →
  eb_baseRatePerDay b = Some rate →
  fits_equipment v name type rate (eb_location b) →
  ∃ e s',
    post_equipment v t h b s = (mkResponse 201 (JEquipment (Some e)), s') ∧
    equipment (db s') = equipment (db s) ++ [e] ∧
    equipment_owner_id e = Some (userId user) ∧
    equipment_name e = name ∧ equipment_type e = type ∧
    equipment_base_rate_per_day e = rate ∧
    (e, u) ∈ select_equipment v like (db s') all_equipment ∧
    (e, u) ∈ select_equipment v like (db s')
               (mkEquipmentQuery None None (Some type) None).
Proof.
  intros Ha Hrole Hu Hid Hf Hn Hty Hr Hfit.
  destruct (create_equipment_ok v t user b s u name type rate)
    as (e & s' & Hc & Heq & Hus & Ho & Hen & Het & Her & _ & Hav); try done.
  exists e, s'. split; [|split; [done|]].
  { destruct v; simpl; unfold Pg.post_equipment, Sqlite.post_equipment;
      rewrite (authenticateToken_next _ _ _ _ _ _ Ha);
      rewrite authorizeRole_next; try done; rewrite Hrole; by left. }
  assert (e ∈ equipment (db s')) as He.
  { rewrite Heq. apply elem_of_app. right. by left. }
  rewrite <- Hid, <- Hus in *.
  repeat split; try done; apply elem_of_select_equipment;
    unfold equipment_selected; simpl; repeat split; done.
Qed.

Lemma post_equipment_listed_witness :
  ∃ e s',
    post_equipment index_js 3000 (bearer priya_token) tractor market
    = (mkResponse 201 (JEquipment (Some e)), s') ∧
    equipment (db s') = equipment (db market) ++ [e] ∧
    equipment_owner_id e = Some 1%nat ∧
    equipment_name e = "John Deere 5310 Tractor" ∧
    equipment_type e = "tractor" ∧
    equipment_base_rate_per_day e = 150000 ∧
    (e, priya) ∈ select_equipment index_js (λ _ _, true) (db s') all_equipment ∧
    (e, priya) ∈ select_equipment index_js (λ _ _, true) (db s')
                   (mkEquipmentQuery None None (Some "tractor") None).
Proof.
  apply (post_equipment_listed index_js (λ _ _, true) 3000
           (bearer priya_token) tractor market priya_payload priya
           "John Deere 5310 Tractor" "tractor" 150000); try done.
  - exists [Opaque "Bearer"; priya_token], priya_token. by vm_compute.
  - simpl. right. by left.
  - repeat split; simpl; repeat constructor.
Defined.

(** X19: a body that leaves out a [NOT NULL] column is answered with 500
    and no row is stored, on both servers: the name, the type or the daily
    rate of [POST /api/v1/equipment], and the name, the category or the
    price of [POST /api/v1/produce]; the handlers check no field
    themselves. *)
Theorem post_incomplete_body (v : Variant) (t : Z) (h : Headers)
    (s : Server) (user : JwtPayload) :
  authenticated t s h user →
  (role user = "equipment_provider" →
   ∀ b, equipment_incomplete b →
     (post_equipment v t h b s).1 = error 500 "Internal server error" ∧
     db (post_equipment v t h b s).2 = db s) ∧
  (role user = "farmer" →
   ∀ b, produce_incomplete b →
     plain (post_produce v t h b s).1
     = Some (error 500 "Internal server error") ∧
     db (post_produce v t h b s).2 = db s).
Proof.
  intros Ha. split; intros Hrole b Hb.
  - destruct v; simpl;
      unfold Pg.post_equipment, Sqlite.post_equipment;
      rewrite (authenticateToken_next _ _ _ _ _ _ Ha);
      (rewrite authorizeRole_next; [|rewrite Hrole; by left]);
      unfold Pg.create_equipment, Sqlite.create_equipment, mbind,
        Handler_bind, gen_uuid, query, Pg.insert_equipment,
        Sqlite.insert_equipment; simpl;
      destruct Hb as [-> | [-> | ->]]; simpl;
      by destruct (eb_name b), (eb_type b).
  - destruct v; simpl;
      unfold CreateProduce.pg_post_produce, CreateProduce.sqlite_post_produce;
      rewrite (authenticateToken_next _ _ _ _ _ _ Ha);
      (rewrite authorizeRole_next; [|rewrite Hrole; by left]);
      unfold CreateProduce.pg_create_produce,
        CreateProduce.sqlite_create_produce, mbind, Handler_bind, gen_uuid,
        query, CreateProduce.pg_insert_produce,
        CreateProduce.sqlite_insert_produce; simpl;
      destruct Hb as [-> | [-> | ->]]; simpl;
      by destruct (pb_name b), (pb_category b).
Qed.

Lemma post_incomplete_body_witness :
  (post_equipment index_sqlite_js 3000 (bearer priya_token)
     (mkEquipmentBody (Some "Plough") (Some "plough") None None None None None)
     market).1
  = error 500 "Internal server error" ∧
  db (post_equipment index_sqlite_js 3000 (bearer priya_token)
        (mkEquipmentBody (Some "Plough") (Some "plough") None None None None
           None)
        market).2
  = db market.
Proof.
  assert (authenticated 3000 market (bearer priya_token) priya_payload) as H.
  { exists [Opaque "Bearer"; priya_token], priya_token. by vm_compute. }
  destruct (post_incomplete_body index_sqlite_js 3000 _ market _ H)
    as [He _].
  apply (He eq_refl). right. by right.
Defined.

Lemma pg_stock_kg (z : Z) :
  integer z = true →
  CreateProduce.pg_stock (Some (kg z)) = Some (Some (StockInt z)).
Proof.
  intros Hz. pose proof Hz as Hb%bool_decide_eq_true.
  assert (Z.abs z < 2 ^ 53) as Hs.
  { rewrite pow2_53. change (2 ^ 31) with 2147483648 in Hb. lia. }
  unfold CreateProduce.pg_stock, kg.
  by rewrite Literal_real_kg, Number_toString_small, Hz.
Qed.

Lemma sqlite_stock_kg (z : Z) :
  integer z = true →
  CreateProduce.sqlite_stock (Some (kg z)) = Some (StockInt z).
Proof.
  intros Hb%bool_decide_eq_true.
  change (2 ^ 31) with 2147483648 in Hb.
  unfold CreateProduce.sqlite_stock, kg, integer_affinity.
  rewrite Literal_real_kg by (rewrite pow2_53; lia).
  rewrite bool_decide_eq_true_2; [done|]. rewrite pow2_63. lia.
Qed.

Lemma post_produce_ok v t h user b s u name category price :
  authenticated t s h user → role user = "farmer" →
  u ∈ users (db s) → user_id u = userId user →
  produce_fresh s →
  pb_name b = Some name → pb_category b = Some category →
  pb_pricePerKg b = Some price →
  fits_produce v name category price (pb_stockKg b) →
  ∃ p,
    post_produce v t h b s
    = (Payload 201 (Some p),
       set_db (draw_uuid s).2 (with_produce (db s) (produce (db s) ++ [p]))) ∧
    primary_key (produce_id <$> produce (db s)) (produce_id p) = true ∧
    produce_id p = uuid_supply s ∧
    produce_farmer_id p = Some (user_id u) ∧
    produce_name p = name ∧ produce_category p = category ∧
    produce_price_per_kg p = price ∧
    stores_stock v (pb_stockKg b) (produce_stock_kg p).
Proof.
  intros Ha Hrole Hu Hid Hfp Hn Hc Hp Hfit.
  pose proof (fresh_primary_key produce_id (produce (db s)) _ Hfp) as Hpk.
  destruct v; simpl in *.
  - destruct Hfit as (H1 & H2 & H3 & [stock H4]).
    unfold CreateProduce.pg_post_produce.
    rewrite (authenticateToken_next _ _ _ _ _ _ Ha).
    rewrite authorizeRole_next by (rewrite Hrole; by left).
    unfold CreateProduce.pg_create_produce, mbind, Handler_bind, gen_uuid,
      query, CreateProduce.pg_insert_produce. simpl.
    rewrite Hn, Hc, Hp, H4, Hpk, H1, H2, H3.
    unfold references. rewrite bool_decide_eq_true_2.
    + simpl. eexists. split; [done|]. simpl. by rewrite Hid.
    + rewrite <- Hid. by apply list_elem_of_fmap_2.
  - unfold CreateProduce.sqlite_post_produce.
    rewrite (authenticateToken_next _ _ _ _ _ _ Ha).
    rewrite authorizeRole_next by (rewrite Hrole; by left).
    unfold CreateProduce.sqlite_create_produce, mbind, Handler_bind,
      gen_uuid, query, CreateProduce.sqlite_insert_produce. simpl.
    rewrite Hn, Hc, Hp, Hpk. simpl.
    unfold CreateProduce.produce_by_id. simpl.
    set (p := mkProduce _ _ _ _ _ _ _ _ _).
    pose proof (head_filter_fresh produce_id _ p Hpk) as Hh.
    subst p. simpl in Hh. rewrite Hh.
    eexists. split; [done|]. simpl. by rewrite Hid.
Qed.

(** X20: on both servers, [POST /api/v1/produce] by a stored user with a
    ['farmer'] token, with a name, a category and a price that the columns
    can hold and, on [index.js], a [stockKg] that is absent or the text of
    an INTEGER, answers 201 with the new row and adds it to the table with
    the caller as farmer and with the stock that the store makes of
    [stockKg].  The listing shows the row from then on exactly when the
    store finds that stock above 0: never when [stockKg] is absent; for an
    integer of 32 bits, when it is above 0; and on [index-sqlite.js], which
    binds [stockKg] as it comes, always when it is a string that is no
    number, the empty string among them. *)
Theorem post_produce_listed (v : Variant) (t : Z) (h : Headers)
    (b : ProduceBody) (s : Server) (user : JwtPayload) (u : User)
    (name category : string) (price : Z) :
  authenticated t s h user → role user = "farmer" →
  u ∈ users (db s) → user_id u = userId user →
  produce_fresh s →
  pb_name b = Some name → pb_category b = Some category →
  pb_pricePerKg b = Some price →
  fits_produce v name category price (pb_stockKg b) →
  ∃ p s',
    post_produce v t h b s = (Payload 201 (Some p), s') ∧
    produce (db s') = produce (db s) ++ [p] ∧
    produce_farmer_id p = Some (userId user) ∧
    produce_name p = name ∧ produce_category p = category ∧
    produce_price_per_kg p = price ∧
    stores_stock v (pb_stockKg b) (produce_stock_kg p) ∧
    ((p, u) ∈ select_produce v (db s') all_produce ↔ stock_above_0 v p) ∧
    (pb_stockKg b = None → (p, u) ∉ select_produce v (db s') all_produce) ∧
    (∀ z, pb_stockKg b = Some (kg z) → integer z = true →
       (p, u) ∈ select_produce v (db s') all_produce ↔ 0 < z) ∧
    (∀ text, v = index_sqlite_js → pb_stockKg b = Some (KgString text) →
       parse_literal text = None →
       (p, u) ∈ select_produce v (db s') all_produce).
Proof.
  intros Ha Hrole Hu Hid Hfp Hn Hc Hp Hfit.
  destruct (post_produce_ok v t h user b s u name category price)
    as (p & Hpost & _ & _ & Hf & Hpn & Hpc & Hpp & Hst); try done.
  eexists p, _. split; [exact Hpost|]. simpl.
  assert ((p, u) ∈ select_produce v
            (with_produce (db s) (produce (db s) ++ [p])) all_produce
          ↔ stock_above_0 v p) as Hlisted.
  { rewrite elem_of_select_produce. unfold produce_selected. simpl.
    split; [by intros (_ & _ & _ & ? & _)|]. intros Hin.
    repeat split; try done. apply elem_of_app. right. by left. }
  rewrite <- Hid. repeat split; try done; try apply Hlisted.
  - intros Hnone. rewrite Hlisted. rewrite Hnone in Hst.
    destruct v; unfold stores_stock, stock_above_0 in *.
    + injection Hst as Hst. unfold in_stock. rewrite <- Hst.
      by intros (? & [=] & _).
    + by rewrite Hst.
  - rewrite Hlisted. rewrite H in Hst.
    destruct v; unfold stores_stock, stock_above_0 in *.
    + rewrite pg_stock_kg in Hst by done. injection Hst as Hst.
      unfold in_stock. rewrite <- Hst. by intros (? & [= <-] & ?).
    + rewrite sqlite_stock_kg in Hst by done. rewrite Hst. simpl.
      by intros ?%bool_decide_eq_true.
  - intros Hz. apply Hlisted. rewrite H in Hst.
    destruct v; unfold stores_stock, stock_above_0 in *.
    + rewrite pg_stock_kg in Hst by done. injection Hst as Hst.
      unfold in_stock. rewrite <- Hst. eauto.
    + rewrite sqlite_stock_kg in Hst by done. rewrite Hst. simpl.
      by apply bool_decide_eq_true.
  - intros text -> Htext Hparse. apply Hlisted.
    unfold stores_stock, stock_above_0 in *.
    rewrite Htext in Hst. unfold CreateProduce.sqlite_stock in Hst.
    rewrite Hparse in Hst. by rewrite Hst.
Qed.

Lemma post_produce_listed_witness :
  ∃ p s',
    post_produce index_sqlite_js 3000 (bearer rajesh_token) okra market
    = (Payload 201 (Some p), s') ∧
    produce (db s') = produce (db market) ++ [p] ∧
    produce_farmer_id p = Some 0%nat ∧
    produce_name p = "Okra" ∧ produce_category p = "vegetables" ∧
    produce_price_per_kg p = 3000 ∧
    stores_stock index_sqlite_js (pb_stockKg okra) (produce_stock_kg p) ∧
    ((p, rajesh) ∈ select_produce index_sqlite_js (db s') all_produce
     ↔ stock_above_0 index_sqlite_js p) ∧
    (pb_stockKg okra = None →
     (p, rajesh) ∉ select_produce index_sqlite_js (db s') all_produce) ∧
    (∀ z, pb_stockKg okra = Some (kg z) → integer z = true →
       (p, rajesh) ∈ select_produce index_sqlite_js (db s') all_produce
       ↔ 0 < z) ∧
    (∀ text, index_sqlite_js = index_sqlite_js →
       pb_stockKg okra = Some (KgString text) →
       parse_literal text = None →
       (p, rajesh) ∈ select_produce index_sqlite_js (db s') all_produce).
Proof.
  apply (post_produce_listed index_sqlite_js 3000 (bearer rajesh_token) okra
           market rajesh_payload rajesh "Okra" "vegetables" 3000); try done.
  - exists [Opaque "Bearer"; rajesh_token], rajesh_token. by vm_compute.
  - simpl. by left.
  - unfold produce_fresh. simpl. repeat constructor.
Defined.

(** Produce posted to [index-sqlite.js] with the empty string for its
    stock is stored with that text and listed, first as the newest;
    [index.js] answers the same body with 500. *)
Example post_produce_empty_stock :
  let b := mkProduceBody (Some "Okra") (Some "vegetables") None (Some 3000)
             (Some (KgString "")) None None None None in
  (∃ p s',
     post_produce index_sqlite_js 3000 (bearer rajesh_token) b market
     = (Payload 201 (Some p), s') ∧
     produce_stock_kg p = Some (StockText "") ∧
     head (listed_produce (get_produce index_sqlite_js all_produce s'))
     = Some (p, rajesh)) ∧
  reply_status (post_produce index_js 3000 (bearer rajesh_token) b market).1
  = 500.
Proof.
  split; [|by vm_compute]. eexists _, _. split; [by vm_compute|].
  split; [done|]. by vm_compute.
Qed.

(** ** Orders *)

Lemma post_orders_201 t h b s user its :
  authenticated t s h user → items b = Some its → its ≠ [] →
  supply_fresh s →
  userId user ∈ user_id <$> users (db s) →
  references (user_id <$> users (db s)) (head its ≫= li_sellerId) = true →
  Forall (λ it, is_Some (catalog_price (db s) it) ∧ storable (db s) it) its →
  decimal_10_2 (order_total (db s) its) = true →
  ∃ o s',
    Pg.post_orders t h b s
    = (mkResponse 201 (JOrder (order_id o) (order_total (db s) its)), s') ∧
    order_persisted s s' (userId user) its o.
Proof.
  intros Ha Hits Hne Hfresh Hbuyer Hseller Hall Htotal.
  unfold Pg.post_orders.
  rewrite (authenticateToken_next _ _ _ _ _ _ Ha). unfold Pg.create_order.
  destruct (order_transaction_ok (userId user) b s its)
    as (oid & total & s' & Htx); try done.
  rewrite Htx.
  apply order_transaction_Next in Htx
    as (its' & o & Hits' & _ & <- & -> & Hp & _).
  rewrite Hits in Hits'. injection Hits' as <-. by exists o, s'.
Qed.

(** X21: on [index.js], produce that a farmer has posted can be ordered
    at once, at the posted price, whatever its stock: an order of a stored
    buyer for any quantity of it that the columns can hold is answered
    with 201 and persisted with the buyer and the total price times
    quantity, also when the stock is missing, 0 or less than the quantity,
    and the order leaves the produce table, hence the stock, as it was. *)
Theorem posted_produce_orderable (t1 t2 : Z) (h1 h2 : Headers)
    (b : ProduceBody) (s : Server) (farmer buyer : JwtPayload) (u : User)
    (name category : string) (price quantity : Z) (seller : option uuid)
    (address : option string) :
  authenticated t1 s h1 farmer → role farmer = "farmer" →
  u ∈ users (db s) → user_id u = userId farmer →
  produce_fresh s → supply_fresh s →
  pb_name b = Some name → pb_category b = Some category →
  pb_pricePerKg b = Some price →
  fits_produce index_js name category price (pb_stockKg b) →
  authenticated t2 s h2 buyer →
  userId buyer ∈ user_id <$> users (db s) →
  references (user_id <$> users (db s)) seller = true →
  integer quantity = true → decimal_10_2 (price * quantity) = true →
  ∃ p s1 o,
    post_produce index_js t1 h1 b s = (Payload 201 (Some p), s1) ∧
    let order :=
      Pg.post_orders t2 h2
        (mkOrderBody (Some [mkItem "produce" (produce_id p) quantity seller])
           address) s1 in
    status order.1 = 201 ∧
    orders (db order.2) = orders (db s1) ++ [o] ∧
    order_buyer_id o = Some (userId buyer) ∧
    order_total_amount o = price * quantity ∧
    produce (db order.2) = produce (db s1).
Proof.
  intros Ha Hrole Hu Hid Hfp Hf Hn Hc Hp Hfit Hb Hin Hseller Hq Htot.
  destruct (post_produce_ok index_js t1 h1 farmer b s u name category price)
    as (p & Hpost & Hpk & Hpid & _ & _ & _ & Hprice & _); try done.
  set (s1 := set_db (draw_uuid s).2
               (with_produce (db s) (produce (db s) ++ [p]))) in *.
  set (item := mkItem "produce" (produce_id p) quantity seller).
  assert (catalog_price (db s1) item = Some price) as Hcat.
  { unfold catalog_price, Pg.produce_by_id. simpl.
    by rewrite (head_filter_fresh produce_id _ p Hpk), <- Hprice. }
  assert (order_total (db s1) [item] = price * quantity) as Hsum.
  { unfold order_total, line_total. cbn [foldr]. rewrite Hcat.
    cbn [default li_quantity item]. unfold id. lia. }
  destruct (post_orders_201 t2 h2
              (mkOrderBody (Some [item]) address) s1 buyer [item])
    as (o & s2 & Ho & rows & Hdb & Hbuyer & Hamount & _); try done.
  - destruct Hf as (H1 & H2 & H3 & H4). repeat split; simpl;
      apply (Forall_lt_mono _ (uuid_supply s)); done || lia.
  - constructor; [|constructor]. split; [by rewrite Hcat|].
    destruct Hfit as (_ & _ & Hdec & _).
    unfold storable, line_total. by rewrite Hcat.
  - by rewrite Hsum.
  - exists p, s1, o. split; [done|]. cbv zeta. fold item. rewrite Ho. simpl.
    rewrite Hdb, Hamount, Hsum. done.
Qed.

Lemma posted_produce_orderable_witness :
  ∃ p s1 o,
    post_produce index_js 3000 (bearer rajesh_token) okra market
    = (Payload 201 (Some p), s1) ∧
    let order :=
      Pg.post_orders 4000 (bearer amit_token)
        (mkOrderBody (Some [mkItem "produce" (produce_id p) 50 (Some 0%nat)])
           None) s1 in
    status order.1 = 201 ∧
    orders (db order.2) = orders (db s1) ++ [o] ∧
    order_buyer_id o = Some 2%nat ∧
    order_total_amount o = 3000 * 50 ∧
    produce (db order.2) = produce (db s1).
Proof.
  apply (posted_produce_orderable 3000 4000 (bearer rajesh_token)
           (bearer amit_token) okra market rajesh_payload amit_payload rajesh
           "Okra" "vegetables" 3000 50 (Some 0%nat) None); try done.
  - exists [Opaque "Bearer"; rajesh_token], rajesh_token. by vm_compute.
  - simpl. by left.
  - unfold produce_fresh. simpl. repeat constructor.
  - repeat split; simpl; repeat constructor.
  - exists [Opaque "Bearer"; amit_token], amit_token. by vm_compute.
  - simpl. right. right. by left.
Defined.

(** ** The dashboard *)

Lemma post_equipment_201 v t h b s r s' user :
  post_equipment v t h b s = (r, s') → status r = 201 →
  authenticated t s h user →
  ∃ e, db s' = with_equipment (db s) (equipment (db s) ++ [e]) ∧
       equipment_owner_id e = Some (userId user) ∧
       JWT_SECRET s' = JWT_SECRET s.
Proof.
  intros Hpost Hst Ha. revert Hpost.
  destruct v; simpl; unfold Pg.post_equipment, Sqlite.post_equipment;
    rewrite (authenticateToken_next _ _ _ _ _ _ Ha); unfold authorizeRole;
    (destruct (negb _); [by intros [= <- <-]|]);
    unfold Pg.create_equipment, Sqlite.create_equipment, mbind,
      Handler_bind, gen_uuid, query, Pg.insert_equipment,
      Sqlite.insert_equipment; simpl;
    destruct (eb_name b), (eb_type b), (eb_baseRatePerDay b);
    try (by intros [= <- <-]).
  - destruct (primary_key _ _ && _ && _ && _ && _ && _); simpl;
      intros [= <- <-]; [by eexists|done].
  - destruct (primary_key _ _); simpl; intros [= <- <-]; [by eexists|done].
Qed.

Lemma post_produce_201 v t h b s r s' user :
  post_produce v t h b s = (r, s') → reply_status r = 201 →
  authenticated t s h user →
  ∃ p, db s' = with_produce (db s) (produce (db s) ++ [p]) ∧
       produce_farmer_id p = Some (userId user) ∧
       JWT_SECRET s' = JWT_SECRET s.
Proof.
  intros Hpost Hst Ha. revert Hpost.
  destruct v; simpl;
    unfold CreateProduce.pg_post_produce, CreateProduce.sqlite_post_produce;
    rewrite (authenticateToken_next _ _ _ _ _ _ Ha); unfold authorizeRole;
    (destruct (negb _); [by intros [= <- <-]|]);
    unfold CreateProduce.pg_create_produce,
      CreateProduce.sqlite_create_produce, mbind, Handler_bind, gen_uuid,
      query, CreateProduce.pg_insert_produce,
      CreateProduce.sqlite_insert_produce; simpl;
    destruct (pb_name b), (pb_category b), (pb_pricePerKg b);
    try (by intros [= <- <-]).
  - destruct (CreateProduce.pg_stock _); [|by intros [= <- <-]].
    destruct (primary_key _ _ && _ && _ && _ && _); simpl;
      intros [= <- <-]; [by eexists|done].
  - destruct (primary_key _ _); simpl; intros [= <- <-]; [by eexists|done].
Qed.

Lemma post_orders_201_inv t h b s r s' user :
  Pg.post_orders t h b s = (r, s') → status r = 201 →
  authenticated t s h user →
  ∃ o rows,
    db s' = with_order_items (with_orders (db s) (orders (db s) ++ [o]))
              (order_items (db s) ++ rows) ∧
    order_buyer_id o = Some (userId user) ∧
    JWT_SECRET s' = JWT_SECRET s.
Proof.
  intros Hpost Hst Ha. revert Hpost. unfold Pg.post_orders.
  rewrite (authenticateToken_next _ _ _ _ _ _ Ha). unfold Pg.create_order.
  destruct (Pg.order_transaction (userId user) b s)
    as [[oid total] s1|r1 s1|s1] eqn:Htx; intros [= <- <-]; try done.
  apply order_transaction_Next in Htx
    as (its & o & _ & _ & _ & _ & (rows & Hdb & Hb & _) & _ & Hk).
  by exists o, rows.
Qed.

Lemma authenticated_secret t s s' h user :
  JWT_SECRET s' = JWT_SECRET s →
  authenticated t s h user → authenticated t s' h user.
Proof. unfold authenticated. by intros ->. Qed.

Lemma length_filter_snoc {A} (P : A → Prop) `{∀ x, Decision (P x)}
    (l : list A) (x : A) :
  length (filter P (l ++ [x]))
  = (length (filter P l) + if bool_decide (P x) then 1 else 0)%nat.
Proof.
  rewrite list.filter_app, length_app. f_equal.
  rewrite filter_cons. destruct (decide (P x)).
  - by rewrite bool_decide_eq_true_2.
  - by rewrite bool_decide_eq_false_2.
Qed.

Lemma own_count (user viewer : JwtPayload) :
  (if bool_decide (Some (userId user) = Some (userId viewer))
   then 1 else 0)%nat = own user viewer.
Proof.
  unfold own. repeat case_bool_decide; congruence.
Qed.

(** X22: the dashboard follows the writes.  A request that is answered
    with 201 raises by one the count that the dashboard of the user who
    made it shows for the kind of the row, and leaves the count of every
    other viewer of that role as it was: [totalEquipment] and
    [activeListings] of an equipment provider after [POST
    /api/v1/equipment], [totalProduce] and [activeListings] of a farmer
    after [POST /api/v1/produce], on both servers, and [totalOrders] of a
    consumer after [POST /api/v1/orders] on [index.js]. *)
Theorem dashboard_follows_writes (v : Variant) (bookings : list Booking)
    (t t' : Z) (h h' : Headers) (s : Server) (user viewer : JwtPayload) :
  authenticated t s h user → authenticated t' s h' viewer →
  (role viewer = "equipment_provider" →
   ∀ b r s', post_equipment v t h b s = (r, s') → status r = 201 →
     ∃ n k k',
       Dashboard.get_stats bookings t' h' s
       = Payload 200 (ProviderStats n k 0 n) ∧
       Dashboard.get_stats bookings t' h' s'
       = Payload 200
           (ProviderStats (n + own user viewer) k' 0 (n + own user viewer))) ∧
  (role viewer = "farmer" →
   ∀ b r s', post_produce v t h b s = (r, s') → reply_status r = 201 →
     ∃ n k,
       Dashboard.get_stats bookings t' h' s
       = Payload 200 (FarmerStats n k 0 n) ∧
       Dashboard.get_stats bookings t' h' s'
       = Payload 200
           (FarmerStats (n + own user viewer) k 0 (n + own user viewer))) ∧
  (role viewer = "consumer" →
   ∀ b r s', Pg.post_orders t h b s = (r, s') → status r = 201 →
     ∃ n,
       Dashboard.get_stats bookings t' h' s = Payload 200 (OrderStats n 0 0 0) ∧
       Dashboard.get_stats bookings t' h' s'
       = Payload 200 (OrderStats (n + own user viewer) 0 0 0)).
Proof.
  intros Ha Hv. repeat split; intros Hrole b r s' Hpost Hst.
  - destruct (post_equipment_201 v t h b s r s' user Hpost Hst Ha)
      as (e & Hdb & Ho & Hk).
    pose proof (authenticated_secret _ _ _ _ _ Hk Hv) as Hv'.
    unfold Dashboard.get_stats.
    rewrite (authenticateToken_next _ _ _ _ _ _ Hv),
      (authenticateToken_next _ _ _ _ _ _ Hv').
    unfold Dashboard.stats. rewrite Hrole. simpl.
    eexists _, _, _. split; [done|].
    unfold Dashboard.count_equipment. rewrite Hdb. simpl.
    rewrite length_filter_snoc, Ho, own_count. done.
  - destruct (post_produce_201 v t h b s r s' user Hpost Hst Ha)
      as (p & Hdb & Ho & Hk).
    pose proof (authenticated_secret _ _ _ _ _ Hk Hv) as Hv'.
    unfold Dashboard.get_stats.
    rewrite (authenticateToken_next _ _ _ _ _ _ Hv),
      (authenticateToken_next _ _ _ _ _ _ Hv').
    unfold Dashboard.stats. rewrite Hrole. simpl.
    eexists _, _. split; [done|].
    unfold Dashboard.count_produce. rewrite Hdb. simpl.
    rewrite length_filter_snoc, Ho, own_count. done.
  - destruct (post_orders_201_inv t h b s r s' user Hpost Hst Ha)
      as (o & rows & Hdb & Ho & Hk).
    pose proof (authenticated_secret _ _ _ _ _ Hk Hv) as Hv'.
    unfold Dashboard.get_stats.
    rewrite (authenticateToken_next _ _ _ _ _ _ Hv),
      (authenticateToken_next _ _ _ _ _ _ Hv').
    unfold Dashboard.stats. rewrite Hrole. simpl.
    eexists. split; [done|].
    unfold Dashboard.count_orders. rewrite Hdb. simpl.
    rewrite length_filter_snoc, Ho, own_count. done.
Qed.

Lemma dashboard_follows_writes_witness :
  ∃ n k k',
    Dashboard.get_stats [] 4000 (bearer priya_token) market
    = Payload 200 (ProviderStats n k 0 n) ∧
    Dashboard.get_stats [] 4000 (bearer priya_token)
      (post_equipment index_js 3000 (bearer priya_token) tractor market).2
    = Payload 200
        (ProviderStats (n + own priya_payload priya_payload) k' 0
           (n + own priya_payload priya_payload)).
Proof.
  assert (authenticated 3000 market (bearer priya_token) priya_payload) as Ha.
  { exists [Opaque "Bearer"; priya_token], priya_token. by vm_compute. }
  assert (authenticated 4000 market (bearer priya_token) priya_payload) as Hv.
  { exists [Opaque "Bearer"; priya_token], priya_token. by vm_compute. }
  destruct (dashboard_follows_writes index_js [] 3000 4000 _ _ market _ _
              Ha Hv) as (He & _ & _).
  apply (He eq_refl tractor
           (post_equipment index_js 3000 (bearer priya_token) tractor market).1).
  - apply surjective_pairing.
  - reflexivity.
Defined.

(** ** Seeding *)

Lemma pg_insert_users_ok us : ∀ s,
  Forall (λ id, id < uuid_supply s)%nat (user_id <$> users (db s)) →
  NoDup (seed_phone <$> us) →
  Forall (λ su, Forall (λ u, user_phone u ≠ seed_phone su) (users (db s)))
    us →
  Forall (λ su, seed_ok su = true) us →
  Seed.pg_insert_users us s
  = Next ()
      (mkServer
         (with_users (db s) (users (db s) ++ seeded_from (uuid_supply s) us))
         (otpStore s) (uuid_supply s + length us) (JWT_SECRET s)).
Proof.
  induction us as [|su rest IH]; intros s Hids Hnd Hph Hok.
  - simpl. unfold mret, Handler_ret. f_equal.
    destruct s as [d o n k], d. simpl. rewrite app_nil_r. f_equal. lia.
  - rewrite fmap_cons in Hnd. apply list.NoDup_cons in Hnd as [Hnew Hnd].
    apply list.Forall_cons in Hph as [Hph1 Hph].
    apply list.Forall_cons in Hok as [Hok1 Hok].
    unfold seed_ok in Hok1.
    repeat (apply andb_prop in Hok1 as [Hok1 ?]).
    simpl. unfold mbind at 1, Handler_bind at 1, gen_uuid. simpl.
    unfold mbind at 1, Handler_bind at 1, query, Pg.insert_user. simpl.
    rewrite (fresh_primary_key user_id _ _ Hids).
    unfold unique_phone. rewrite (bool_decide_eq_true_2 _ Hph1).
    replace (varchar 255 (seed_name su)) with true by done.
    replace (varchar 20 (seed_phone su)) with true by done.
    replace (varchar 50 (seed_role su)) with true by done.
    replace (check_role (seed_role su)) with true by done.
    replace (varchar 255 (seed_location su)) with true by done.
    simpl. rewrite IH; simpl.
    + f_equal. f_equal; [|lia]. unfold with_users. simpl.
      by rewrite <- app_assoc.
    + rewrite fmap_app. apply Forall_app. split.
      * eapply Forall_lt_mono; [|exact Hids]. lia.
      * repeat constructor.
    + done.
    + apply list.Forall_forall. intros su' Hin.
      eapply list.Forall_forall in Hph; [|exact Hin].
      apply Forall_app. split; [done|]. constructor; [|constructor].
      simpl. intros Heq. apply Hnew. rewrite Heq.
      by apply list_elem_of_fmap_2.
    + done.
Qed.

Lemma gen_uuids_ok k : ∀ s,
  Seed.gen_uuids k s
  = Next (seq (uuid_supply s) k)
      (mkServer (db s) (otpStore s) (uuid_supply s + k) (JWT_SECRET s)).
Proof.
  induction k as [|k IH]; intros s; simpl.
  - unfold mret, Handler_ret. f_equal. destruct s. simpl. f_equal. lia.
  - unfold mbind at 1, Handler_bind at 1, gen_uuid. simpl.
    unfold mbind, Handler_bind. rewrite IH. simpl.
    unfold mret, Handler_ret. f_equal. f_equal. lia.
Qed.

Lemma sqlite_insert_users_ok l : ∀ s,
  NoDup (l.*1) →
  Forall (λ p, p.1 ∉ user_id <$> users (db s)) l →
  NoDup (seed_phone <$> l.*2) →
  Forall (λ p, Forall (λ u, user_phone u ≠ seed_phone p.2) (users (db s)))
    l →
  Forall (λ p, seed_ok p.2 = true) l →
  Seed.sqlite_insert_users l s
  = Next ()
      (set_db s
         (with_users (db s)
            (users (db s) ++ ((λ p, seeded_user p.1 p.2) <$> l)))).
Proof.
  induction l as [|[id su] rest IH]; intros s Hnd Hids Hph Hex Hok.
  - simpl. unfold mret, Handler_ret. f_equal.
    destruct s as [d o n k], d. simpl. by rewrite app_nil_r.
  - rewrite !fmap_cons in Hnd. rewrite !fmap_cons in Hph.
    simpl in Hnd, Hph.
    apply list.NoDup_cons in Hnd as [Hnew Hnd].
    apply list.NoDup_cons in Hph as [Hpnew Hph].
    apply list.Forall_cons in Hids as [Hid1 Hids].
    apply list.Forall_cons in Hex as [Hex1 Hex].
    apply list.Forall_cons in Hok as [Hok1 Hok].
    unfold seed_ok in Hok1. simpl in *.
    repeat (apply andb_prop in Hok1 as [Hok1 ?]).
    unfold mbind at 1, Handler_bind at 1, query, Sqlite.insert_user. simpl.
    unfold primary_key, unique_phone.
    rewrite (bool_decide_eq_true_2 _ Hid1), (bool_decide_eq_true_2 _ Hex1).
    replace (check_role (seed_role su)) with true by done.
    simpl. rewrite IH; simpl.
    + f_equal. unfold set_db, with_users. simpl. by rewrite <- app_assoc.
    + done.
    + apply list.Forall_forall. intros p Hin.
      eapply list.Forall_forall in Hids; [|exact Hin].
      rewrite fmap_app. intros [?|Heq%list_elem_of_singleton]%elem_of_app;
        [done|].
      apply Hnew. simpl in Heq. rewrite <- Heq.
      by apply (list_elem_of_fmap_2 fst).
    + done.
    + apply list.Forall_forall. intros p Hin.
      eapply list.Forall_forall in Hex; [|exact Hin].
      apply Forall_app. split; [done|]. constructor; [|constructor].
      simpl. intros Heq. apply Hpnew. rewrite Heq.
      apply list_elem_of_fmap_2. by apply (list_elem_of_fmap_2 snd) in Hin.
    + done.
Qed.

Lemma insert_rows_ok {A} (key : A → uuid) (table : Db → list A)
    (with_table : Db → list A → Db)
    (insert : A → Db → option (Db * unit)) (rows : list A) :
  (∀ d l, table (with_table d l) = l) →
  (∀ d l l', with_table (with_table d l) l' = with_table d l') →
  (∀ d, with_table d (table d) = d) →
  (∀ row d, insert row d
            = if primary_key (key <$> table d) (key row)
              then Some (with_table d (table d ++ [row]), ()) else None) →
  ∀ s,
    NoDup (key <$> rows) →
    Forall (λ row, key row ∉ key <$> table (db s)) rows →
    Seed.insert_rows insert rows s
    = Next () (set_db s (with_table (db s) (table (db s) ++ rows))).
Proof.
  intros Hget Hset Hsame Hins. induction rows as [|row rest IH];
    intros s Hnd Hfresh.
  - simpl. unfold mret, Handler_ret. f_equal.
    rewrite app_nil_r, Hsame. by destruct s.
  - rewrite fmap_cons in Hnd. apply list.NoDup_cons in Hnd as [Hnew Hnd].
    apply list.Forall_cons in Hfresh as [Hf1 Hfresh].
    simpl. unfold mbind at 1, Handler_bind at 1, query. rewrite Hins.
    unfold primary_key. rewrite (bool_decide_eq_true_2 _ Hf1).
    rewrite IH; simpl.
    + f_equal. unfold set_db. simpl. by rewrite Hget, Hset, <- app_assoc.
    + done.
    + rewrite Hget. apply list.Forall_forall. intros r Hin.
      eapply list.Forall_forall in Hfresh; [|exact Hin].
      rewrite fmap_app. intros [?|Heq%list_elem_of_singleton]%elem_of_app;
        [done|].
      apply Hnew. simpl in Heq. rewrite <- Heq. by apply list_elem_of_fmap_2.
Qed.

Lemma seed_users_phones : NoDup (seed_phone <$> seed_users).
Proof. apply (bool_decide_unpack _). by vm_compute. Qed.

Lemma seed_users_ok : Forall (λ su, seed_ok su = true) seed_users.
Proof. repeat constructor. Qed.

Lemma pg_seedData_empty s :
  users (db s) = [] →
  Seed.pg_seedData s
  = mkServer (with_users (db s) (seeded_from (uuid_supply s) seed_users))
      (otpStore s) (uuid_supply s + 5) (JWT_SECRET s).
Proof.
  intros He. unfold Seed.pg_seedData. rewrite He. simpl length.
  rewrite bool_decide_eq_false_2 by lia.
  rewrite pg_insert_users_ok.
  - simpl state_of. by rewrite He.
  - rewrite He. constructor.
  - apply seed_users_phones.
  - rewrite He. repeat constructor.
  - apply seed_users_ok.
Qed.

Lemma sqlite_seed_users now s :
  users (db s) = [] →
  ∃ s1,
    Seed.sqlite_seed now s
    = (eids ← Seed.gen_uuids 2;
       _ ← Seed.insert_rows Seed.sqlite_insert_equipment_row
             (Seed.sampleEquipment now eids (Some (S (uuid_supply s))));
       pids ← Seed.gen_uuids 2;
       Seed.insert_rows Seed.sqlite_insert_produce_row
         (Seed.sampleProduce now pids (Some (uuid_supply s)))) s1 ∧
    s1 = mkServer (with_users (db s) (seeded_from (uuid_supply s) seed_users))
           (otpStore s) (uuid_supply s + 5) (JWT_SECRET s).
Proof.
  intros He. eexists. split; [|reflexivity].
  unfold Seed.sqlite_seed.
  unfold mbind at 1, Handler_bind at 1. rewrite gen_uuids_ok.
  simpl length. cbv zeta.
  unfold mbind at 1, Handler_bind at 1.
  rewrite sqlite_insert_users_ok.
  - simpl. by rewrite He.
  - simpl. apply (NoDup_seq _ 5).
  - simpl. rewrite He. repeat constructor; apply not_elem_of_nil.
  - apply seed_users_phones.
  - simpl. rewrite He. repeat constructor.
  - simpl. repeat constructor.
Qed.

Lemma keeps_users_bind {A B} (m : Handler A) (f : A → Handler B) :
  keeps_users m → (∀ a, keeps_users (f a)) → keeps_users (m ≫= f).
Proof.
  intros Hm Hf s. specialize (Hm s).
  unfold mbind, Handler_bind. destruct (m s) as [a s1|r s1|s1]; simpl in *;
    [|done..].
  by rewrite Hf.
Qed.

Lemma keeps_users_gen_uuids k : keeps_users (Seed.gen_uuids k).
Proof. intros s. by rewrite gen_uuids_ok. Qed.

Lemma keeps_users_insert_rows {A} (insert : A → Db → option (Db * unit))
    (rows : list A) :
  (∀ row d d', insert row d = Some (d', ()) → users d' = users d) →
  keeps_users (Seed.insert_rows insert rows).
Proof.
  intros Hins. induction rows as [|row rest IH]; [done|].
  simpl. apply keeps_users_bind; [|done].
  intros s. unfold query.
  destruct (insert row (db s)) as [[d' []]|] eqn:Hi; [|done].
  simpl. by apply Hins in Hi.
Qed.

Lemma keeps_users_equipment_row row d d' :
  Seed.sqlite_insert_equipment_row row d = Some (d', ()) → users d' = users d.
Proof.
  unfold Seed.sqlite_insert_equipment_row.
  destruct (primary_key _ _); [|done]. by intros [= <-].
Qed.

Lemma keeps_users_produce_row row d d' :
  Seed.sqlite_insert_produce_row row d = Some (d', ()) → users d' = users d.
Proof.
  unfold Seed.sqlite_insert_produce_row.
  destruct (primary_key _ _); [|done]. by intros [= <-].
Qed.

Lemma seedData_users v now s :
  users (db s) = [] →
  users (db (seedData v now s)) = seeded_from (uuid_supply s) seed_users.
Proof.
  intros He. destruct v; simpl.
  - by rewrite pg_seedData_empty.
  - unfold Seed.sqlite_seedData. rewrite He. simpl length.
    rewrite bool_decide_eq_false_2 by lia.
    destruct (sqlite_seed_users now s He) as (s1 & -> & ->).
    match goal with
    | |- users (db (state_of (?m ?s1))) = _ =>
        assert (keeps_users m) as Hk
    end.
    { apply keeps_users_bind; [apply keeps_users_gen_uuids|]. intros eids.
      apply keeps_users_bind.
      { apply keeps_users_insert_rows, keeps_users_equipment_row. }
      intros _. apply keeps_users_bind; [apply keeps_users_gen_uuids|].
      intros pids.
      apply keeps_users_insert_rows, keeps_users_produce_row. }
    by rewrite Hk.
Qed.

Lemma seedData_seeded v now s :
  users (db s) ≠ [] → seedData v now s = s.
Proof.
  intros Hne. destruct (users (db s)) as [|u us] eqn:Hu; [done|].
  destruct v; simpl; unfold Seed.pg_seedData, Seed.sqlite_seedData;
    rewrite Hu; simpl length; by rewrite bool_decide_eq_true_2 by lia.
Qed.

(** X23: [seedData] seeds once, on both servers.  On an empty table of
    users it stores the five sample users, verified, in the order and with
    the roles of the source, whatever the other tables hold; on any other
    table it changes nothing; so a second start of the server, at any
    time, leaves the state of the first as it is. *)
Theorem seedData_once (v : Variant) (now now' : Z) (s : Server) :
  (users (db s) = [] →
   users (db (seedData v now s)) = seeded_from (uuid_supply s) seed_users) ∧
  (users (db s) ≠ [] → seedData v now s = s) ∧
  seedData v now' (seedData v now s) = seedData v now s.
Proof.
  split; [apply seedData_users|]. split; [apply seedData_seeded|].
  destruct (users (db s)) as [|u us] eqn:Hu.
  - apply seedData_seeded. by rewrite seedData_users.
  - rewrite !(seedData_seeded v now s); try by rewrite Hu.
    apply seedData_seeded. by rewrite Hu.
Qed.

Lemma insert_equipment_rows_ok rows s :
  NoDup (equipment_id <$> rows) →
  Forall (λ row, equipment_id row ∉ equipment_id <$> equipment (db s)) rows →
  Seed.insert_rows Seed.sqlite_insert_equipment_row rows s
  = Next () (set_db s (with_equipment (db s) (equipment (db s) ++ rows))).
Proof.
  apply (insert_rows_ok equipment_id equipment with_equipment); try done.
  by intros [].
Qed.

Lemma insert_produce_rows_ok rows s :
  NoDup (produce_id <$> rows) →
  Forall (λ row, produce_id row ∉ produce_id <$> produce (db s)) rows →
  Seed.insert_rows Seed.sqlite_insert_produce_row rows s
  = Next () (set_db s (with_produce (db s) (produce (db s) ++ rows))).
Proof.
  apply (insert_rows_ok produce_id produce with_produce); try done.
  by intros [].
Qed.

Lemma fresh_not_elem_of (ids : list uuid) (n m : nat) :
  Forall (λ id, id < n)%nat ids → (n ≤ m)%nat → m ∉ ids.
Proof.
  intros Hf Hle Hin. eapply list.Forall_forall in Hf; [|exact Hin]. lia.
Qed.

Lemma sqlite_seedData_empty now s :
  users (db s) = [] → supply_fresh s → produce_fresh s →
  Seed.sqlite_seedData now s
  = mkServer
      (mkDb (seeded_from (uuid_supply s) seed_users)
         (equipment (db s) ++ seeded_equipment now (uuid_supply s))
         (produce (db s) ++ seeded_produce now (uuid_supply s))
         (products (db s)) (orders (db s)) (order_items (db s)))
      (otpStore s) (uuid_supply s + 5 + 2 + 2) (JWT_SECRET s).
Proof.
  intros He (_ & Hfe & _) Hfp.
  unfold Seed.sqlite_seedData. rewrite He. simpl length.
  rewrite bool_decide_eq_false_2 by lia.
  destruct (sqlite_seed_users now s He) as (s1 & -> & ->).
  unfold mbind at 1, Handler_bind at 1. rewrite gen_uuids_ok.
  unfold mbind at 1, Handler_bind at 1.
  rewrite insert_equipment_rows_ok.
  - unfold mbind at 1, Handler_bind at 1. rewrite gen_uuids_ok.
    rewrite insert_produce_rows_ok.
    + reflexivity.
    + simpl. repeat constructor; [|apply not_elem_of_nil].
      intros Hin%list_elem_of_singleton. lia.
    + simpl. apply list.Forall_cons. split; [|apply list.Forall_cons; split];
        [..|apply Forall_nil]; simpl;
        (eapply fresh_not_elem_of; [exact Hfp|lia]).
  - simpl. repeat constructor; [|apply not_elem_of_nil].
    intros Hin%list_elem_of_singleton. lia.
  - simpl. apply list.Forall_cons. split; [|apply list.Forall_cons; split];
      [..|apply Forall_nil]; simpl;
      (eapply fresh_not_elem_of; [exact Hfe|lia]).
Qed.

(** X24: once [seedData] of [index-sqlite.js] has run on an empty table
    of users, with ids that are not in use, the two sample equipment rows
    and the two sample produce rows are stored after the rows that were
    there, and the listings show each of them: the equipment with Priya
    Sharma, the sample equipment provider, as owner, and the produce with
    Rajesh Kumar, the sample farmer. *)
Theorem sqlite_seedData_listed (like : string → string → bool) (now : Z)
    (s : Server) :
  users (db s) = [] → supply_fresh s → produce_fresh s →
  let s' := seedData index_sqlite_js now s in
  equipment (db s') = equipment (db s) ++ seeded_equipment now (uuid_supply s) ∧
  produce (db s') = produce (db s) ++ seeded_produce now (uuid_supply s) ∧
  (∀ e, e ∈ seeded_equipment now (uuid_supply s) →
     ∃ u, (e, u) ∈ select_equipment index_sqlite_js like (db s') all_equipment ∧
          user_name u = "Priya Sharma" ∧ user_role u = "equipment_provider") ∧
  (∀ p, p ∈ seeded_produce now (uuid_supply s) →
     ∃ u, (p, u) ∈ select_produce index_sqlite_js (db s') all_produce ∧
          user_name u = "Rajesh Kumar" ∧ user_role u = "farmer").
Proof.
  intros He Hf Hfp s'. subst s'. simpl seedData.
  rewrite sqlite_seedData_empty by done. simpl db.
  split; [done|]. split; [done|]. split.
  - intros e Hin.
    exists (seeded_user (S (uuid_supply s))
              (mkSeedUser "Priya Sharma" "9876543211" "equipment_provider"
                 "Haryana")).
    split; [|done]. apply elem_of_select_equipment.
    unfold equipment_selected. simpl.
    split; [apply elem_of_app; by right|].
    split; [right; by left|].
    unfold seeded_equipment in Hin. simpl in Hin.
    apply elem_of_cons in Hin as [->|Hin];
      [|apply list_elem_of_singleton in Hin as ->]; done.
  - intros p Hin.
    exists (seeded_user (uuid_supply s)
              (mkSeedUser "Rajesh Kumar" "9876543210" "farmer" "Punjab")).
    split; [|done]. apply elem_of_select_produce.
    unfold produce_selected. simpl.
    split; [apply elem_of_app; by right|].
    split; [by left|].
    unfold seeded_produce in Hin. simpl in Hin.
    apply elem_of_cons in Hin as [->|Hin];
      [|apply list_elem_of_singleton in Hin as ->]; done.
Qed.

Lemma sqlite_seedData_listed_witness :
  let s' := seedData index_sqlite_js 1000 boot in
  equipment (db s') = equipment (db boot) ++ seeded_equipment 1000 0 ∧
  produce (db s') = produce (db boot) ++ seeded_produce 1000 0 ∧
  (∀ e, e ∈ seeded_equipment 1000 0 →
     ∃ u, (e, u) ∈ select_equipment index_sqlite_js (λ _ _, true) (db s')
                     all_equipment ∧
          user_name u = "Priya Sharma" ∧ user_role u = "equipment_provider") ∧
  (∀ p, p ∈ seeded_produce 1000 0 →
     ∃ u, (p, u) ∈ select_produce index_sqlite_js (db s') all_produce ∧
          user_name u = "Rajesh Kumar" ∧ user_role u = "farmer").
Proof.
  apply (sqlite_seedData_listed (λ _ _, true) 1000 boot).
  - reflexivity.
  - repeat split; constructor.
  - constructor.
Defined.

(** ** Tokens and stored users *)



(** X26: a stored user signs in without registering, on both servers:
    after [request-otp] for the phone, [verify-otp] with the code that was
    drawn, within the 300 seconds, answers 200 with a token that carries
    the id, phone and role of the stored row and that the middleware
    accepts; no row is added to any table and the code is consumed. *)
Theorem login_stored_user (v : Variant) (t1 t2 u : Z) (p : string)
    (user : User) (s : Server) :
  p ≠ "" → head (users_by_phone (db s) p) = Some user →
  t2 ≤ t1 + 300000 →
  ∃ token s2,
    verify_otp v t2 (mkOtpBody (Some p) (Some (generateOTP u)))
      (request_otp v t1 u (mkOtpBody (Some p) None) s).2
    = (json (JSession token (view user)), s2) ∧
    decode token
    = Some (mkPayload (user_id user) (user_phone user) (user_role user)) ∧
    authenticated t2 s2 (bearer token)
      (mkPayload (user_id user) (user_phone user) (user_role user)) ∧
    db s2 = db s ∧ otpStore s2 !! p = None.
Proof.
  intros Hp Hu Ht.
  rewrite (request_otp_stores v t1 u _ p s) by done. simpl.
  rewrite (verify_otp_login v t2 p (generateOTP u) (t1 + 300000) user);
    try done.
  - unfold session. simpl. eexists _, _. split; [done|].
    split; [done|]. split.
    + eexists _, _. split; [done|]. split; [done|].
      unfold jwt_sign. simpl. rewrite bool_decide_eq_true_2 by done.
      rewrite bool_decide_eq_true_2 by lia. done.
    + split; [done|]. apply lookup_delete_eq.
  - apply generateOTP_nonempty.
  - simpl. apply lookup_insert_eq.
Qed.

Lemma login_stored_user_witness :
  ∃ token s2,
    verify_otp index_sqlite_js 9000
      (mkOtpBody (Some "9876543212") (Some (generateOTP 23456)))
      (request_otp index_sqlite_js 5000 23456
         (mkOtpBody (Some "9876543212") None) market).2
    = (json (JSession token (view amit)), s2) ∧
    decode token
    = Some (mkPayload (user_id amit) (user_phone amit) (user_role amit)) ∧
    authenticated 9000 s2 (bearer token)
      (mkPayload (user_id amit) (user_phone amit) (user_role amit)) ∧
    db s2 = db market ∧ otpStore s2 !! "9876543212" = None.
Proof.
  apply (login_stored_user index_sqlite_js 5000 9000 23456 "9876543212" amit
           market); [done|reflexivity|lia].
Defined.

(** X27: on both servers, [POST /api/v1/produce] with a valid token whose
    role is not ['farmer'], an ['admin'] token included, is answered with
    403 "Insufficient permissions" and leaves the state as it was. *)
Theorem post_produce_forbidden (v : Variant) (t : Z) (h : Headers)
    (b : ProduceBody) (s : Server) (user : JwtPayload) :
  authenticated t s h user → role user ≠ "farmer" →
  post_produce v t h b s
  = (Plain (error 403 "Insufficient permissions"), s).
Proof.
  intros Ha Hr.
  destruct v; simpl;
    unfold CreateProduce.pg_post_produce, CreateProduce.sqlite_post_produce;
    rewrite (authenticateToken_next _ _ _ _ _ _ Ha); unfold authorizeRole;
    rewrite bool_decide_eq_false_2; try done;
    by intros ?%list_elem_of_singleton.
Qed.

Lemma post_produce_forbidden_witness :
  post_produce index_js 3000 (bearer priya_token) okra market
  = (Plain (error 403 "Insufficient permissions"), market).
Proof.
  apply (post_produce_forbidden index_js 3000 (bearer priya_token) okra market
           priya_payload); [|done].
  exists [Opaque "Bearer"; priya_token], priya_token. by vm_compute.
Defined.
